(** * Traffic accident injury prediction: the notebook and its preprocessing

    A shallow embedding of [TrafficAccidentInjuryPrediction.ipynb].  The
    notebook is a straight line of cells over pandas and scikit-learn, run
    once from top to bottom.

    - The cells are embedded one by one, under the names of the variables
      they bind.  They run in a state and error monad: the state holds the
      one [preprocessing] object every pipeline shares and refits, the
      files written, the state of numpy's global random generator, and the
      list of the calls made into the model-building interface; an
      exception ends the run.
    - The library calls are embedded with the behaviour the libraries
      document, over the real numbers in place of float64: NaN is an
      explicit missing value, and sums, divisions and square roots are
      exact.
    - What the libraries leave to their internals (the three regression
      algorithms, the random permutation, the date parsers) is an interface,
      [Library], the development is parametric in. *)

From Stdlib Require Import Reals Lra Lia Ascii String List Bool Arith ZArith.
From Stdlib Require Import Permutation Sorted.
Import ListNotations.
Local Open Scope R_scope.

(** ** numpy reductions *)

Module np.

Definition sum (xs : list R) : R := fold_right Rplus 0 xs.

Definition mean (xs : list R) : R := sum xs / INR (length xs).

(** [np.var] with the default [ddof=0]: the population variance. *)
Definition var (xs : list R) : R :=
  mean (map (fun x => (x - mean xs) * (x - mean xs)) xs).

Definition std (xs : list R) : R := sqrt (var xs).

Fixpoint insert (x : R) (l : list R) : list R :=
  match l with
  | [] => [x]
  | y :: l' => if Rle_dec x y then x :: l else y :: insert x l'
  end.

Definition sort (xs : list R) : list R := fold_right insert [] xs.

(** [np.median]: the middle element of the sorted data, the mean of the two
    middle elements when the count is even.  Of no data there is none. *)
Definition median (xs : list R) : option R :=
  match xs with
  | [] => None
  | _ :: _ =>
      let s := sort xs in
      let n := length xs in
      Some (if Nat.even n
            then (nth (n / 2 - 1) s 0 + nth (n / 2) s 0) / 2
            else nth (n / 2) s 0)
  end.

End np.

(** ** pandas data *)

(** The three fields of a timestamp the notebook reads through [.dt]. *)
Record Timestamp : Type := {
  year : Z;
  month : Z;
  dayofweek : Z
}.

(** Two UTC offsets, or the lack of one, can be told apart. *)
Definition offset_eq_dec (a b : option Z) : {a = b} + {a <> b}.
Proof. decide equality. apply Z.eq_dec. Defined.

(** A column: its dtype and its cells.  [None] is the missing value of the
    dtype: NaN in a float64 or object column, NaT in a datetime64 one.  An
    int64 column is a float64 column without NaN; the frame of the notebook
    has no column of another dtype. *)
Inductive Series : Type :=
| Float64 (cells : list (option R))
| Object (cells : list (option string))
| Datetime64 (cells : list (option Timestamp)).

(** Columns in frame order, under their labels.  The frame [pd.read_csv]
    returns has distinct labels and columns of one length; neither is built
    into the type, and a property that needs one says so. *)
Definition DataFrame : Type := list (string * Series).

Definition series_length (s : Series) : nat :=
  match s with
  | Float64 c => length c
  | Object c => length c
  | Datetime64 c => length c
  end.

Definition n_rows (df : DataFrame) : nat :=
  match df with
  | [] => 0%nat
  | (_, s) :: _ => series_length s
  end.

(** The first entry under a label. *)
Fixpoint assoc {A : Type} (l : list (string * A)) (name : string) : option A :=
  match l with
  | [] => None
  | (k, a) :: l' => if String.eqb k name then Some a else assoc l' name
  end.

(** [df[name]]: [None] stands for the KeyError. *)
Definition getitem (df : DataFrame) (name : string) : option Series :=
  assoc df name.

(** [df[name] = s]: an existing column is replaced where it stands, a new
    one is appended. *)
Fixpoint setitem (df : DataFrame) (name : string) (s : Series) : DataFrame :=
  match df with
  | [] => [(name, s)]
  | (k, s0) :: df' =>
      if String.eqb k name then (k, s) :: df' else (k, s0) :: setitem df' name s
  end.

Definition has_column (df : DataFrame) (name : string) : bool :=
  existsb (fun c => String.eqb (fst c) name) df.

(** [df.drop(columns=names)]: every label has to be there (KeyError). *)
Definition drop (df : DataFrame) (names : list string) : option DataFrame :=
  if forallb (has_column df) names
  then Some (filter (fun c => negb (existsb (String.eqb (fst c)) names)) df)
  else None.

(** The cells at the positions [idx], in that order.  The positions the
    notebook takes are those of a permutation or of a fold, all of them
    rows of the frame. *)
Definition take {A : Type} (idx : list nat) (xs : list A) : list A :=
  flat_map (fun i => match nth_error xs i with Some x => [x] | None => [] end) idx.

Definition series_take (idx : list nat) (s : Series) : Series :=
  match s with
  | Float64 c => Float64 (take idx c)
  | Object c => Object (take idx c)
  | Datetime64 c => Datetime64 (take idx c)
  end.

(** [df.iloc[idx]] *)
Definition iloc (df : DataFrame) (idx : list nat) : DataFrame :=
  map (fun c => (fst c, series_take idx (snd c))) df.

(** [Series.dt.<field>]: float64, NaN where the date is NaT.  On another
    dtype the accessor raises. *)
Definition dt (field : Timestamp -> Z) (s : Series) : option Series :=
  match s with
  | Datetime64 c => Some (Float64 (map (option_map (fun t => IZR (field t))) c))
  | _ => None
  end.

(** ** scikit-learn transformers, as the notebook configures them *)

Definition dropna {A : Type} (xs : list (option A)) : list A :=
  flat_map (fun o => match o with Some x => [x] | None => [] end) xs.

Definition fillna {A : Type} (v : A) (xs : list (option A)) : list A :=
  map (fun o => match o with Some x => x | None => v end) xs.

(** A named column of an array on its way through a pipeline. *)
Definition Column (A : Type) : Type := (string * list A)%type.

Module SimpleImputer.

Definition count (v : string) (xs : list string) : nat :=
  count_occ string_dec xs v.

(** Whether [a] is to be preferred to [b]: more occurrences, the smaller
    value on a tie. *)
Definition preferred (xs : list string) (a b : string) : bool :=
  (count b xs <? count a xs)%nat
  || ((count a xs =? count b xs)%nat && String.leb a b).

(** [strategy='most_frequent'] *)
Definition most_frequent (xs : list string) : option string :=
  fold_right
    (fun x best =>
       match best with
       | None => Some x
       | Some b => if preferred xs x b then Some x else Some b
       end)
    None xs.

(** [fit]: one statistic per column, over the cells that are not missing;
    none for a column that has only missing cells. *)
Definition fit {A : Type} (statistic : list A -> option A)
    (X : list (Column (option A))) : list (option A) :=
  map (fun c => statistic (dropna (snd c))) X.

(** [transform]: missing cells take the column's statistic; a column that
    had no statistic at [fit] is dropped ([keep_empty_features=False]).
    [None] is the ValueError on a different number of columns. *)
Fixpoint transform {A : Type} (statistics_ : list (option A))
    (X : list (Column (option A))) : option (list (Column A)) :=
  match statistics_, X with
  | [], [] => Some []
  | st :: sts, c :: X' =>
      match transform sts X' with
      | None => None
      | Some r =>
          Some match st with
               | Some v => (fst c, fillna v (snd c)) :: r
               | None => r
               end
      end
  | _, _ => None
  end.

End SimpleImputer.

Module StandardScaler.

(** [scale_]: the standard deviation, 1 for a constant column. *)
Definition scale (xs : list R) : R :=
  if Req_dec_T (np.var xs) 0 then 1 else np.std xs.

(** [fit]: [(mean_, scale_)] per column. *)
Definition fit (X : list (Column R)) : list (R * R) :=
  map (fun c => (np.mean (snd c), scale (snd c))) X.

Definition transform_column (p : R * R) (xs : list R) : list R :=
  map (fun x => (x - fst p) / snd p) xs.

Fixpoint transform (params : list (R * R)) (X : list (Column R))
    : option (list (Column R)) :=
  match params, X with
  | [], [] => Some []
  | p :: ps, c :: X' =>
      match transform ps X' with
      | None => None
      | Some r => Some ((fst c, transform_column p (snd c)) :: r)
      end
  | _, _ => None
  end.

End StandardScaler.

Module OneHotEncoder.

Inductive handle_unknown : Type := error | ignore.

Fixpoint insert (x : string) (l : list string) : list string :=
  match l with
  | [] => [x]
  | y :: l' => if String.leb x y then x :: l else y :: insert x l'
  end.

(** [categories_] of one column: its distinct values, sorted. *)
Definition categories (xs : list string) : list string :=
  fold_right insert [] (nodup string_dec xs).

Definition fit (X : list (Column string)) : list (list string) :=
  map (fun c => categories (snd c)) X.

(** One row of the encoding of one column. *)
Definition indicator (cats : list string) (v : string) : list R :=
  map (fun c => if String.eqb v c then 1 else 0) cats.

(** A value that is not among the categories raises under
    [handle_unknown='error'] and encodes as zeros under ['ignore']. *)
Definition known (hu : handle_unknown) (cats : list string) (xs : list string)
    : bool :=
  match hu with
  | ignore => true
  | error => forallb (fun v => existsb (String.eqb v) cats) xs
  end.

(** The encoding of one column, as output columns: one per category, named
    [<column>_<category>]. *)
Definition transform_column (hu : handle_unknown) (cats : list string)
    (c : Column string) : option (list (Column R)) :=
  if known hu cats (snd c)
  then Some (map (fun k =>
                    ((fst c ++ "_" ++ k)%string,
                     map (fun v => if String.eqb v k then 1 else 0) (snd c)))
                 cats)
  else None.

Fixpoint transform (hu : handle_unknown) (categories_ : list (list string))
    (X : list (Column string)) : option (list (Column R)) :=
  match categories_, X with
  | [], [] => Some []
  | cats :: cs, c :: X' =>
      match transform_column hu cats c, transform hu cs X' with
      | Some a, Some r => Some (a ++ r)
      | _, _ => None
      end
  | _, _ => None
  end.

End OneHotEncoder.


(** *** Cell 5: the two column pipelines *)

(** [Pipeline([('imputer', SimpleImputer(strategy='median')),
               ('scaler', StandardScaler())])] *)
Module num_pipeline.

Record fitted : Type := {
  statistics_ : list (option R);
  scaler_ : list (R * R)
}.

Definition imputed (st : list (option R)) (X : list (Column (option R)))
    : option (list (Column R)) :=
  match SimpleImputer.transform st X with
  | Some [] => None (* StandardScaler: the array has 0 features *)
  | r => r
  end.

Definition fit (X : list (Column (option R))) : option fitted :=
  let st := SimpleImputer.fit np.median X in
  match imputed st X with
  | None => None
  | Some Xi => Some {| statistics_ := st; scaler_ := StandardScaler.fit Xi |}
  end.

Definition transform (f : fitted) (X : list (Column (option R)))
    : option (list (Column R)) :=
  match imputed (statistics_ f) X with
  | None => None
  | Some Xi => StandardScaler.transform (scaler_ f) Xi
  end.

End num_pipeline.

(** [Pipeline([('imputer', SimpleImputer(strategy='most_frequent')),
               ('onehot', OneHotEncoder(handle_unknown='ignore'))])] *)
Module cat_pipeline.

Record fitted : Type := {
  statistics_ : list (option string);
  categories_ : list (list string)
}.

Definition imputed (st : list (option string)) (X : list (Column (option string)))
    : option (list (Column string)) :=
  match SimpleImputer.transform st X with
  | Some [] => None (* OneHotEncoder: the array has 0 features *)
  | r => r
  end.

Definition fit (X : list (Column (option string))) : option fitted :=
  let st := SimpleImputer.fit SimpleImputer.most_frequent X in
  match imputed st X with
  | None => None
  | Some Xi => Some {| statistics_ := st; categories_ := OneHotEncoder.fit Xi |}
  end.

Definition transform (f : fitted) (X : list (Column (option string)))
    : option (list (Column R)) :=
  match imputed (statistics_ f) X with
  | None => None
  | Some Xi => OneHotEncoder.transform OneHotEncoder.ignore (categories_ f) Xi
  end.

End cat_pipeline.

(** *** Cell 7: the column transformer

    [make_column_transformer((num_pipeline, make_column_selector(dtype_include=np.number)),
                             (cat_pipeline, make_column_selector(dtype_include=object)))].
    Columns of another dtype are dropped ([remainder='drop']). *)
Module preprocessing.

Definition select_number (df : DataFrame) : list (Column (option R)) :=
  flat_map (fun c => match snd c with Float64 x => [(fst c, x)] | _ => [] end) df.

Definition select_object (df : DataFrame) : list (Column (option string)) :=
  flat_map (fun c => match snd c with Object x => [(fst c, x)] | _ => [] end) df.

(** A transformer whose selector picked no column is skipped, at [fit] and
    afterwards: it has no fitted state. *)
Record fitted : Type := {
  number_columns : list string;
  pipeline_1 : option num_pipeline.fitted;
  object_columns : list string;
  pipeline_2 : option cat_pipeline.fitted;
  sparse_output_ : bool
}.

Definition fit_block {A F : Type} (fit : list (Column A) -> option F)
    (X : list (Column A)) : option (option F) :=
  match X with
  | [] => Some None
  | _ :: _ => match fit X with Some f => Some (Some f) | None => None end
  end.

(** The columns named at [fit], by label; [None] when one is not there or
    has another dtype. *)
Fixpoint pick_number (df : DataFrame) (names : list string)
    : option (list (Column (option R))) :=
  match names with
  | [] => Some []
  | k :: names' =>
      match getitem df k, pick_number df names' with
      | Some (Float64 x), Some r => Some ((k, x) :: r)
      | _, _ => None
      end
  end.

Fixpoint pick_object (df : DataFrame) (names : list string)
    : option (list (Column (option string))) :=
  match names with
  | [] => Some []
  | k :: names' =>
      match getitem df k, pick_object df names' with
      | Some (Object x), Some r => Some ((k, x) :: r)
      | _, _ => None
      end
  end.

Definition prefixed (p : string) (X : list (Column R)) : list (Column R) :=
  map (fun c => ((p ++ "__" ++ fst c)%string, snd c)) X.

(** The stacked output is sparse when a block is sparse (the one-hot block
    is) and the density, stored entries over all entries, is below
    [sparse_threshold=0.3].  A dense block stores every entry, the one-hot
    block one entry per row and categorical column. *)
Definition sparse (n : nat) (f1 : option num_pipeline.fitted)
    (f2 : option cat_pipeline.fitted) : bool :=
  match f2 with
  | None => false
  | Some c =>
      let dense := match f1 with
                   | Some f => (n * length (num_pipeline.scaler_ f))%nat
                   | None => 0%nat
                   end in
      let stored := (n * length (cat_pipeline.categories_ c))%nat in
      let entries := (n * list_sum (map (@length string) (cat_pipeline.categories_ c)))%nat in
      (10 * (dense + stored) <? 3 * (dense + entries))%nat
  end.

Definition fit (df : DataFrame) : option fitted :=
  if (n_rows df =? 0)%nat then None (* an array with 0 samples *)
  else
    match fit_block num_pipeline.fit (select_number df),
          fit_block cat_pipeline.fit (select_object df) with
    | Some f1, Some f2 =>
        Some {| number_columns := map fst (select_number df);
                pipeline_1 := f1;
                object_columns := map fst (select_object df);
                pipeline_2 := f2;
                sparse_output_ := sparse (n_rows df) f1 f2 |}
    | _, _ => None
    end.

Definition transform_block {A F : Type}
    (transform : F -> list (Column A) -> option (list (Column R)))
    (p : string) (f : option F) (X : option (list (Column A)))
    : option (list (Column R)) :=
  match f, X with
  | None, _ => Some []
  | Some f, Some X => option_map (prefixed p) (transform f X)
  | Some _, None => None
  end.

(** The transformed columns, the numeric block first, under the names of
    [get_feature_names_out()]. *)
Definition transform (f : fitted) (df : DataFrame) : option (list (Column R)) :=
  match transform_block num_pipeline.transform "pipeline-1" (pipeline_1 f)
          (pick_number df (number_columns f)),
        transform_block cat_pipeline.transform "pipeline-2" (pipeline_2 f)
          (pick_object df (object_columns f)) with
  | Some a, Some b => Some (a ++ b)
  | _, _ => None
  end.

End preprocessing.

(** [pd.DataFrame(array, columns=names)] of a dense float array. *)
Definition DataFrame_of (X : list (Column R)) : DataFrame :=
  map (fun c => (fst c, Float64 (map Some (snd c)))) X.

(** The rows of an array: the samples an estimator sees. *)
Definition rows (n : nat) (X : list (Column R)) : list (list R) :=
  map (fun i => map (fun c => nth i (snd c) 0) X) (seq 0 n).

(** A column as the array of targets of an estimator: float64 without NaN. *)
Definition to_numeric (s : Series) : option (list R) :=
  match s with
  | Float64 c => if forallb (fun o => match o with Some _ => true | None => false end) c
                 then Some (dropna c) else None
  | _ => None
  end.

(** [sklearn.metrics.root_mean_squared_error] *)
Definition root_mean_squared_error (y_true y_pred : list R) : option R :=
  if (length y_true =? length y_pred)%nat && negb (length y_true =? 0)%nat
  then Some (sqrt (np.mean (map (fun p => (fst p - snd p) * (fst p - snd p))
                                (combine y_true y_pred))))
  else None.

(** ** What the libraries keep to themselves *)

Inductive Regressor : Type :=
| LinearRegression
| DecisionTreeRegressor (random_state : option Z)
| RandomForestRegressor (random_state : option Z).

(** A generator of random numbers: one made from a seed, or numpy's global
    one, whose state at the start of a run is not in the program's hands. *)
Inductive RandomState : Type :=
| seeded (seed : Z)
| global (state : nat).

(** [sklearn.utils.check_random_state] *)
Definition check_random_state (random_state : option Z) (np_random : nat)
    : RandomState :=
  match random_state with
  | Some seed => seeded seed
  | None => global np_random
  end.

(** The learning algorithms, the shuffling and the date parsers.  A fitted
    regressor predicts sample by sample; a permutation of [n] is one of
    [0 .. n-1].  A date parses to the fields of its wall-clock time and to
    its UTC offset in seconds when it has one: with the format
    [guess_datetime_format] finds in a string, or, when it finds none, by
    [dateutil], string by string. *)
Class Library : Type := {
  Model : Type;
  LinearRegression_fit : list (list R) -> list R -> Model;
  DecisionTreeRegressor_fit : RandomState -> list (list R) -> list R -> Model;
  RandomForestRegressor_fit : RandomState -> list (list R) -> list R -> Model;
  predict_sample : Model -> list R -> R;
  permutation : RandomState -> nat -> list nat;
  permutation_spec : forall r n, Permutation (permutation r n) (seq 0 n);
  guess_datetime_format : string -> option string;
  strptime : string -> string -> option (Timestamp * option Z);
  parse_datetime : string -> option (Timestamp * option Z);
  datetime_of_number : R -> option Timestamp
}.

(** ** The interpreter state a cell runs in *)

(** A pipeline of the notebook: the shared [preprocessing] object, then a
    regressor and what it has learnt. *)
Record Pipeline {L : Library} : Type := {
  regressor : Regressor;
  model_ : option Model
}.

(** What [joblib.dump] writes: the pipeline with the state its steps are in. *)
Record Pickle {L : Library} : Type := {
  pickled_preprocessing : option preprocessing.fitted;
  pickled_pipeline : Pipeline
}.

(** The calls into the model-building interface, as the cells make them. *)
Inductive Call : Type :=
| call_fit (est : Regressor) (X : DataFrame) (y : list R)
| call_predict (est : Regressor) (X : DataFrame)
| call_root_mean_squared_error (y_true y_pred : list R)
| call_cross_val_score (est : Regressor) (X : DataFrame) (y : list R) (cv : nat)
| call_dump (est : Regressor) (path : string).

Record Kernel {L : Library} : Type := {
  preprocessing_ : option preprocessing.fitted; (* the one [preprocessing] object *)
  calls : list Call;
  files : list (string * Pickle);
  np_random : nat
}.

Section Notebook.

Context {L : Library}.

(** Cells run in a state and error monad: [None] is an uncaught exception,
    which ends the run. *)
Definition M (A : Type) : Type := Kernel -> option (A * Kernel).

Definition ret {A : Type} (a : A) : M A := fun k => Some (a, k).

Definition bind {A B : Type} (c : M A) (f : A -> M B) : M B :=
  fun k => match c k with
           | Some (a, k') => f a k'
           | None => None
           end.

Definition raise {A : Type} : M A := fun _ => None.

Definition lift {A : Type} (o : option A) : M A :=
  match o with
  | Some a => ret a
  | None => raise
  end.

Definition tell (c : Call) : M unit :=
  fun k => Some (tt, {| preprocessing_ := preprocessing_ k;
                        calls := calls k ++ [c];
                        files := files k;
                        np_random := np_random k |}).

Definition set_preprocessing (f : preprocessing.fitted) : M unit :=
  fun k => Some (tt, {| preprocessing_ := Some f;
                        calls := calls k;
                        files := files k;
                        np_random := np_random k |}).

Definition get_preprocessing : M preprocessing.fitted :=
  fun k => match preprocessing_ k with
           | Some f => Some (f, k)
           | None => None (* NotFittedError *)
           end.

Definition get_np_random : M nat := fun k => Some (np_random k, k).

Definition write_file (path : string) (p : Pickle) : M unit :=
  fun k => Some (tt, {| preprocessing_ := preprocessing_ k;
                        calls := calls k;
                        files := (path, p) :: files k;
                        np_random := np_random k |}).

Notation "x <- c ;; k" := (bind c (fun x => k))
  (at level 61, c at next level, right associativity).
Notation "c ;;; k" := (bind c (fun _ => k))
  (at level 61, right associativity).
Notation "x <-- o ;; k" := (match o with Some x => k | None => None end)
  (at level 61, o at next level, right associativity).

(** *** Library calls with an effect *)

(** The parser [pd.to_datetime] has for the strings of a column: that of
    the format guessed from the first string, or [dateutil] when no format
    is guessed (pandas then warns that each element is parsed on its own,
    as in the output of cell 3). *)
Definition date_parser (c : list (option string))
    : string -> option (Timestamp * option Z) :=
  match dropna c with
  | [] => fun _ => None
  | first :: _ =>
      match guess_datetime_format first with
      | Some format => strptime format
      | None => parse_datetime
      end
  end.

Definition parsed_dates (c : list (option string))
    : list (option (Timestamp * option Z)) :=
  map (fun o => match o with
                | Some v => date_parser c v
                | None => None
                end) c.

(** The UTC offsets met in a column: one entry for each offset, and one,
    [None], for the dates that have none. *)
Definition offsets (parsed : list (option (Timestamp * option Z)))
    : list (option Z) :=
  nodup offset_eq_dec (map snd (dropna parsed)).

(** [pd.to_datetime(s, errors='coerce')]: what does not parse becomes NaT.
    Dates of more than one offset make no datetime64 column: pandas 2
    returns an object column, on which the [.dt] of the next statement
    raises, and pandas 3 raises at once.  Either way the cell stops there,
    which is [None]. *)
Definition to_datetime_coerce (s : Series) : option Series :=
  match s with
  | Object c =>
      match offsets (parsed_dates c) with
      | [] | [_] => Some (Datetime64 (map (option_map fst) (parsed_dates c)))
      | _ :: _ :: _ => None
      end
  | Float64 c => Some (Datetime64 (map (fun o => match o with
                                                | Some v => datetime_of_number v
                                                | None => None
                                                end) c))
  | Datetime64 c => Some (Datetime64 c)
  end.

(** [train_test_split(df, test_size=num/den, random_state=...)]:
    [ceil(test_size * n)] rows of a random permutation for testing, the
    others for training, of which there has to be one. *)
Definition train_test_split (df : DataFrame) (test_size : nat * nat)
    (random_state : option Z) : M (DataFrame * DataFrame) :=
  let n := n_rows df in
  let n_test := ((n * fst test_size + snd test_size - 1) / snd test_size)%nat in
  let n_train := (n - n_test)%nat in
  if (n_train =? 0)%nat then raise
  else
    g <- get_np_random ;;
    let p := permutation (check_random_state random_state g) n in
    ret (iloc df (firstn n_train (skipn n_test p)), iloc df (firstn n_test p)).

Definition fit_regressor (est : Regressor) (np_random : nat)
    (X : list (list R)) (y : list R) : Model :=
  match est with
  | LinearRegression => LinearRegression_fit X y
  | DecisionTreeRegressor rs =>
      DecisionTreeRegressor_fit (check_random_state rs np_random) X y
  | RandomForestRegressor rs =>
      RandomForestRegressor_fit (check_random_state rs np_random) X y
  end.

(** [make_pipeline(preprocessing, est)] *)
Definition make_pipeline (est : Regressor) : Pipeline :=
  {| regressor := est; model_ := None |}.

(** [preprocessing.fit_transform(df)] on the shared object. *)
Definition preprocessing_fit_transform (df : DataFrame)
    : M (preprocessing.fitted * list (Column R)) :=
  f <- lift (preprocessing.fit df) ;;
  set_preprocessing f ;;;
  Xt <- lift (preprocessing.transform f df) ;;
  ret (f, Xt).

(** [pipeline.fit(X, y)]: fits the shared [preprocessing] on [X], then the
    regressor on the transformed [X]. *)
Definition Pipeline_fit (p : Pipeline) (X : DataFrame) (y : list R) : M Pipeline :=
  tell (call_fit (regressor p) X y) ;;;
  fX <- preprocessing_fit_transform X ;;
  if negb (length y =? n_rows X)%nat then raise
  else
    g <- get_np_random ;;
    ret {| regressor := regressor p;
           model_ := Some (fit_regressor (regressor p) g
                             (rows (n_rows X) (snd fX)) y) |}.

(** [pipeline.predict(X)] *)
Definition Pipeline_predict (p : Pipeline) (X : DataFrame) : M (list R) :=
  tell (call_predict (regressor p) X) ;;;
  m <- lift (model_ p) ;;
  f <- get_preprocessing ;;
  Xt <- lift (preprocessing.transform f X) ;;
  ret (map (predict_sample m) (rows (n_rows X) Xt)).

Definition rmse (y_true y_pred : list R) : M R :=
  tell (call_root_mean_squared_error y_true y_pred) ;;;
  lift (root_mean_squared_error y_true y_pred).

(** [KFold(n_splits=k)] without shuffling: consecutive test folds, the first
    [n mod k] of them one longer. *)
Definition KFold (k n : nat) : list (list nat * list nat) :=
  map (fun i =>
         let start := (i * (n / k) + Nat.min i (n mod k))%nat in
         let size := (n / k + (if i <? n mod k then 1 else 0))%nat in
         (seq 0 start ++ seq (start + size) (n - (start + size)),
          seq start size))
      (seq 0 k).

(** One fold: a clone of the pipeline, with a [preprocessing] of its own, is
    fitted on the training part and scored on the test part, by the
    negated error. *)
Definition fold_score (est : Regressor) (np_random : nat) (X : DataFrame)
    (y : list R) (fold : list nat * list nat) : option R :=
  let X_train := iloc X (fst fold) in
  let X_test := iloc X (snd fold) in
  match preprocessing.fit X_train with
  | None => None
  | Some f =>
      match preprocessing.transform f X_train, preprocessing.transform f X_test with
      | Some Xt, Some Xs =>
          let m := fit_regressor est np_random (rows (n_rows X_train) Xt)
                     (take (fst fold) y) in
          option_map Ropp
            (root_mean_squared_error (take (snd fold) y)
               (map (predict_sample m) (rows (n_rows X_test) Xs)))
      | _, _ => None
      end
  end.

Fixpoint sequence {A : Type} (l : list (option A)) : option (list A) :=
  match l with
  | [] => Some []
  | o :: l' =>
      match o, sequence l' with
      | Some a, Some r => Some (a :: r)
      | _, _ => None
      end
  end.

(** [cross_val_score(pipeline, X, y, scoring="neg_root_mean_squared_error", cv=k)] *)
Definition cross_val_score (p : Pipeline) (X : DataFrame) (y : list R) (cv : nat)
    : M (list R) :=
  tell (call_cross_val_score (regressor p) X y cv) ;;;
  if (n_rows X <? cv)%nat || (cv <? 2)%nat || negb (length y =? n_rows X)%nat
  then raise
  else
    g <- get_np_random ;;
    lift (sequence (map (fold_score (regressor p) g X y) (KFold cv (n_rows X)))).

(** [joblib.dump(pipeline, path)] *)
Definition dump (p : Pipeline) (path : string) : M (list string) :=
  tell (call_dump (regressor p) path) ;;;
  k <- (fun k => Some (preprocessing_ k, k)) ;;
  write_file path {| pickled_preprocessing := k; pickled_pipeline := p |} ;;;
  ret [path].

(** ** The notebook *)

(** The variables a complete run leaves bound. *)
Record Session : Type := {
  accidentsData : DataFrame;
  accidentsData_prepared : DataFrame;
  train_set : DataFrame;
  test_set : DataFrame;
  accidentsTrain : DataFrame;
  accidentsTrain_labels : list R;
  lin_reg : Pipeline;
  lin_rmse : R;
  tree_reg : Pipeline;
  tree_rmse : R;
  tree_rmses : list R;
  full_pipeline : Pipeline;
  predictions_rf : list R;
  rmse_rf : R
}.

(** Cell 3: the date columns, and the columns that are dropped. *)
Definition cell_3 (accidentsData : DataFrame) : option DataFrame :=
  crash_date <-- getitem accidentsData "crash_date" ;;
  crash_date <-- to_datetime_coerce crash_date ;;
  let accidentsData := setitem accidentsData "crash_date" crash_date in
  crash_date <-- getitem accidentsData "crash_date" ;;
  crash_year <-- dt year crash_date ;;
  let accidentsData := setitem accidentsData "crash_year" crash_year in
  crash_date <-- getitem accidentsData "crash_date" ;;
  crash_month <-- dt month crash_date ;;
  let accidentsData := setitem accidentsData "crash_month" crash_month in
  crash_date <-- getitem accidentsData "crash_date" ;;
  crash_day_of_week <-- dt dayofweek crash_date ;;
  let accidentsData :=
    setitem accidentsData "crash_day_of_week" crash_day_of_week in
  drop accidentsData
    ["crash_date"; "injuries_fatal"; "injuries_incapacitating";
     "injuries_non_incapacitating"; "injuries_reported_not_evident"]%string.

(** Cells 8 and 9: the whole frame through [preprocessing], and back into a
    frame.  [.toarray()] is there on a sparse result only. *)
Definition cell_8_9 (accidentsData : DataFrame) : M DataFrame :=
  fX <- preprocessing_fit_transform accidentsData ;;
  if preprocessing.sparse_output_ (fst fX)
  then ret (DataFrame_of (snd fX))
  else raise.

(** Cell 10 from its second statement on, to cell 21: what is done with the
    two parts of the split. *)
Definition after_split (accidentsData accidentsData_prepared : DataFrame)
    (train_set test_set : DataFrame) : M Session :=
  (* cell 10 *)
  accidentsTrain <- lift (drop train_set ["pipeline-1__injuries_total"%string]) ;;
  target <- lift (getitem train_set "pipeline-1__injuries_total"%string) ;;
  accidentsTrain_labels <- lift (to_numeric target) ;;
  (* cells 13 and 14 *)
  lin_reg <- Pipeline_fit (make_pipeline LinearRegression)
               accidentsTrain accidentsTrain_labels ;;
  predictions <- Pipeline_predict lin_reg accidentsTrain ;;
  lin_rmse <- rmse accidentsTrain_labels predictions ;;
  (* cell 16 *)
  tree_reg <- Pipeline_fit (make_pipeline (DecisionTreeRegressor (Some 42%Z)))
                accidentsTrain accidentsTrain_labels ;;
  predictions <- Pipeline_predict tree_reg accidentsTrain ;;
  tree_rmse <- rmse accidentsTrain_labels predictions ;;
  (* cell 17 *)
  scores <- cross_val_score tree_reg accidentsTrain accidentsTrain_labels 10 ;;
  let tree_rmses := map Ropp scores in
  (* cell 19 *)
  full_pipeline <- Pipeline_fit (make_pipeline (RandomForestRegressor (Some 42%Z)))
                     accidentsTrain accidentsTrain_labels ;;
  predictions_rf <- Pipeline_predict full_pipeline accidentsTrain ;;
  rmse_rf <- rmse accidentsTrain_labels predictions_rf ;;
  (* cell 21 *)
  dump full_pipeline "Traffic_Accident_Injury_Predictor_Model.pkl" ;;;
  ret {| accidentsData := accidentsData;
         accidentsData_prepared := accidentsData_prepared;
         train_set := train_set;
         test_set := test_set;
         accidentsTrain := accidentsTrain;
         accidentsTrain_labels := accidentsTrain_labels;
         lin_reg := lin_reg;
         lin_rmse := lin_rmse;
         tree_reg := tree_reg;
         tree_rmse := tree_rmse;
         tree_rmses := tree_rmses;
         full_pipeline := full_pipeline;
         predictions_rf := predictions_rf;
         rmse_rf := rmse_rf |}.

Definition notebook (csv : DataFrame) : M Session :=
  (* cells 1 to 9 *)
  accidentsData <- lift (cell_3 csv) ;;
  accidentsData_prepared <- cell_8_9 accidentsData ;;
  (* cell 10, first statement *)
  split <- train_test_split accidentsData_prepared (1, 5)%nat (Some 42%Z) ;;
  after_split accidentsData accidentsData_prepared (fst split) (snd split).

(** A fresh kernel: nothing fitted, nothing written, and a global generator
    in a state of its own. *)
Definition fresh (np_random : nat) : Kernel :=
  {| preprocessing_ := None; calls := []; files := []; np_random := np_random |}.

(** Run all cells on the frame [pd.read_csv] returns. *)
Definition run (np_random : nat) (csv : DataFrame) : option (Session * Kernel) :=
  notebook csv (fresh np_random).

End Notebook.


(** ** Vocabulary of the properties *)

Definition Rleb (x y : R) : bool := if Rle_dec x y then true else false.

(** [m] is a median of [xs]: at least half of the values are at most [m],
    and at least half are at least [m]. *)
Definition is_median (m : R) (xs : list R) : Prop :=
  (length xs <= 2 * length (filter (fun x => Rleb x m) xs))%nat /\
  (length xs <= 2 * length (filter (fun x => Rleb m x) xs))%nat.

(** [v] is a most frequent value of [xs]. *)
Definition is_mode (v : string) (xs : list string) : Prop :=
  In v xs /\ forall w, (count_occ string_dec xs w <= count_occ string_dec xs v)%nat.

Definition not_constant (xs : list R) : Prop :=
  exists a b, In a xs /\ In b xs /\ a <> b.

(** The vector of length [n] that is 1 at position [k] and 0 elsewhere. *)
Definition one_at (k n : nat) : list R :=
  map (fun j => if (j =? k)%nat then 1 else 0) (seq 0 n).

(** [block] is the one-hot encoding of the column [c] over the categories
    [cats]: a column for each category, in their order, under the label
    [<column>_<category>] and as long as [c]; the row of a value is 1 at
    its category and 0 elsewhere, and all 0 when the value is no
    category. *)
Definition encodes (cats : list string) (c : Column string)
    (block : list (Column R)) : Prop :=
  map fst block = map (fun k => (fst c ++ "_" ++ k)%string) cats /\
  Forall (fun col => length (snd col) = length (snd c)) block /\
  forall i v, nth_error (snd c) i = Some v ->
    let row := map (fun col => nth i (snd col) 0) block in
    (forall k, nth_error cats k = Some v -> row = one_at k (length cats)) /\
    (~ In v cats -> row = repeat 0 (length cats)).

(** What imputation makes of one column: the column with its gaps filled
    when it has a statistic, nothing when it has none. *)
Definition impute_column {A : Type} (statistic : list A -> option A)
    (c : Column (option A)) : list (Column A) :=
  match statistic (dropna (snd c)) with
  | Some v => [(fst c, fillna v (snd c))]
  | None => []
  end.

Definition scale_column (c : Column R) : Column R :=
  (fst c,
   StandardScaler.transform_column
     (np.mean (snd c), StandardScaler.scale (snd c)) (snd c)).

(** The kernel with another state of the global generator. *)
Definition with_np_random {L : Library} (e : nat) (k : Kernel) : Kernel :=
  {| preprocessing_ := preprocessing_ k;
     calls := calls k;
     files := files k;
     np_random := e |}.

(** A computation that neither reads nor writes the global generator. *)
Definition oblivious {L : Library} {A : Type} (c : M A) : Prop :=
  forall e k,
    c (with_np_random e k)
    = option_map (fun r => (fst r, with_np_random e (snd r))) (c k).

(** A regressor that does not draw from the global generator. *)
Definition seeded_regressor (est : Regressor) : bool :=
  match est with
  | LinearRegression => true
  | DecisionTreeRegressor rs | RandomForestRegressor rs =>
      match rs with Some _ => true | None => false end
  end.

Definition logged {L : Library} (c : Call) (k : Kernel) : Kernel :=
  {| preprocessing_ := preprocessing_ k;
     calls := calls k ++ [c];
     files := files k;
     np_random := np_random k |}.

Definition refitted {L : Library} (f : preprocessing.fitted) (k : Kernel) : Kernel :=
  {| preprocessing_ := Some f;
     calls := calls k;
     files := files k;
     np_random := np_random k |}.

(** The clone of the tree pipeline that the cross-validation trains for a
    fold: its [preprocessing] [f] is fitted on the training rows of the
    fold, and its tree [m] on what [f] makes of them. *)
Definition trained_on_fold {L : Library} (X : DataFrame) (y : list R)
    (fold : list nat * list nat) (f : preprocessing.fitted) (m : Model) : Prop :=
  preprocessing.fit (iloc X (fst fold)) = Some f /\
  exists Xt,
    preprocessing.transform f (iloc X (fst fold)) = Some Xt /\
    m = DecisionTreeRegressor_fit (seeded 42)
          (rows (n_rows (iloc X (fst fold))) Xt) (take (fst fold) y).

Definition is_fit (c : Call) : bool :=
  match c with call_fit _ _ _ => true | _ => false end.

Definition is_cross_val_score (c : Call) : bool :=
  match c with call_cross_val_score _ _ _ _ => true | _ => false end.

(** The estimator a call is about. *)
Definition estimator_of (c : Call) : option Regressor :=
  match c with
  | call_fit est _ _ | call_predict est _ | call_cross_val_score est _ _ _
  | call_dump est _ => Some est
  | call_root_mean_squared_error _ _ => None
  end.

Definition label_column : string := "pipeline-1__injuries_total".

Definition model_file : string := "Traffic_Accident_Injury_Predictor_Model.pkl".

(** The rows [train_test_split(test_size=0.2, random_state=42)] takes for
    testing and for training out of [n]. *)
Definition test_indices {L : Library} (n : nat) : list nat :=
  firstn ((n * 1 + 5 - 1) / 5) (permutation (seeded 42) n).

Definition train_indices {L : Library} (n : nat) : list nat :=
  firstn (n - (n * 1 + 5 - 1) / 5)
    (skipn ((n * 1 + 5 - 1) / 5) (permutation (seeded 42) n)).

(** What a complete run has done, cell by cell: [f0] and [X0] are the
    fitted [preprocessing] and the array of cell 8, [f1] and [X1] those of
    the pipelines on the training features. *)
Definition ran {L : Library} (csv : DataFrame) (s : Session) (k : Kernel)
    (f0 : preprocessing.fitted) (X0 : list (Column R))
    (f1 : preprocessing.fitted) (X1 : list (Column R)) : Prop :=
  let X := accidentsTrain s in
  let y := accidentsTrain_labels s in
  let Xr := rows (n_rows X) X1 in
  let linear := LinearRegression_fit Xr y in
  let tree := DecisionTreeRegressor_fit (seeded 42) Xr y in
  let forest := RandomForestRegressor_fit (seeded 42) Xr y in
  (* cells 1 to 9 *)
  cell_3 csv = Some (accidentsData s) /\
  preprocessing.fit (accidentsData s) = Some f0 /\
  preprocessing.transform f0 (accidentsData s) = Some X0 /\
  preprocessing.sparse_output_ f0 = true /\
  accidentsData_prepared s = DataFrame_of X0 /\
  (* cell 10 *)
  train_set s = iloc (accidentsData_prepared s)
                  (train_indices (n_rows (accidentsData_prepared s))) /\
  test_set s = iloc (accidentsData_prepared s)
                 (test_indices (n_rows (accidentsData_prepared s))) /\
  drop (train_set s) [label_column] = Some X /\
  (exists target, getitem (train_set s) label_column = Some target /\
                  to_numeric target = Some y) /\
  (* cells 13 to 19 *)
  preprocessing.fit X = Some f1 /\
  preprocessing.transform f1 X = Some X1 /\
  length y = n_rows X /\
  lin_reg s = {| regressor := LinearRegression; model_ := Some linear |} /\
  root_mean_squared_error y (map (predict_sample linear) Xr) = Some (lin_rmse s) /\
  tree_reg s = {| regressor := DecisionTreeRegressor (Some 42%Z);
                  model_ := Some tree |} /\
  root_mean_squared_error y (map (predict_sample tree) Xr) = Some (tree_rmse s) /\
  (10 <= n_rows X)%nat /\
  (exists scores,
     sequence (map (fold_score (DecisionTreeRegressor (Some 42%Z)) (np_random k) X y)
                   (KFold 10 (n_rows X))) = Some scores /\
     tree_rmses s = map Ropp scores) /\
  full_pipeline s = {| regressor := RandomForestRegressor (Some 42%Z);
                       model_ := Some forest |} /\
  predictions_rf s = map (predict_sample forest) Xr /\
  root_mean_squared_error y (predictions_rf s) = Some (rmse_rf s) /\
  (* the calls, and cell 21 *)
  calls k =
    [ call_fit LinearRegression X y;
      call_predict LinearRegression X;
      call_root_mean_squared_error y (map (predict_sample linear) Xr);
      call_fit (DecisionTreeRegressor (Some 42%Z)) X y;
      call_predict (DecisionTreeRegressor (Some 42%Z)) X;
      call_root_mean_squared_error y (map (predict_sample tree) Xr);
      call_cross_val_score (DecisionTreeRegressor (Some 42%Z)) X y 10;
      call_fit (RandomForestRegressor (Some 42%Z)) X y;
      call_predict (RandomForestRegressor (Some 42%Z)) X;
      call_root_mean_squared_error y (predictions_rf s);
      call_dump (RandomForestRegressor (Some 42%Z)) model_file ] /\
  files k = [(model_file, {| pickled_preprocessing := Some f1;
                             pickled_pipeline := full_pipeline s |})].

(** A prediction made on the training features by one of the three
    pipelines of the session. *)
Definition predicted_on_training_split {L : Library} (s : Session)
    (y_pred : list R) : Prop :=
  exists p m f Xt,
    In p [lin_reg s; tree_reg s; full_pipeline s] /\
    model_ p = Some m /\
    preprocessing.fit (accidentsTrain s) = Some f /\
    preprocessing.transform f (accidentsTrain s) = Some Xt /\
    y_pred = map (predict_sample m) (rows (n_rows (accidentsTrain s)) Xt).

(** The data a call is given are those of the training split. *)
Definition on_training_split {L : Library} (s : Session) (c : Call) : Prop :=
  match c with
  | call_fit _ X y | call_cross_val_score _ X y _ =>
      X = accidentsTrain s /\ y = accidentsTrain_labels s
  | call_predict _ X => X = accidentsTrain s
  | call_root_mean_squared_error y_true y_pred =>
      y_true = accidentsTrain_labels s /\ predicted_on_training_split s y_pred
  | call_dump _ _ => True
  end.

(** The session without its test split. *)
Definition without_test_set {L : Library} (s : Session) : Session :=
  {| accidentsData := accidentsData s;
     accidentsData_prepared := accidentsData_prepared s;
     train_set := train_set s;
     test_set := [];
     accidentsTrain := accidentsTrain s;
     accidentsTrain_labels := accidentsTrain_labels s;
     lin_reg := lin_reg s;
     lin_rmse := lin_rmse s;
     tree_reg := tree_reg s;
     tree_rmse := tree_rmse s;
     tree_rmses := tree_rmses s;
     full_pipeline := full_pipeline s;
     predictions_rf := predictions_rf s;
     rmse_rf := rmse_rf s |}.

(** What of a finished run can be looked at: the variables, the calls made
    and the files written. *)
Definition outcome {L : Library} (r : option (Session * Kernel))
    : option (Session * list Call * list (string * Pickle)) :=
  option_map (fun r => (fst r, calls (snd r), files (snd r))) r.

(** Two dates of a column parse to different UTC offsets, or one of them
    to an offset and the other to none. *)
Definition mixed_offsets {L : Library} (cells : list (option string)) : Prop :=
  exists v w t t' z z',
    In (Some v) cells /\ In (Some w) cells /\
    date_parser cells v = Some (t, z) /\
    date_parser cells w = Some (t', z') /\
    z <> z'.

(** The cells of [dates.dt.<field>]. *)
Definition dt_cells (field : Timestamp -> Z) (dates : list (option Timestamp))
    : list (option R) :=
  map (option_map (fun t => IZR (field t))) dates.

(** A numeric column after the numeric pipeline fitted on it: the gaps
    filled with the median [m], then centred and scaled. *)
Definition standardised (m : R) (cells : list (option R)) : list R :=
  snd (scale_column (""%string, fillna m cells)).

(** The columns cell 3 derives from [crash_date]. *)
Definition date_fields : list (string * (Timestamp -> Z)) :=
  [("crash_year", year); ("crash_month", month);
   ("crash_day_of_week", dayofweek)]%string.

Definition fit_labels (c : Call) : option (list R) :=
  match c with
  | call_fit _ _ y => Some y
  | _ => None
  end.

(** ** A small library to run the notebook on

    Regressors that predict a constant, the mean of the training targets
    plus an offset of their own; a permutation that leaves the rows in
    place unless the global generator says otherwise; a parser for dates
    written [MM/DD/YYYY], as those of the dataset are, and for ISO dates
    with a UTC offset. *)

Module stub.

Definition digit (c : ascii) : option Z :=
  let n := (Z.of_nat (nat_of_ascii c) - 48)%Z in
  if ((0 <=? n) && (n <=? 9))%Z then Some n else None.

Definition number2 (a b : ascii) : option Z :=
  match digit a, digit b with
  | Some x, Some y => Some (10 * x + y)%Z
  | _, _ => None
  end.

(** Day of the week, Monday being 0, by Sakamoto's method. *)
Definition weekday (y m d : Z) : Z :=
  let t := nth (Z.to_nat (m - 1)) [0; 3; 2; 5; 0; 3; 5; 1; 4; 6; 2; 4]%Z 0%Z in
  let y' := (if m <? 3 then y - 1 else y)%Z in
  ((y' + y' / 4 - y' / 100 + y' / 400 + t + d + 6) mod 7)%Z.

Definition date (y m d : Z) : option Timestamp :=
  if ((1 <=? m) && (m <=? 12) && (1 <=? d) && (d <=? 31))%Z
  then Some {| year := y; month := m; dayofweek := weekday y m d |}
  else None.

(** [MM/DD/YYYY ...], without an offset. *)
Definition parse_us (s : string) : option (Timestamp * option Z) :=
  match s with
  | String m1 (String m2 (String "/"%char (String d1 (String d2 (String "/"%char
      (String y1 (String y2 (String y3 (String y4 _))))))))) =>
      match number2 m1 m2, number2 d1 d2, number2 y1 y2, number2 y3 y4 with
      | Some m, Some d, Some c, Some y =>
          option_map (fun t => (t, None)) (date (100 * c + y) m d)
      | _, _, _, _ => None
      end
  | _ => None
  end.

(** The two digits of [s] from position [i] on. *)
Definition digits2 (s : string) (i : nat) : option Z :=
  match String.get i s, String.get (S i) s with
  | Some a, Some b => number2 a b
  | _, _ => None
  end.

Definition is_char (s : string) (i : nat) (c : ascii) : bool :=
  match String.get i s with
  | Some a => Ascii.eqb a c
  | None => false
  end.

(** [YYYY-MM-DDThh:mm:ss+hh:mm], the offset in seconds. *)
Definition parse_iso (s : string) : option (Timestamp * option Z) :=
  if (String.length s =? 25)%nat
     && is_char s 4 "-" && is_char s 7 "-" && is_char s 10 "T"
     && is_char s 13 ":" && is_char s 16 ":" && is_char s 22 ":"
     && (is_char s 19 "+" || is_char s 19 "-")
  then
    match digits2 s 0, digits2 s 2, digits2 s 5, digits2 s 8,
          digits2 s 11, digits2 s 14, digits2 s 17,
          digits2 s 20, digits2 s 23 with
    | Some c, Some y, Some m, Some d, Some _, Some _, Some _, Some oh, Some om =>
        let offset := (3600 * oh + 60 * om)%Z in
        option_map
          (fun t => (t, Some (if is_char s 19 "-" then (- offset)%Z else offset)))
          (date (100 * c + y) m d)
    | _, _, _, _, _, _, _, _, _ => None
    end
  else None.

Definition iso_format : string := "%Y-%m-%dT%H:%M:%S%z".

(** A format is guessed for the ISO strings; for the dates of the data set
    none is, as the warning of cell 3 has it. *)
Definition guess_format (s : string) : option string :=
  match parse_iso s with
  | Some _ => Some iso_format
  | None => None
  end.

Definition parse_format (format s : string) : option (Timestamp * option Z) :=
  if String.eqb format iso_format then parse_iso s else None.

Definition parse (s : string) : option (Timestamp * option Z) :=
  match parse_us s with
  | Some t => Some t
  | None => parse_iso s
  end.

(** The order of the rows: as they are for a seeded generator, and for the
    global one as its state has it. *)
Definition shuffled (r : RandomState) (n : nat) : list nat :=
  match r with
  | seeded _ | global 0 => seq 0 n
  | global (S _) => rev (seq 0 n)
  end.

Definition shuffled_spec (r : RandomState) (n : nat)
    : Permutation (shuffled r n) (seq 0 n) :=
  match r as r0 return Permutation (shuffled r0 n) (seq 0 n) with
  | seeded _ => Permutation_refl (seq 0 n)
  | global g =>
      match g as g0 return Permutation (shuffled (global g0) n) (seq 0 n) with
      | 0%nat => Permutation_refl (seq 0 n)
      | S _ => Permutation_sym (Permutation_rev (seq 0 n))
      end
  end.

Definition library (linear tree forest : R) : Library :=
  {| Model := R;
     LinearRegression_fit := fun _ y => np.mean y + linear;
     DecisionTreeRegressor_fit := fun _ _ y => np.mean y + tree;
     RandomForestRegressor_fit := fun _ _ y => np.mean y + forest;
     predict_sample := fun m _ => m;
     permutation := shuffled;
     permutation_spec := shuffled_spec;
     guess_datetime_format := guess_format;
     strptime := parse_format;
     parse_datetime := parse;
     datetime_of_number := fun _ => None |}.

(** Regressors that keep the targets they were trained on, and predict
    their mean. *)
Definition recording : Library :=
  {| Model := list R;
     LinearRegression_fit := fun _ y => y;
     DecisionTreeRegressor_fit := fun _ _ y => y;
     RandomForestRegressor_fit := fun _ _ y => y;
     predict_sample := fun m _ => np.mean m;
     permutation := shuffled;
     permutation_spec := shuffled_spec;
     guess_datetime_format := guess_format;
     strptime := parse_format;
     parse_datetime := parse;
     datetime_of_number := fun _ => None |}.

Definition floats (xs : list Z) : Series := Float64 (map (fun x => Some (IZR x)) xs).

Definition objects (xs : list string) : Series := Object (map Some xs).

Definition crash_dates : list string :=
  ["07/29/2023 01:00:00 PM"; "08/13/2023 12:11:00 AM";
   "12/09/2021 10:30:00 AM"; "08/09/2023 07:55:00 PM";
   "08/19/2023 02:55:00 PM"; "unknown";
   "09/06/2023 12:59:00 AM"; "12/20/2022 11:45:00 AM";
   "07/04/2018 05:00:00 PM"; "01/15/2020 08:20:00 AM";
   "03/31/2019 11:05:00 PM"; "10/10/2021 06:40:00 AM";
   "05/22/2024 03:15:00 PM"]%string.

(** Thirteen accidents, one of them without a readable date. *)
Definition accidents : DataFrame :=
  [ ("crash_date", objects crash_dates);
    ("weather_condition",
     objects ["CLEAR"; "RAIN"; "SNOW"; "CLOUDY/OVERCAST"; "FOG/SMOKE/HAZE";
              "SLEET/HAIL"; "FREEZING RAIN/DRIZZLE"; "BLOWING SNOW";
              "SEVERE CROSS WIND GATE"; "BLOWING SAND, SOIL, DIRT"; "OTHER";
              "UNKNOWN"; "HAIL"]);
    ("injuries_total", floats [0; 0; 0; 5; 0; 2; 0; 0; 3; 0; 1; 0; 2]%Z);
    ("injuries_fatal", floats [0; 0; 0; 0; 0; 0; 0; 0; 1; 0; 0; 0; 0]%Z);
    ("injuries_incapacitating", floats [0; 0; 0; 0; 0; 0; 0; 0; 0; 0; 0; 0; 2]%Z);
    ("injuries_non_incapacitating", floats [0; 0; 0; 5; 0; 2; 0; 0; 2; 0; 0; 0; 0]%Z);
    ("injuries_reported_not_evident", floats [0; 0; 0; 0; 0; 0; 0; 0; 0; 0; 1; 0; 0]%Z)
  ]%string.

(** The library of the runs below: a tree and a linear regression that
    predict the mean of the targets, a forest that is off by one. *)
Definition off_by_one : Library := library 0 0 1.

(** The thirteen accidents dated in two time zones, and without a date
    that parses. *)
Definition zoned_dates : list string :=
  ["2023-07-29T13:00:00+01:00"; "2023-08-13T00:11:00+02:00";
   "2021-12-09T10:30:00+01:00"; "2023-08-09T19:55:00+01:00";
   "2023-08-19T14:55:00+01:00"; "2022-03-01T08:00:00+01:00";
   "2023-09-06T00:59:00+01:00"; "2022-12-20T11:45:00+01:00";
   "2018-07-04T17:00:00+01:00"; "2020-01-15T08:20:00+01:00";
   "2019-03-31T23:05:00+01:00"; "2021-10-10T06:40:00+01:00";
   "2024-05-22T15:15:00+01:00"]%string.

Definition zoned : DataFrame :=
  setitem accidents "crash_date" (objects zoned_dates).

Definition undated : DataFrame :=
  setitem accidents "crash_date" (objects (repeat "unknown"%string 13)).

(** A frame of one numeric column with a gap, [preprocessing] as fitted on
    it, and its output. *)
Definition hours : DataFrame :=
  [("crash_hour"%string, Float64 [Some 1; None; Some 3; Some 8])].

Definition hours_fitted : preprocessing.fitted :=
  {| preprocessing.number_columns := ["crash_hour"%string];
     preprocessing.pipeline_1 :=
       Some {| num_pipeline.statistics_ :=
                 SimpleImputer.fit np.median (preprocessing.select_number hours);
               num_pipeline.scaler_ :=
                 StandardScaler.fit
                   (flat_map (impute_column np.median)
                      (preprocessing.select_number hours)) |};
     preprocessing.object_columns := [];
     preprocessing.pipeline_2 := None;
     preprocessing.sparse_output_ := false |}.

Definition hours_prepared : list (Column R) :=
  preprocessing.prefixed "pipeline-1"
    (map scale_column
       (flat_map (impute_column np.median) (preprocessing.select_number hours))).

(** Five rows to split. *)
Definition five : DataFrame := [("crash_hour"%string, floats [1; 2; 3; 4; 5]%Z)].

(** A numeric and a categorical column with a gap each, and the pipelines
    fitted on them. *)
Definition years : list (Column (option R)) :=
  [("crash_year"%string, [Some 2023; None; Some 2021; Some 2023])].

Definition years_fitted : num_pipeline.fitted :=
  {| num_pipeline.statistics_ := SimpleImputer.fit np.median years;
     num_pipeline.scaler_ :=
       StandardScaler.fit (flat_map (impute_column np.median) years) |}.

Definition weather : list (Column (option string)) :=
  [("weather_condition", [Some "RAIN"; None; Some "CLEAR"; Some "RAIN"])]%string.

Definition weather_fitted : cat_pipeline.fitted :=
  {| cat_pipeline.statistics_ :=
       SimpleImputer.fit SimpleImputer.most_frequent weather;
     cat_pipeline.categories_ :=
       OneHotEncoder.fit (flat_map (impute_column SimpleImputer.most_frequent) weather) |}.

End stub.

(** ** Vocabulary of the further properties *)

(** A column that has a cell that is not missing. *)
Definition has_value {A : Type} (c : Column (option A)) : bool :=
  match dropna (snd c) with
  | [] => false
  | _ :: _ => true
  end.

(** Every column has [n] cells. *)
Definition all_length (n : nat) (df : DataFrame) : Prop :=
  Forall (fun c => series_length (snd c) = n) df.

(** Labels in the order of [sorted]. *)
Definition ascending (l : list string) : Prop :=
  Sorted (fun a b => String.leb a b = true) l.

(** [ceil(0.2 * n)], the number of test rows of cell 10. *)
Definition n_test (n : nat) : nat := ((n * 1 + 5 - 1) / 5)%nat.

Module sample.

(** A numeric array of three columns: one with gaps, one without any
    value, one constant. *)
Definition numbers : list (Column (option R)) :=
  [("crash_hour", [Some 1; None; Some 3; Some 8]);
   ("lane_cnt", [None; None; None; None]);
   ("num_units", [Some 2; Some 2; Some 2; Some 2])]%string.

Definition numbers_fitted : num_pipeline.fitted :=
  {| num_pipeline.statistics_ := SimpleImputer.fit np.median numbers;
     num_pipeline.scaler_ :=
       StandardScaler.fit (flat_map (impute_column np.median) numbers) |}.

End sample.

(** Where the [i]-th of [k] folds of [n] rows begins, and how long it is. *)
Definition fold_start (k n i : nat) : nat :=
  (i * (n / k) + Nat.min i (n mod k))%nat.

Definition fold_size (k n i : nat) : nat :=
  (n / k + (if i <? n mod k then 1 else 0))%nat.

(** [v] is the value [strategy='most_frequent'] documents: of the most
    frequent values of [xs], the smallest. *)
Definition is_smallest_mode (v : string) (xs : list string) : Prop :=
  is_mode v xs /\
  forall w, is_mode w xs -> String.leb v w = true.

(** A categorical column to encode. *)
Definition sample_weather : Column string :=
  ("weather"%string, ["RAIN"; "CLEAR"; "SNOW"; "RAIN"]%string).

(** The columns cell 3 drops. *)
Definition dropped_columns : list string :=
  ["crash_date"; "injuries_fatal"; "injuries_incapacitating";
   "injuries_non_incapacitating"; "injuries_reported_not_evident"]%string.

Definition is_dropped (name : string) : bool :=
  existsb (String.eqb name) dropped_columns.

(** The labels after cell 3: those of the loaded frame, then those of the
    derived columns that are not among them, without the dropped ones. *)
Definition labels_after_cell_3 (csv : DataFrame) : list string :=
  filter (fun m => negb (is_dropped m))
    (map fst csv
     ++ filter (fun m => negb (has_column csv m)) (map fst date_fields)).

(** Every column of an array has [n] rows. *)
Definition n_samples {A : Type} (n : nat) (X : list (Column A)) : Prop :=
  Forall (fun c => length (snd c) = n) X.

(** * Properties *)

(** ** Sums, means and variances *)

Lemma sum_map_affine (a b : R) (xs : list R) :
  np.sum (map (fun x => (x - a) / b) xs) = (np.sum xs - INR (length xs) * a) / b.
Proof.
  induction xs as [|x xs IH].
  - simpl. unfold Rdiv. ring.
  - cbn [map np.sum fold_right length]. fold (np.sum (map (fun x => (x - a) / b) xs)).
    fold (np.sum xs). rewrite IH, S_INR. unfold Rdiv. ring.
Qed.

Lemma sum_map_scale (b : R) (f : R -> R) (xs : list R) :
  np.sum (map (fun x => f x / b) xs) = np.sum (map f xs) / b.
Proof.
  induction xs as [|x xs IH].
  - simpl. unfold Rdiv. ring.
  - cbn [map np.sum fold_right]. fold (np.sum (map (fun x => f x / b) xs)).
    fold (np.sum (map f xs)). rewrite IH. unfold Rdiv. ring.
Qed.

Lemma sum_squares_nonneg {A : Type} (f : A -> R) (xs : list A) :
  0 <= np.sum (map (fun x => f x * f x) xs).
Proof.
  induction xs as [|x xs IH]; simpl.
  - lra.
  - fold (np.sum (map (fun x => f x * f x) xs)). nra.
Qed.

Lemma sum_squares_zero {A : Type} (f : A -> R) (xs : list A) :
  np.sum (map (fun x => f x * f x) xs) = 0 -> forall x, In x xs -> f x = 0.
Proof.
  induction xs as [|y xs IH]; simpl; intros H x Hx.
  - contradiction.
  - fold (np.sum (map (fun x => f x * f x) xs)) in H.
    pose proof (sum_squares_nonneg f xs) as Hs.
    assert (Hy : f y * f y = 0) by nra.
    destruct Hx as [<- | Hx].
    + nra.
    + apply IH; [nra | exact Hx].
Qed.

Lemma INR_length_pos {A : Type} (xs : list A) : xs <> [] -> 0 < INR (length xs).
Proof.
  destruct xs as [|x xs]; [congruence|].
  intros _. apply lt_0_INR. simpl. lia.
Qed.

Lemma var_nonneg (xs : list R) : 0 <= np.var xs.
Proof.
  unfold np.var, np.mean at 1.
  destruct xs as [|x xs].
  - simpl. unfold Rdiv. rewrite Rmult_0_l. lra.
  - apply Rmult_le_pos.
    + apply (sum_squares_nonneg (fun y => y - np.mean (x :: xs))).
    + left. apply Rinv_0_lt_compat. rewrite length_map.
      apply INR_length_pos. discriminate.
Qed.

(** A column of variance 0 is constant. *)
Lemma var_zero_constant (xs : list R) :
  np.var xs = 0 -> forall a b, In a xs -> In b xs -> a = b.
Proof.
  intros H a b Ha Hb.
  assert (Hne : xs <> []) by (destruct xs; [contradiction | discriminate]).
  unfold np.var, np.mean at 1 in H. rewrite length_map in H.
  pose proof (INR_length_pos xs Hne) as Hn.
  assert (Hs : np.sum (map (fun x => (x - np.mean xs) * (x - np.mean xs)) xs) = 0).
  { apply (Rmult_eq_reg_r (/ INR (length xs))).
    - rewrite Rmult_0_l. exact H.
    - apply Rinv_neq_0_compat. lra. }
  pose proof (sum_squares_zero (fun x => x - np.mean xs) xs Hs) as Hz.
  pose proof (Hz a Ha). pose proof (Hz b Hb). simpl in *. lra.
Qed.

Lemma scale_pos (xs : list R) : 0 < StandardScaler.scale xs.
Proof.
  unfold StandardScaler.scale, np.std.
  destruct (Req_dec_T (np.var xs) 0) as [E | E]; [lra|].
  apply sqrt_lt_R0. pose proof (var_nonneg xs). lra.
Qed.

Lemma scale_sqr (xs : list R) :
  np.var xs <> 0 -> StandardScaler.scale xs * StandardScaler.scale xs = np.var xs.
Proof.
  intros H. unfold StandardScaler.scale, np.std.
  destruct (Req_dec_T (np.var xs) 0) as [E | E]; [contradiction|].
  apply sqrt_sqrt, var_nonneg.
Qed.

(** The scaled column has mean 0 ... *)
Lemma mean_scaled (s : R) (xs : list R) :
  np.mean (StandardScaler.transform_column (np.mean xs, s) xs) = 0.
Proof.
  unfold StandardScaler.transform_column, np.mean at 1. cbn [fst snd].
  rewrite sum_map_affine, length_map.
  destruct xs as [|x xs].
  - simpl. unfold Rdiv. ring.
  - assert (Hn : 0 < INR (length (x :: xs))) by (apply INR_length_pos; discriminate).
    unfold np.mean.
    replace (np.sum (x :: xs) - INR (length (x :: xs)) * (np.sum (x :: xs) / INR (length (x :: xs))))
      with 0 by (field; lra).
    unfold Rdiv. ring.
Qed.

(** ... and, unless it is constant, variance 1. *)
Lemma var_scaled (xs : list R) :
  np.var xs <> 0 ->
  np.var (StandardScaler.transform_column (np.mean xs, StandardScaler.scale xs) xs) = 1.
Proof.
  intros H.
  pose proof (scale_pos xs) as Hs. pose proof (scale_sqr xs H) as Hq.
  unfold np.var at 1. rewrite mean_scaled.
  unfold StandardScaler.transform_column. cbn [fst snd].
  rewrite map_map. unfold np.mean at 1. rewrite length_map.
  set (s := StandardScaler.scale xs) in *. set (m := np.mean xs) in *.
  rewrite (map_ext _ (fun x => ((x - m) * (x - m)) / (s * s))).
  2:{ intros x. field. lra. }
  rewrite (sum_map_scale (s * s) (fun x => (x - m) * (x - m))).
  rewrite Hq. unfold np.var, np.mean at 1. rewrite length_map. fold m.
  unfold np.var, np.mean at 1 in H. rewrite length_map in H. fold m in H.
  set (q := np.sum (map (fun x : R => (x - m) * (x - m)) xs) / INR (length xs)) in *.
  assert (Hn : INR (length xs) <> 0).
  { intros E. apply H. unfold q. rewrite E. unfold Rdiv. rewrite Rinv_0. ring. }
  unfold q. field. split; [exact Hn|].
  intros E. apply H. unfold q. rewrite E. unfold Rdiv. ring.
Qed.

(** ** The transformers on the data they were fitted on *)

Lemma imputer_fit_transform {A : Type} (statistic : list A -> option A)
    (X : list (Column (option A))) :
  SimpleImputer.transform (SimpleImputer.fit statistic X) X
  = Some (flat_map (impute_column statistic) X).
Proof.
  induction X as [|c X IH]; [reflexivity|].
  cbn [SimpleImputer.fit map SimpleImputer.transform flat_map].
  fold (SimpleImputer.fit statistic X). rewrite IH.
  assert (E : impute_column statistic c
              = match statistic (dropna (snd c)) with
                | Some v => [(fst c, fillna v (snd c))]
                | None => []
                end) by reflexivity.
  rewrite E. destruct (statistic (dropna (snd c))); reflexivity.
Qed.

Lemma scaler_fit_transform (X : list (Column R)) :
  StandardScaler.transform (StandardScaler.fit X) X = Some (map scale_column X).
Proof.
  induction X as [|c X IH]; [reflexivity|].
  cbn [StandardScaler.fit map StandardScaler.transform].
  fold (StandardScaler.fit X). rewrite IH. reflexivity.
Qed.

Lemma num_pipeline_fit_inv (X : list (Column (option R))) (f : num_pipeline.fitted) :
  num_pipeline.fit X = Some f ->
  flat_map (impute_column np.median) X <> [] /\
  num_pipeline.imputed (num_pipeline.statistics_ f) X
  = Some (flat_map (impute_column np.median) X) /\
  num_pipeline.statistics_ f = SimpleImputer.fit np.median X /\
  num_pipeline.scaler_ f = StandardScaler.fit (flat_map (impute_column np.median) X).
Proof.
  unfold num_pipeline.fit, num_pipeline.imputed.
  rewrite imputer_fit_transform.
  destruct (flat_map (impute_column np.median) X) as [|c Xi] eqn:E; [discriminate|].
  intros [= <-]. cbn [num_pipeline.statistics_ num_pipeline.scaler_].
  rewrite imputer_fit_transform, E. repeat split. discriminate.
Qed.

Lemma num_pipeline_fit_transform (X : list (Column (option R))) (f : num_pipeline.fitted) :
  num_pipeline.fit X = Some f ->
  num_pipeline.transform f X
  = Some (map scale_column (flat_map (impute_column np.median) X)).
Proof.
  intros H. destruct (num_pipeline_fit_inv X f H) as (_ & Hi & _ & Hs).
  unfold num_pipeline.transform. rewrite Hi, Hs. apply scaler_fit_transform.
Qed.

Lemma cat_pipeline_fit_inv (X : list (Column (option string))) (f : cat_pipeline.fitted) :
  cat_pipeline.fit X = Some f ->
  flat_map (impute_column SimpleImputer.most_frequent) X <> [] /\
  cat_pipeline.imputed (cat_pipeline.statistics_ f) X
  = Some (flat_map (impute_column SimpleImputer.most_frequent) X) /\
  cat_pipeline.statistics_ f = SimpleImputer.fit SimpleImputer.most_frequent X /\
  cat_pipeline.categories_ f
  = OneHotEncoder.fit (flat_map (impute_column SimpleImputer.most_frequent) X).
Proof.
  unfold cat_pipeline.fit, cat_pipeline.imputed.
  rewrite imputer_fit_transform.
  destruct (flat_map (impute_column SimpleImputer.most_frequent) X) as [|c Xi] eqn:E;
    [discriminate|].
  intros [= <-]. cbn [cat_pipeline.statistics_ cat_pipeline.categories_].
  rewrite imputer_fit_transform, E. repeat split. discriminate.
Qed.

Lemma In_impute_column {A : Type} (statistic : list A -> option A)
    (X : list (Column (option A))) (c : Column (option A)) (v : A) :
  In c X -> statistic (dropna (snd c)) = Some v ->
  In (fst c, fillna v (snd c)) (flat_map (impute_column statistic) X).
Proof.
  intros Hc Hv. apply in_flat_map. exists c. split; [exact Hc|].
  unfold impute_column. rewrite Hv. left. reflexivity.
Qed.

Lemma fillna_missing {A : Type} (v : A) (cells : list (option A)) (i : nat) :
  nth_error cells i = Some None -> nth_error (fillna v cells) i = Some v.
Proof.
  intros H. unfold fillna. rewrite nth_error_map, H. reflexivity.
Qed.

Lemma fillna_present {A : Type} (v x : A) (cells : list (option A)) (i : nat) :
  nth_error cells i = Some (Some x) -> nth_error (fillna v cells) i = Some x.
Proof.
  intros H. unfold fillna. rewrite nth_error_map, H. reflexivity.
Qed.

(** ** The median *)

Lemma insert_perm (x : R) (l : list R) : Permutation (np.insert x l) (x :: l).
Proof.
  induction l as [|y l IH]; simpl.
  - apply Permutation_refl.
  - destruct (Rle_dec x y).
    + apply Permutation_refl.
    + eapply perm_trans; [apply perm_skip, IH | apply perm_swap].
Qed.

Lemma sort_perm (xs : list R) : Permutation (np.sort xs) xs.
Proof.
  induction xs as [|x xs IH]; simpl.
  - apply perm_nil.
  - eapply perm_trans; [apply insert_perm | apply perm_skip, IH].
Qed.

Lemma insert_sorted (x : R) (l : list R) :
  StronglySorted Rle l -> StronglySorted Rle (np.insert x l).
Proof.
  induction 1 as [|y l Hs IH Hy]; simpl.
  - constructor; constructor.
  - destruct (Rle_dec x y) as [Hxy | Hxy].
    + constructor.
      * constructor; assumption.
      * constructor; [exact Hxy|].
        eapply Forall_impl; [|exact Hy]. intros z Hz. simpl in Hz. lra.
    + constructor; [exact IH|].
      eapply Permutation_Forall.
      * apply Permutation_sym, insert_perm.
      * constructor; [lra | exact Hy].
Qed.

Lemma sort_sorted (xs : list R) : StronglySorted Rle (np.sort xs).
Proof.
  induction xs as [|x xs IH]; simpl.
  - constructor.
  - apply insert_sorted, IH.
Qed.

Lemma sorted_nth (s : list R) :
  StronglySorted Rle s ->
  forall i j, (i <= j < length s)%nat -> nth i s 0 <= nth j s 0.
Proof.
  induction 1 as [|x s Hs IH Hx]; intros i j Hij; simpl in Hij.
  - lia.
  - destruct i as [|i], j as [|j]; simpl; try lia.
    + lra.
    + rewrite Forall_forall in Hx. apply Hx, nth_In. lia.
    + apply IH. lia.
Qed.

Lemma filter_length_perm {A : Type} (p : A -> bool) (l l' : list A) :
  Permutation l l' -> length (filter p l) = length (filter p l').
Proof.
  induction 1 as [| x l l' _ IH | x y l | l l' l'' _ IH1 _ IH2]; simpl.
  - reflexivity.
  - destruct (p x); simpl; congruence.
  - destruct (p x), (p y); reflexivity.
  - congruence.
Qed.

Lemma filter_all {A : Type} (p : A -> bool) (l : list A) :
  (forall x, In x l -> p x = true) -> filter p l = l.
Proof.
  induction l as [|x l IH]; intros H; simpl; [reflexivity|].
  rewrite (H x (or_introl eq_refl)), IH; [reflexivity|].
  intros y Hy. apply H. right. exact Hy.
Qed.

(** In a sorted list, [k + 1] values are at most the one at position [k] ... *)
Lemma count_below (s : list R) (k : nat) (m : R) :
  StronglySorted Rle s -> (k < length s)%nat -> nth k s 0 <= m ->
  (k + 1 <= length (filter (fun x => Rleb x m) s))%nat.
Proof.
  intros Hs Hk Hm.
  rewrite <- (firstn_skipn (k + 1) s) at 1.
  rewrite filter_app, length_app, filter_all.
  - rewrite length_firstn. lia.
  - intros x Hx. apply (In_nth _ _ 0) in Hx. destruct Hx as (i & Hi & <-).
    rewrite length_firstn in Hi. rewrite nth_firstn.
    destruct (Nat.ltb_spec i (k + 1)); [|lia].
    unfold Rleb. destruct (Rle_dec (nth i s 0) m) as [|Hn]; [reflexivity|].
    exfalso. apply Hn.
    assert (nth i s 0 <= nth k s 0) by (apply (sorted_nth s Hs); lia). lra.
Qed.

(** ... and all from position [k] on are at least that one. *)
Lemma count_above (s : list R) (k : nat) (m : R) :
  StronglySorted Rle s -> (k < length s)%nat -> m <= nth k s 0 ->
  (length s - k <= length (filter (fun x => Rleb m x) s))%nat.
Proof.
  intros Hs Hk Hm.
  rewrite <- (firstn_skipn k s) at 2.
  rewrite filter_app, length_app, (filter_all _ (skipn k s)).
  - rewrite length_skipn. lia.
  - intros x Hx. apply (In_nth _ _ 0) in Hx. destruct Hx as (i & Hi & <-).
    rewrite length_skipn in Hi. rewrite nth_skipn.
    unfold Rleb. destruct (Rle_dec m (nth (k + i) s 0)) as [|Hn]; [reflexivity|].
    exfalso. apply Hn.
    assert (nth k s 0 <= nth (k + i) s 0) by (apply (sorted_nth s Hs); lia). lra.
Qed.

(** [np.median] returns a median. *)
Lemma median_is_median (xs : list R) (m : R) :
  np.median xs = Some m -> is_median m xs.
Proof.
  unfold np.median. destruct xs as [|x0 xs0] eqn:E; [discriminate|].
  rewrite <- E. intros [= <-].
  assert (Hlen : (0 < length xs)%nat) by (rewrite E; simpl; lia).
  clear E x0 xs0.
  pose proof (sort_sorted xs) as Hs. pose proof (sort_perm xs) as Hp.
  pose proof (Permutation_length Hp) as Hl.
  set (s := np.sort xs) in *. set (n := length xs) in *.
  unfold is_median.
  rewrite <- (filter_length_perm _ _ _ Hp), <- (filter_length_perm _ _ _ Hp).
  fold n. change (fst (Nat.divmod n 1 0 1)) with (n / 2)%nat.
  destruct (Nat.even n) eqn:Ev.
  - apply Nat.even_spec in Ev. destruct Ev as [k Hk].
    replace (n / 2)%nat with k by (rewrite Hk, Nat.mul_comm, Nat.div_mul; lia).
    assert (Hmid : nth (k - 1) s 0 <= nth k s 0) by (apply (sorted_nth s Hs); lia).
    split.
    + pose proof (count_below s (k - 1) ((nth (k - 1) s 0 + nth k s 0) / 2) Hs).
      assert ((k - 1 < length s)%nat) by lia.
      assert (nth (k - 1) s 0 <= (nth (k - 1) s 0 + nth k s 0) / 2) by lra.
      intuition lia.
    + pose proof (count_above s k ((nth (k - 1) s 0 + nth k s 0) / 2) Hs).
      assert ((k < length s)%nat) by lia.
      assert ((nth (k - 1) s 0 + nth k s 0) / 2 <= nth k s 0) by lra.
      intuition lia.
  - assert (Od : Nat.odd n = true) by (rewrite <- Nat.negb_even, Ev; reflexivity).
    apply Nat.odd_spec in Od. destruct Od as [k Hk].
    replace (n / 2)%nat with k
      by (rewrite Hk, Nat.add_comm, Nat.mul_comm, Nat.div_add; simpl; lia).
    split.
    + pose proof (count_below s k (nth k s 0) Hs).
      assert ((k < length s)%nat) by lia.
      assert (nth k s 0 <= nth k s 0) by lra.
      intuition lia.
    + pose proof (count_above s k (nth k s 0) Hs).
      assert ((k < length s)%nat) by lia.
      assert (nth k s 0 <= nth k s 0) by lra.
      intuition lia.
Qed.

(** ** The most frequent value *)

Lemma most_frequent_suffix (xs l : list string) :
  match fold_right
          (fun x best =>
             match best with
             | None => Some x
             | Some b => if SimpleImputer.preferred xs x b then Some x else Some b
             end)
          None l with
  | None => l = []
  | Some b =>
      In b l /\ forall w, In w l ->
        (SimpleImputer.count w xs <= SimpleImputer.count b xs)%nat
  end.
Proof.
  induction l as [|x l IH]; simpl; [reflexivity|].
  destruct (fold_right _ None l) as [b|].
  - destruct IH as [Hb Hmax].
    destruct (SimpleImputer.preferred xs x b) eqn:P.
    + split; [left; reflexivity|]. intros w [<- | Hw]; [lia|].
      specialize (Hmax w Hw). unfold SimpleImputer.preferred in P.
      apply orb_true_iff in P. destruct P as [P | P].
      * apply Nat.ltb_lt in P. lia.
      * apply andb_true_iff in P. destruct P as [P _]. apply Nat.eqb_eq in P. lia.
    + split; [right; exact Hb|]. intros w [<- | Hw]; [|apply Hmax, Hw].
      unfold SimpleImputer.preferred in P. apply orb_false_iff in P.
      destruct P as [P _]. apply Nat.ltb_ge in P. exact P.
  - subst l. split; [left; reflexivity|]. intros w [<- | []]. lia.
Qed.

(** [most_frequent] returns a most frequent value. *)
Lemma most_frequent_is_mode (xs : list string) (v : string) :
  SimpleImputer.most_frequent xs = Some v -> is_mode v xs.
Proof.
  intros H. pose proof (most_frequent_suffix xs xs) as S.
  unfold SimpleImputer.most_frequent in H. rewrite H in S.
  destruct S as [Hv Hmax]. split; [exact Hv|].
  intros w. destruct (in_dec string_dec w xs) as [Hw | Hw].
  - apply Hmax, Hw.
  - rewrite (proj1 (count_occ_not_In string_dec xs w) Hw). lia.
Qed.

Lemma median_some (xs : list R) : xs <> [] -> exists m, np.median xs = Some m.
Proof.
  destruct xs as [|x xs]; [congruence|]. intros _. eexists. reflexivity.
Qed.

Lemma most_frequent_some (xs : list string) :
  xs <> [] -> exists v, SimpleImputer.most_frequent xs = Some v.
Proof.
  intros H. pose proof (most_frequent_suffix xs xs) as S.
  unfold SimpleImputer.most_frequent.
  destruct (fold_right _ None xs) as [b|]; [eexists; reflexivity | contradiction].
Qed.

(** ** One-hot encoding *)

Lemma onehot_insert_perm (x : string) (l : list string) :
  Permutation (OneHotEncoder.insert x l) (x :: l).
Proof.
  induction l as [|y l IH]; simpl.
  - apply Permutation_refl.
  - destruct (String.leb x y).
    + apply Permutation_refl.
    + eapply perm_trans; [apply perm_skip, IH | apply perm_swap].
Qed.

Lemma categories_perm (xs : list string) :
  Permutation (OneHotEncoder.categories xs) (nodup string_dec xs).
Proof.
  unfold OneHotEncoder.categories.
  induction (nodup string_dec xs) as [|x l IH]; simpl.
  - apply perm_nil.
  - eapply perm_trans; [apply onehot_insert_perm | apply perm_skip, IH].
Qed.

Lemma categories_In (xs : list string) (v : string) :
  In v (OneHotEncoder.categories xs) <-> In v xs.
Proof.
  rewrite <- (nodup_In string_dec xs). split; apply Permutation_in.
  - apply categories_perm.
  - apply Permutation_sym, categories_perm.
Qed.

Lemma categories_NoDup (xs : list string) : NoDup (OneHotEncoder.categories xs).
Proof.
  eapply Permutation_NoDup.
  - apply Permutation_sym, categories_perm.
  - apply NoDup_nodup.
Qed.

Lemma indicator_unknown (cats : list string) (v : string) :
  ~ In v cats -> OneHotEncoder.indicator cats v = repeat 0 (length cats).
Proof.
  induction cats as [|c cats IH]; simpl; intros H; [reflexivity|].
  destruct (String.eqb_spec v c) as [-> | _].
  - exfalso. apply H. left. reflexivity.
  - f_equal. apply IH. intros Hin. apply H. right. exact Hin.
Qed.

Lemma one_at_S (k n : nat) : one_at (S k) (S n) = 0 :: one_at k n.
Proof.
  unfold one_at. cbn [seq map Nat.eqb]. f_equal.
  rewrite <- seq_shift, map_map. reflexivity.
Qed.

Lemma map_const {A B : Type} (b : B) (l : list A) :
  map (fun _ => b) l = repeat b (length l).
Proof.
  induction l as [|a l IH]; simpl; [reflexivity | f_equal; exact IH].
Qed.

Lemma one_at_0 (n : nat) : one_at 0 (S n) = 1 :: repeat 0 n.
Proof.
  unfold one_at. cbn [seq map Nat.eqb]. f_equal.
  rewrite <- seq_shift, map_map. cbn [Nat.eqb].
  rewrite map_const, length_seq. reflexivity.
Qed.

Lemma indicator_known (cats : list string) (v : string) (k : nat) :
  NoDup cats -> nth_error cats k = Some v ->
  OneHotEncoder.indicator cats v = one_at k (length cats).
Proof.
  intros Hnd. revert k.
  induction Hnd as [|c cats Hc Hnd IH]; intros k Hk.
  - destruct k; discriminate.
  - destruct k as [|k]; cbn [nth_error] in Hk.
    + injection Hk as ->. cbn [OneHotEncoder.indicator map length].
      rewrite String.eqb_refl, one_at_0. f_equal.
      apply indicator_unknown, Hc.
    + cbn [OneHotEncoder.indicator map length].
      rewrite one_at_S. fold (OneHotEncoder.indicator cats v).
      destruct (String.eqb_spec v c) as [-> | _].
      * exfalso. apply Hc. eapply nth_error_In, Hk.
      * f_equal. apply IH, Hk.
Qed.

(** Row [i] of the columns a column is encoded into is the indicator of the
    value in row [i]. *)
Lemma transform_column_row (cats : list string) (c : Column string) (i : nat)
    (v : string) :
  nth_error (snd c) i = Some v ->
  exists out,
    OneHotEncoder.transform_column OneHotEncoder.ignore cats c = Some out /\
    map (fun col => nth i (snd col) 0) out = OneHotEncoder.indicator cats v.
Proof.
  intros Hv. unfold OneHotEncoder.transform_column. cbn [OneHotEncoder.known].
  eexists. split; [reflexivity|].
  rewrite map_map. cbn [snd]. unfold OneHotEncoder.indicator.
  apply map_ext. intros k.
  apply nth_error_nth. rewrite nth_error_map, Hv. reflexivity.
Qed.

Lemma onehot_transform_total (cs : list (list string)) (X : list (Column string)) :
  length X = length cs ->
  exists out, OneHotEncoder.transform OneHotEncoder.ignore cs X = Some out.
Proof.
  revert X. induction cs as [|cats cs IH]; intros [|c X] H; try discriminate.
  - eexists. reflexivity.
  - injection H as H. destruct (IH X H) as [r Hr].
    cbn [OneHotEncoder.transform]. rewrite Hr.
    unfold OneHotEncoder.transform_column. cbn [OneHotEncoder.known].
    eexists. reflexivity.
Qed.

(** ** The claims on the two column pipelines *)

(** C4.  The first step of each column pipeline fills every gap of a column
    that has a value at all: in a numeric column with the median of the
    values that are there, in a categorical column with a most frequent one
    of them; the cells that are there are kept. *)
Theorem missing_values_imputed :
  (forall (X : list (Column (option R))) (f : num_pipeline.fitted)
          (name : string) (cells : list (option R)),
      num_pipeline.fit X = Some f -> In (name, cells) X -> dropna cells <> [] ->
      exists Xi m,
        num_pipeline.imputed (num_pipeline.statistics_ f) X = Some Xi /\
        num_pipeline.scaler_ f = StandardScaler.fit Xi /\
        np.median (dropna cells) = Some m /\ is_median m (dropna cells) /\
        In (name, fillna m cells) Xi /\
        (forall i, nth_error cells i = Some None ->
                   nth_error (fillna m cells) i = Some m) /\
        (forall i x, nth_error cells i = Some (Some x) ->
                     nth_error (fillna m cells) i = Some x)) /\
  (forall (X : list (Column (option string))) (f : cat_pipeline.fitted)
          (name : string) (cells : list (option string)),
      cat_pipeline.fit X = Some f -> In (name, cells) X -> dropna cells <> [] ->
      exists Xi v,
        cat_pipeline.imputed (cat_pipeline.statistics_ f) X = Some Xi /\
        cat_pipeline.categories_ f = OneHotEncoder.fit Xi /\
        SimpleImputer.most_frequent (dropna cells) = Some v /\
        is_mode v (dropna cells) /\
        In (name, fillna v cells) Xi /\
        (forall i, nth_error cells i = Some None ->
                   nth_error (fillna v cells) i = Some v) /\
        (forall i x, nth_error cells i = Some (Some x) ->
                     nth_error (fillna v cells) i = Some x)).
Proof.
  split.
  - intros X f name cells Hf Hin Hne.
    destruct (num_pipeline_fit_inv X f Hf) as (_ & Hi & _ & Hs).
    destruct (median_some _ Hne) as [m Hm].
    exists (flat_map (impute_column np.median) X), m.
    repeat split; try assumption.
    + apply median_is_median, Hm.
    + apply median_is_median, Hm.
    + apply (In_impute_column np.median X (name, cells) m Hin Hm).
    + intros i. apply fillna_missing.
    + intros i x. apply fillna_present.
  - intros X f name cells Hf Hin Hne.
    destruct (cat_pipeline_fit_inv X f Hf) as (_ & Hi & _ & Hs).
    destruct (most_frequent_some _ Hne) as [v Hv].
    exists (flat_map (impute_column SimpleImputer.most_frequent) X), v.
    repeat split; try assumption.
    + apply most_frequent_is_mode, Hv.
    + apply most_frequent_is_mode, Hv.
    + apply (In_impute_column SimpleImputer.most_frequent X (name, cells) v Hin Hv).
    + intros i. apply fillna_missing.
    + intros i x. apply fillna_present.
Qed.

(** On the data it is fitted on, the numeric pipeline turns every column
    into one of mean 0, and of standard deviation 1 unless the imputed
    column is constant. *)
Lemma num_pipeline_standard_scaled (X : list (Column (option R)))
    (f : num_pipeline.fitted) (Xt : list (Column R)) :
  num_pipeline.fit X = Some f -> num_pipeline.transform f X = Some Xt ->
  exists Xi,
    num_pipeline.imputed (num_pipeline.statistics_ f) X = Some Xi /\
    Forall2 (fun ci ct =>
               fst ct = fst ci /\
               length (snd ct) = length (snd ci) /\
               np.mean (snd ct) = 0 /\
               (not_constant (snd ci) -> np.std (snd ct) = 1))
            Xi Xt.
Proof.
  intros Hf Ht.
  destruct (num_pipeline_fit_inv X f Hf) as (_ & Hi & _ & _).
  rewrite (num_pipeline_fit_transform X f Hf) in Ht. injection Ht as <-.
  exists (flat_map (impute_column np.median) X). split; [exact Hi|].
  clear Hi.
  induction (flat_map (impute_column np.median) X) as [|c Xi IH]; cbn [map].
  - constructor.
  - constructor; [|exact IH].
    unfold scale_column. cbn [fst snd]. repeat split.
    + unfold StandardScaler.transform_column. apply length_map.
    + apply mean_scaled.
    + intros (a & b & Ha & Hb & Hab). unfold np.std.
      rewrite var_scaled; [apply sqrt_1|].
      intros E. apply Hab. exact (var_zero_constant (snd c) E a b Ha Hb).
Qed.

Lemma transform_column_encodes (cats : list string) (c : Column string) :
  NoDup cats ->
  exists block,
    OneHotEncoder.transform_column OneHotEncoder.ignore cats c = Some block /\
    encodes cats c block.
Proof.
  intros Hnd. eexists. split; [reflexivity|]. split; [|split].
  - rewrite map_map. reflexivity.
  - apply Forall_forall. intros col Hcol. apply in_map_iff in Hcol.
    destruct Hcol as (k & <- & _). cbn [snd]. apply length_map.
  - intros i v Hv.
    destruct (transform_column_row cats c i v Hv) as (out & Hout & Hrow).
    injection Hout as Hout. rewrite <- Hout in Hrow. cbn zeta. split.
    + intros k Hk. refine (eq_trans Hrow _). apply indicator_known; assumption.
    + intros Hn. refine (eq_trans Hrow _). apply indicator_unknown, Hn.
Qed.

(** The encoder stacks the encodings of the columns, each over its own
    categories. *)
Lemma onehot_transform_blocks (cs : list (list string)) (X : list (Column string)) :
  Forall (@NoDup string) cs -> length X = length cs ->
  exists blocks,
    OneHotEncoder.transform OneHotEncoder.ignore cs X = Some (concat blocks) /\
    Forall2 (fun cc block => encodes (fst cc) (snd cc) block) (combine cs X) blocks.
Proof.
  intros Hnd. revert X.
  induction Hnd as [|cats cs Hcats Hnd IH]; intros [|c X] H; try discriminate.
  - exists []. split; [reflexivity | constructor].
  - injection H as H. destruct (IH X H) as (blocks & Ht & Hb).
    destruct (transform_column_encodes cats c Hcats) as (block & Hc & He).
    exists (block :: blocks). cbn [OneHotEncoder.transform concat combine].
    rewrite Hc, Ht. split; [reflexivity|]. constructor; assumption.
Qed.

(** C6.  The categories of a column are the values seen at fitting, each
    once.  The output of the categorical pipeline on the fitted frame, and
    that of its encoder on any frame of as many columns, is never an error:
    it is the encodings of the columns side by side, in which a value among
    the categories of its column is the vector that is 1 at the position of
    its category and 0 elsewhere, and any other value the vector of
    zeros. *)
Theorem categorical_columns_one_hot (X : list (Column (option string)))
    (f : cat_pipeline.fitted) :
  cat_pipeline.fit X = Some f ->
  exists Xi,
    cat_pipeline.imputed (cat_pipeline.statistics_ f) X = Some Xi /\
    Forall2 (fun ci cats => NoDup cats /\ forall v, In v cats <-> In v (snd ci))
            Xi (cat_pipeline.categories_ f) /\
    (exists blocks,
        cat_pipeline.transform f X = Some (concat blocks) /\
        Forall2 (fun cc block => encodes (fst cc) (snd cc) block)
                (combine (cat_pipeline.categories_ f) Xi) blocks) /\
    forall X', length X' = length Xi ->
      exists blocks,
        OneHotEncoder.transform OneHotEncoder.ignore
          (cat_pipeline.categories_ f) X' = Some (concat blocks) /\
        Forall2 (fun cc block => encodes (fst cc) (snd cc) block)
                (combine (cat_pipeline.categories_ f) X') blocks.
Proof.
  intros Hf.
  destruct (cat_pipeline_fit_inv X f Hf) as (_ & Hi & _ & Hc).
  set (Xi := flat_map (impute_column SimpleImputer.most_frequent) X) in *.
  assert (Hnd : Forall (@NoDup string) (cat_pipeline.categories_ f)).
  { rewrite Hc. unfold OneHotEncoder.fit. apply Forall_forall. intros cats Hin.
    apply in_map_iff in Hin. destruct Hin as (ci & <- & _).
    apply categories_NoDup. }
  assert (Hlen : length Xi = length (cat_pipeline.categories_ f)).
  { rewrite Hc. unfold OneHotEncoder.fit. rewrite length_map. reflexivity. }
  exists Xi. split; [exact Hi|]. split; [|split].
  - rewrite Hc. unfold OneHotEncoder.fit. clear.
    induction Xi as [|ci Xi IH]; cbn [map]; constructor; [|exact IH].
    split; [apply categories_NoDup | apply categories_In].
  - unfold cat_pipeline.transform. rewrite Hi.
    apply onehot_transform_blocks; assumption.
  - intros X' HX'. apply onehot_transform_blocks; [exact Hnd | congruence].
Qed.

(** ** The cells, step by step *)

Section Steps.

Context {L : Library}.

Lemma bind_inv {A B : Type} (c : M A) (f : A -> M B) (k : Kernel) (r : B * Kernel) :
  bind c f k = Some r -> exists a k', c k = Some (a, k') /\ f a k' = Some r.
Proof.
  unfold bind. destruct (c k) as [[a k']|]; [|discriminate].
  intros H. exists a, k'. split; [reflexivity | exact H].
Qed.

Lemma lift_inv {A : Type} (o : option A) (k : Kernel) (a : A) (k' : Kernel) :
  lift o k = Some (a, k') -> o = Some a /\ k' = k.
Proof.
  destruct o as [x|]; [|discriminate]. intros [= <- <-]. split; reflexivity.
Qed.

Lemma tell_eq (c : Call) (k : Kernel) : tell c k = Some (tt, logged c k).
Proof. reflexivity. Qed.

Lemma set_preprocessing_eq (f : preprocessing.fitted) (k : Kernel) :
  set_preprocessing f k = Some (tt, refitted f k).
Proof. reflexivity. Qed.

Ltac step H :=
  let a := fresh "a" in let k := fresh "k" in let E := fresh "E" in
  apply bind_inv in H; destruct H as (a & k & E & H).

Lemma preprocessing_fit_transform_inv (df : DataFrame) (k : Kernel)
    (r : preprocessing.fitted * list (Column R)) (k' : Kernel) :
  preprocessing_fit_transform df k = Some (r, k') ->
  preprocessing.fit df = Some (fst r) /\
  preprocessing.transform (fst r) df = Some (snd r) /\
  k' = refitted (fst r) k.
Proof.
  unfold preprocessing_fit_transform. intros H.
  step H. apply lift_inv in E as [Ef ->].
  step H. rewrite set_preprocessing_eq in E. injection E as <- <-.
  step H. apply lift_inv in E as [Et ->].
  injection H as <- <-. auto.
Qed.

Lemma Pipeline_fit_inv (p : Pipeline) (X : DataFrame) (y : list R) (k : Kernel)
    (p' : Pipeline) (k' : Kernel) :
  Pipeline_fit p X y k = Some (p', k') ->
  exists f Xt,
    preprocessing.fit X = Some f /\
    preprocessing.transform f X = Some Xt /\
    length y = n_rows X /\
    p' = {| regressor := regressor p;
            model_ := Some (fit_regressor (regressor p) (np_random k)
                              (rows (n_rows X) Xt) y) |} /\
    k' = refitted f (logged (call_fit (regressor p) X y) k).
Proof.
  unfold Pipeline_fit. intros H.
  step H. rewrite tell_eq in E. injection E as <- <-.
  step H. destruct a as [f Xt].
  apply preprocessing_fit_transform_inv in E as (Ef & Et & ->). cbn [fst snd] in *.
  destruct (Nat.eqb_spec (length y) (n_rows X)) as [Hl|]; [|discriminate].
  cbn [negb] in H. step H. injection E as <- <-. injection H as <- <-.
  exists f, Xt. auto.
Qed.

Lemma Pipeline_predict_inv (p : Pipeline) (X : DataFrame) (k : Kernel)
    (pred : list R) (k' : Kernel) :
  Pipeline_predict p X k = Some (pred, k') ->
  exists m f Xt,
    model_ p = Some m /\
    preprocessing_ k = Some f /\
    preprocessing.transform f X = Some Xt /\
    pred = map (predict_sample m) (rows (n_rows X) Xt) /\
    k' = logged (call_predict (regressor p) X) k.
Proof.
  unfold Pipeline_predict. intros H.
  step H. rewrite tell_eq in E. injection E as <- <-.
  step H. apply lift_inv in E as [Em ->]. rename a into m.
  step H. unfold get_preprocessing in E. cbn [logged preprocessing_] in E.
  destruct (preprocessing_ k) as [f|] eqn:Ef; [|discriminate].
  injection E as <- <-.
  step H. apply lift_inv in E as [Et ->]. rename a into Xt.
  injection H as <- <-. exists m, f, Xt. auto.
Qed.

Lemma rmse_inv (y_true y_pred : list R) (k : Kernel) (r : R) (k' : Kernel) :
  rmse y_true y_pred k = Some (r, k') ->
  root_mean_squared_error y_true y_pred = Some r /\
  k' = logged (call_root_mean_squared_error y_true y_pred) k.
Proof.
  unfold rmse. intros H.
  step H. rewrite tell_eq in E. injection E as <- <-.
  apply lift_inv in H as [Hr ->]. auto.
Qed.

Lemma cross_val_score_inv (p : Pipeline) (X : DataFrame) (y : list R) (cv : nat)
    (k : Kernel) (scores : list R) (k' : Kernel) :
  cross_val_score p X y cv k = Some (scores, k') ->
  (cv <= n_rows X)%nat /\ (2 <= cv)%nat /\ length y = n_rows X /\
  sequence (map (fold_score (regressor p) (np_random k) X y) (KFold cv (n_rows X)))
  = Some scores /\
  k' = logged (call_cross_val_score (regressor p) X y cv) k.
Proof.
  unfold cross_val_score. intros H.
  step H. rewrite tell_eq in E. injection E as <- <-.
  destruct (Nat.ltb_spec (n_rows X) cv); [discriminate|].
  destruct (Nat.ltb_spec cv 2); [discriminate|].
  destruct (Nat.eqb_spec (length y) (n_rows X)); [|discriminate].
  cbn [orb negb] in H.
  step H. injection E as <- <-.
  apply lift_inv in H as [Hs ->]. auto.
Qed.

Lemma dump_inv (p : Pipeline) (path : string) (k : Kernel) (r : list string)
    (k' : Kernel) :
  dump p path k = Some (r, k') ->
  r = [path] /\
  calls k' = calls k ++ [call_dump (regressor p) path] /\
  files k' = (path, {| pickled_preprocessing := preprocessing_ k;
                       pickled_pipeline := p |}) :: files k /\
  preprocessing_ k' = preprocessing_ k /\
  np_random k' = np_random k.
Proof.
  unfold dump. intros H.
  step H. rewrite tell_eq in E. injection E as <- <-.
  step H. injection E as <- <-.
  step H. unfold write_file in E. injection E as <- <-.
  injection H as <- <-. cbn. auto.
Qed.

Lemma train_test_split_inv (df : DataFrame) (num den : nat) (rs : option Z)
    (k : Kernel) (r : DataFrame * DataFrame) (k' : Kernel) :
  train_test_split df (num, den) rs k = Some (r, k') ->
  let n := n_rows df in
  let n_test := ((n * num + den - 1) / den)%nat in
  let p := permutation (check_random_state rs (np_random k)) n in
  (n_test < n)%nat /\
  r = (iloc df (firstn (n - n_test) (skipn n_test p)), iloc df (firstn n_test p)) /\
  k' = k.
Proof.
  unfold train_test_split. cbn [fst snd]. intros H.
  destruct (Nat.eqb_spec (n_rows df - (n_rows df * num + den - 1) / den) 0);
    [discriminate|].
  step H. injection E as <- <-. injection H as <- <-.
  cbn zeta. repeat split. lia.
Qed.

End Steps.

(** ** A complete run *)

Section Run.

Context {L : Library}.

Tactic Notation "step" hyp(H) ident(a) ident(k) ident(E) :=
  apply bind_inv in H; destruct H as (a & k & E & H).

Lemma run_inv (e : nat) (csv : DataFrame) (s : Session) (k : Kernel) :
  run e csv = Some (s, k) -> exists f0 X0 f1 X1, ran csv s k f0 X0 f1 X1.
Proof.
  unfold run, notebook, after_split. intros H.
  step H df0 k0 E. apply lift_inv in E as [E3 ->].
  step H prepared k0 E. unfold cell_8_9 in E.
  step E fX k1 E0. apply preprocessing_fit_transform_inv in E0 as (Ef0 & Et0 & ->).
  destruct fX as [f0 X0]. cbn [fst snd] in *.
  destruct (preprocessing.sparse_output_ f0) eqn:Esp; [|discriminate].
  injection E as <- <-.
  step H sp k0 E. apply train_test_split_inv in E as (Hn & -> & ->).
  cbn [fst snd] in H.
  step H X k0 E. apply lift_inv in E as [Edrop ->].
  step H target k0 E. apply lift_inv in E as [Eget ->].
  step H y k0 E. apply lift_inv in E as [Enum ->].
  step H lin k0 E. apply Pipeline_fit_inv in E as (f1 & X1 & Ef1 & Et1 & Hlen & -> & ->).
  step H pl k0 E.
  apply Pipeline_predict_inv in E as (m & f & Xt & Em & Ef & Et & -> & ->).
  cbn in Em, Ef. injection Em as <-. injection Ef as <-.
  rewrite Et1 in Et. injection Et as <-.
  step H rl k0 E. apply rmse_inv in E as (Erl & ->).
  step H tr k0 E. apply Pipeline_fit_inv in E as (f & Xt & Ef & Et & _ & -> & ->).
  rewrite Ef1 in Ef. injection Ef as <-. rewrite Et1 in Et. injection Et as <-.
  step H pt k0 E.
  apply Pipeline_predict_inv in E as (m & f & Xt & Em & Ef & Et & -> & ->).
  cbn in Em, Ef. injection Em as <-. injection Ef as <-.
  rewrite Et1 in Et. injection Et as <-.
  step H rt k0 E. apply rmse_inv in E as (Ert & ->).
  step H scores k0 E. apply cross_val_score_inv in E as (Hcv & _ & _ & Esc & ->).
  step H rf k0 E. apply Pipeline_fit_inv in E as (f & Xt & Ef & Et & _ & -> & ->).
  rewrite Ef1 in Ef. injection Ef as <-. rewrite Et1 in Et. injection Et as <-.
  step H pf k0 E.
  apply Pipeline_predict_inv in E as (m & f & Xt & Em & Ef & Et & -> & ->).
  cbn in Em, Ef. injection Em as <-. injection Ef as <-.
  rewrite Et1 in Et. injection Et as <-.
  step H rr k0 E. apply rmse_inv in E as (Err & ->).
  step H out k0 E. apply dump_inv in E as (_ & Ecalls & Efiles & _ & Enp).
  injection H as <- <-.
  exists f0, X0, f1, X1. unfold ran. cbn [accidentsData accidentsData_prepared
    train_set test_set accidentsTrain accidentsTrain_labels lin_reg lin_rmse
    tree_reg tree_rmse tree_rmses full_pipeline predictions_rf rmse_rf].
  cbn in Enp, Ecalls, Efiles. cbn [regressor fit_regressor check_random_state] in *.
  repeat match goal with |- _ /\ _ => split end; try assumption; try reflexivity.
  - eexists. split; eassumption.
  - exists scores. split; [|reflexivity]. rewrite Enp. exact Esc.
Qed.

End Run.

(** ** Which estimator is fitted, scored and saved *)

Section Models.

Context {L : Library}.

Lemma sequence_Forall2 {A : Type} (l : list (option A)) (r : list A) :
  sequence l = Some r -> Forall2 (fun o a => o = Some a) l r.
Proof.
  revert r. induction l as [|o l IH]; intros r; cbn [sequence].
  - intros [= <-]. constructor.
  - destruct o as [a|]; [|discriminate].
    destruct (sequence l) as [r'|]; [|discriminate].
    intros [= <-]. constructor; [reflexivity | apply IH; reflexivity].
Qed.

Lemma Forall2_map_l {A B C : Type} (P : B -> C -> Prop) (f : A -> B)
    (l : list A) (r : list C) :
  Forall2 P (map f l) r <-> Forall2 (fun a c => P (f a) c) l r.
Proof.
  split.
  - revert r. induction l as [|a l IH]; intros r H; inversion H; subst;
      constructor; auto.
  - induction 1; cbn [map]; constructor; auto.
Qed.

Lemma Forall2_map_r {A B C : Type} (P : A -> C -> Prop) (f : B -> C)
    (l : list A) (r : list B) :
  Forall2 P l (map f r) <-> Forall2 (fun a b => P a (f b)) l r.
Proof.
  split.
  - revert l. induction r as [|b r IH]; intros l H; inversion H; subst;
      constructor; auto.
  - induction 1; cbn [map]; constructor; auto.
Qed.

(** C1, as the code has it.  What the last cell writes to
    [Traffic_Accident_Injury_Predictor_Model.pkl] is [full_pipeline]: the
    random forest with seed 42, fitted on the training features and labels,
    behind the [preprocessing] fitted on the training features.  No error
    value takes part in the choice. *)
Theorem dumped_pipeline_is_random_forest (e : nat) (csv : DataFrame)
    (s : Session) (k : Kernel) :
  run e csv = Some (s, k) ->
  exists f1 X1,
    preprocessing.fit (accidentsTrain s) = Some f1 /\
    preprocessing.transform f1 (accidentsTrain s) = Some X1 /\
    files k = [(model_file, {| pickled_preprocessing := Some f1;
                               pickled_pipeline := full_pipeline s |})] /\
    full_pipeline s
    = {| regressor := RandomForestRegressor (Some 42%Z);
         model_ := Some (RandomForestRegressor_fit (seeded 42)
                           (rows (n_rows (accidentsTrain s)) X1)
                           (accidentsTrain_labels s)) |}.
Proof.
  intros H. destruct (run_inv e csv s k H) as (f0 & X0 & f1 & X1 & R).
  unfold ran in R. cbn zeta in R. exists f1, X1. intuition.
Qed.

(** C2, as the code has it.  One call of [cross_val_score] is made, on the
    decision tree pipeline, with the training features and labels and ten
    folds; [tree_rmses] holds the error of each of the ten folds. *)
Theorem cross_validation_of_decision_tree_only (e : nat) (csv : DataFrame)
    (s : Session) (k : Kernel) :
  run e csv = Some (s, k) ->
  filter is_cross_val_score (calls k)
  = [call_cross_val_score (DecisionTreeRegressor (Some 42%Z))
       (accidentsTrain s) (accidentsTrain_labels s) 10] /\
  length (tree_rmses s) = 10%nat /\
  Forall2 (fun fold r =>
             fold_score (DecisionTreeRegressor (Some 42%Z)) e
               (accidentsTrain s) (accidentsTrain_labels s) fold = Some (- r))
          (KFold 10 (n_rows (accidentsTrain s))) (tree_rmses s).
Proof.
  intros H. destruct (run_inv e csv s k H) as (f0 & X0 & f1 & X1 & R).
  unfold ran in R. cbn zeta in R.
  destruct R as (_ & _ & _ & _ & _ & _ & _ & _ & _ & _ & _ & _ & _ & _ & _ & _
                 & _ & (scores & Hs & Ht) & _ & _ & _ & Hc & _).
  rewrite Hc. split; [reflexivity|].
  apply sequence_Forall2 in Hs. apply Forall2_map_l in Hs.
  assert (F : Forall2 (fun fold r =>
             fold_score (DecisionTreeRegressor (Some 42%Z)) e
               (accidentsTrain s) (accidentsTrain_labels s) fold = Some (- r))
          (KFold 10 (n_rows (accidentsTrain s))) (tree_rmses s)).
  { rewrite Ht. apply Forall2_map_r. eapply Forall2_impl; [|exact Hs].
    intros fold a Ha. cbn beta in Ha. unfold fold_score in *.
    cbn [fit_regressor check_random_state] in *. rewrite Ha.
    f_equal. ring. }
  split; [|exact F].
  apply Forall2_length in F. rewrite <- F. unfold KFold.
  rewrite length_map, length_seq. reflexivity.
Qed.

(** What a fold of the cross-validation of the tree pipeline does: it
    trains a clone on the training rows of the fold, and its score is the
    negated error of the clone on the test rows. *)
Lemma fold_score_inv (g : nat) (X : DataFrame) (y : list R)
    (fold : list nat * list nat) (score : R) :
  fold_score (DecisionTreeRegressor (Some 42%Z)) g X y fold = Some score ->
  exists f m Xs,
    trained_on_fold X y fold f m /\
    preprocessing.transform f (iloc X (snd fold)) = Some Xs /\
    root_mean_squared_error (take (snd fold) y)
      (map (predict_sample m) (rows (n_rows (iloc X (snd fold))) Xs))
    = Some (- score).
Proof.
  unfold fold_score. intros H.
  destruct (preprocessing.fit (iloc X (fst fold))) as [f|] eqn:Ef; [|discriminate].
  destruct (preprocessing.transform f (iloc X (fst fold))) as [Xt|] eqn:Et;
    [|discriminate].
  destruct (preprocessing.transform f (iloc X (snd fold))) as [Xs|] eqn:Es;
    [|discriminate].
  cbn [fit_regressor check_random_state] in H.
  destruct (root_mean_squared_error _ _) as [r|] eqn:Er; [|discriminate].
  cbn [option_map] in H. injection H as <-. rewrite Ropp_involutive.
  exists f, (DecisionTreeRegressor_fit (seeded 42)
               (rows (n_rows (iloc X (fst fold))) Xt) (take (fst fold) y)), Xs.
  split; [|split; [exact Es | exact Er]].
  split; [exact Ef|]. exists Xt. split; [exact Et | reflexivity].
Qed.

Lemma fold_scores_inv (g : nat) (X : DataFrame) (y : list R)
    (folds : list (list nat * list nat)) (scores : list R) :
  sequence (map (fold_score (DecisionTreeRegressor (Some 42%Z)) g X y) folds)
  = Some scores ->
  Forall2 (fun fold r =>
             exists f m Xs,
               trained_on_fold X y fold f m /\
               preprocessing.transform f (iloc X (snd fold)) = Some Xs /\
               root_mean_squared_error (take (snd fold) y)
                 (map (predict_sample m) (rows (n_rows (iloc X (snd fold))) Xs))
               = Some r)
          folds (map Ropp scores).
Proof.
  intros H. apply sequence_Forall2 in H.
  apply Forall2_map_l in H. apply Forall2_map_r.
  eapply Forall2_impl; [|exact H]. intros fold sc Hsc.
  exact (fold_score_inv g X y fold sc Hsc).
Qed.

(** C7, as the code has it.  Three pipelines are fitted, each on the
    training features and labels, and each holds the model its regressor
    learns from the prepared training features: a linear regression, a
    decision tree and a random forest.  Every call is about one of these
    three estimators.  They are not the only models trained: the one
    cross-validation trains ten clones of the tree pipeline, each on the
    training rows of a fold, and scores each on the test rows. *)
Theorem three_regressors_fitted (e : nat) (csv : DataFrame)
    (s : Session) (k : Kernel) :
  run e csv = Some (s, k) ->
  let X := accidentsTrain s in
  let y := accidentsTrain_labels s in
  filter is_fit (calls k)
  = [ call_fit LinearRegression X y;
      call_fit (DecisionTreeRegressor (Some 42%Z)) X y;
      call_fit (RandomForestRegressor (Some 42%Z)) X y ] /\
  map regressor [lin_reg s; tree_reg s; full_pipeline s]
  = [ LinearRegression; DecisionTreeRegressor (Some 42%Z);
      RandomForestRegressor (Some 42%Z) ] /\
  (exists f1 X1,
      preprocessing.fit X = Some f1 /\
      preprocessing.transform f1 X = Some X1 /\
      map model_ [lin_reg s; tree_reg s; full_pipeline s]
      = [ Some (LinearRegression_fit (rows (n_rows X) X1) y);
          Some (DecisionTreeRegressor_fit (seeded 42) (rows (n_rows X) X1) y);
          Some (RandomForestRegressor_fit (seeded 42) (rows (n_rows X) X1) y) ]) /\
  (forall c est, In c (calls k) -> estimator_of c = Some est ->
     In est [ LinearRegression; DecisionTreeRegressor (Some 42%Z);
              RandomForestRegressor (Some 42%Z) ]) /\
  filter is_cross_val_score (calls k)
  = [call_cross_val_score (DecisionTreeRegressor (Some 42%Z)) X y 10] /\
  length (tree_rmses s) = 10%nat /\
  Forall2 (fun fold r =>
             exists f m Xs,
               trained_on_fold X y fold f m /\
               preprocessing.transform f (iloc X (snd fold)) = Some Xs /\
               root_mean_squared_error (take (snd fold) y)
                 (map (predict_sample m) (rows (n_rows (iloc X (snd fold))) Xs))
               = Some r)
          (KFold 10 (n_rows X)) (tree_rmses s).
Proof.
  intros H. cbv zeta.
  destruct (run_inv e csv s k H) as (f0 & X0 & f1 & X1 & R).
  unfold ran in R. cbn zeta in R.
  destruct R as (_ & _ & _ & _ & _ & _ & _ & _ & _ & Ef1 & Et1 & _ & Hl & _ & Ht & _
                 & _ & (scores & Hs & Hr) & Hf & _ & _ & Hc & _).
  assert (HF := fold_scores_inv _ _ _ _ _ Hs). rewrite <- Hr in HF.
  rewrite Hc, Hl, Ht, Hf.
  split; [reflexivity|]. split; [reflexivity|].
  split; [exists f1, X1; auto|].
  split; [|split; [reflexivity|split; [|exact HF]]].
  - intros c est Hin Hest. cbn [In] in Hin.
    repeat (destruct Hin as [<- | Hin];
            [cbn in Hest; first [discriminate | injection Hest as <-; cbn; tauto]|]).
    contradiction.
  - apply Forall2_length in HF. rewrite <- HF. unfold KFold.
    rewrite length_map, length_seq. reflexivity.
Qed.

(** The split is one: every row of the frame is a test row or a training
    row, and none is both. *)
Lemma split_partition (n : nat) :
  Permutation (test_indices n ++ train_indices n) (seq 0 n).
Proof.
  unfold test_indices, train_indices.
  set (p := permutation (seeded 42) n).
  set (n_test := ((n * 1 + 5 - 1) / 5)%nat).
  assert (Hp : length p = n).
  { unfold p. rewrite (Permutation_length (permutation_spec (seeded 42) n)).
    apply length_seq. }
  rewrite (firstn_all2 (skipn n_test p)).
  - rewrite firstn_skipn. apply permutation_spec.
  - rewrite length_skipn, Hp. lia.
Qed.

Lemma after_split_frame (a p train t1 t2 : DataFrame) (k0 : Kernel) :
  option_map (fun r => (without_test_set (fst r), snd r))
    (after_split a p train t1 k0)
  = option_map (fun r => (without_test_set (fst r), snd r))
      (after_split a p train t2 k0).
Proof.
  unfold after_split, bind.
  repeat match goal with
         | |- context [match ?c ?k with Some _ => _ | None => _ end] =>
             destruct (c k) as [[? ?]|]; [|reflexivity]
         end.
  reflexivity.
Qed.

(** C8.  The split puts every row of the prepared frame either in
    [train_set] or in [test_set].  Every fit, every prediction, every error
    and the cross-validation are given the training features and labels,
    which are cut out of [train_set]; no call is given [test_set].  What
    the cells after the split compute, bind and write is the same whatever
    [test_set] holds. *)
Theorem test_set_never_used (e : nat) (csv : DataFrame)
    (s : Session) (k : Kernel) :
  run e csv = Some (s, k) ->
  (let n := n_rows (accidentsData_prepared s) in
   train_set s = iloc (accidentsData_prepared s) (train_indices n) /\
   test_set s = iloc (accidentsData_prepared s) (test_indices n) /\
   Permutation (test_indices n ++ train_indices n) (seq 0 n)) /\
  drop (train_set s) [label_column] = Some (accidentsTrain s) /\
  (exists target, getitem (train_set s) label_column = Some target /\
                  to_numeric target = Some (accidentsTrain_labels s)) /\
  Forall (on_training_split s) (calls k) /\
  forall other k0,
    option_map (fun r => (without_test_set (fst r), snd r))
      (after_split (accidentsData s) (accidentsData_prepared s)
         (train_set s) other k0)
    = option_map (fun r => (without_test_set (fst r), snd r))
        (after_split (accidentsData s) (accidentsData_prepared s)
           (train_set s) (test_set s) k0).
Proof.
  intros H. destruct (run_inv e csv s k H) as (f0 & X0 & f1 & X1 & R).
  unfold ran in R. cbn zeta in R.
  destruct R as (_ & _ & _ & _ & _ & Etr & Ete & Hd & Hg & Hf1 & Ht1 & _ & Hl & _ & Ht
                 & _ & _ & _ & Hf & Hp & _ & Hc & _).
  split; [cbn zeta; split; [exact Etr | split; [exact Ete | apply split_partition]]|].
  split; [exact Hd|]. split; [exact Hg|].
  split; [|intros other k0; apply after_split_frame].
  assert (P : forall p m, In p [lin_reg s; tree_reg s; full_pipeline s] ->
                model_ p = Some m ->
                predicted_on_training_split s
                  (map (predict_sample m) (rows (n_rows (accidentsTrain s)) X1))).
  { intros p m Hin Hm. exists p, m, f1, X1. auto. }
  rewrite Hc.
  repeat (constructor; [cbn [on_training_split]; auto|]).
  all: try (split; [reflexivity|]).
  - apply (P (lin_reg s)); [cbn; tauto | rewrite Hl; reflexivity].
  - apply (P (tree_reg s)); [cbn; tauto | rewrite Ht; reflexivity].
  - rewrite Hp. apply (P (full_pipeline s)); [cbn; tauto | rewrite Hf; reflexivity].
  - constructor.
Qed.

End Models.

(** ** Runs from different states of the global generator *)

Section Determinism.

Context {L : Library}.

Lemma oblivious_ret {A : Type} (a : A) : oblivious (ret a).
Proof. intros e k. reflexivity. Qed.

Lemma oblivious_raise {A : Type} : oblivious (@raise L A).
Proof. intros e k. reflexivity. Qed.

Lemma oblivious_lift {A : Type} (o : option A) : oblivious (lift o).
Proof. destruct o; [apply oblivious_ret | apply oblivious_raise]. Qed.

Lemma oblivious_bind {A B : Type} (c : M A) (f : A -> M B) :
  oblivious c -> (forall a, oblivious (f a)) -> oblivious (bind c f).
Proof.
  intros Hc Hf e k. unfold bind. rewrite Hc.
  destruct (c k) as [[a k']|]; cbn [option_map fst snd]; [apply Hf | reflexivity].
Qed.

Lemma oblivious_tell (c : Call) : oblivious (tell c).
Proof. intros e k. reflexivity. Qed.

Lemma oblivious_set_preprocessing (f : preprocessing.fitted) :
  oblivious (set_preprocessing f).
Proof. intros e k. reflexivity. Qed.

Lemma oblivious_get_preprocessing : oblivious get_preprocessing.
Proof.
  intros e k. unfold get_preprocessing. cbn [with_np_random preprocessing_].
  destruct (preprocessing_ k); reflexivity.
Qed.

Lemma oblivious_write_file (path : string) (p : Pickle) :
  oblivious (write_file path p).
Proof. intros e k. reflexivity. Qed.

(** Reading the generator is harmless when what follows makes nothing of
    what was read. *)
Lemma oblivious_get_np_random {B : Type} (f : nat -> M B) :
  (forall g g', f g = f g') -> (forall g, oblivious (f g)) ->
  oblivious (bind get_np_random f).
Proof.
  intros Hconst Hf e k. unfold bind, get_np_random.
  cbn [with_np_random np_random]. rewrite (Hconst e (np_random k)). apply Hf.
Qed.

Lemma fit_regressor_seeded (est : Regressor) (g g' : nat) :
  seeded_regressor est = true -> fit_regressor est g = fit_regressor est g'.
Proof.
  destruct est as [| [z|] | [z|]]; cbn; intros H; try discriminate; reflexivity.
Qed.

Lemma oblivious_train_test_split (df : DataFrame) (test_size : nat * nat)
    (seed : Z) :
  oblivious (train_test_split df test_size (Some seed)).
Proof.
  unfold train_test_split.
  destruct (_ =? 0)%nat; [apply oblivious_raise|].
  apply oblivious_get_np_random; [reflexivity|].
  intros g. apply oblivious_ret.
Qed.

Lemma oblivious_preprocessing_fit_transform (df : DataFrame) :
  oblivious (preprocessing_fit_transform df).
Proof.
  unfold preprocessing_fit_transform.
  apply oblivious_bind; [apply oblivious_lift | intros f].
  apply oblivious_bind; [apply oblivious_set_preprocessing | intros _].
  apply oblivious_bind; [apply oblivious_lift | intros Xt].
  apply oblivious_ret.
Qed.

Lemma oblivious_Pipeline_fit (p : Pipeline) (X : DataFrame) (y : list R) :
  seeded_regressor (regressor p) = true -> oblivious (Pipeline_fit p X y).
Proof.
  intros Hp. unfold Pipeline_fit.
  apply oblivious_bind; [apply oblivious_tell | intros _].
  apply oblivious_bind; [apply oblivious_preprocessing_fit_transform | intros fX].
  destruct (negb _); [apply oblivious_raise|].
  apply oblivious_get_np_random.
  - intros g g'. rewrite (fit_regressor_seeded _ g g' Hp). reflexivity.
  - intros g. apply oblivious_ret.
Qed.

Lemma oblivious_Pipeline_predict (p : Pipeline) (X : DataFrame) :
  oblivious (Pipeline_predict p X).
Proof.
  unfold Pipeline_predict.
  apply oblivious_bind; [apply oblivious_tell | intros _].
  apply oblivious_bind; [apply oblivious_lift | intros m].
  apply oblivious_bind; [apply oblivious_get_preprocessing | intros f].
  apply oblivious_bind; [apply oblivious_lift | intros Xt].
  apply oblivious_ret.
Qed.

Lemma oblivious_rmse (y_true y_pred : list R) : oblivious (rmse y_true y_pred).
Proof.
  unfold rmse.
  apply oblivious_bind; [apply oblivious_tell | intros _]. apply oblivious_lift.
Qed.

Lemma oblivious_cross_val_score (p : Pipeline) (X : DataFrame) (y : list R)
    (cv : nat) :
  seeded_regressor (regressor p) = true -> oblivious (cross_val_score p X y cv).
Proof.
  intros Hp. unfold cross_val_score.
  apply oblivious_bind; [apply oblivious_tell | intros _].
  destruct (_ || _ || _); [apply oblivious_raise|].
  apply oblivious_get_np_random.
  - intros g g'. unfold fold_score.
    rewrite (fit_regressor_seeded _ g g' Hp). reflexivity.
  - intros g. apply oblivious_lift.
Qed.

Lemma oblivious_dump (p : Pipeline) (path : string) : oblivious (dump p path).
Proof.
  unfold dump.
  apply oblivious_bind; [apply oblivious_tell | intros _].
  apply oblivious_bind.
  - intros e k. reflexivity.
  - intros f. apply oblivious_bind; [apply oblivious_write_file | intros _].
    apply oblivious_ret.
Qed.

Lemma Pipeline_fit_regressor (p : Pipeline) (X : DataFrame) (y : list R)
    (k : Kernel) (p' : Pipeline) (k' : Kernel) :
  Pipeline_fit p X y k = Some (p', k') -> regressor p' = regressor p.
Proof.
  intros H. apply Pipeline_fit_inv in H as (f & Xt & _ & _ & _ & -> & _).
  reflexivity.
Qed.

Lemma oblivious_bind_post {A B : Type} (P : A -> Prop) (c : M A) (f : A -> M B) :
  oblivious c -> (forall a k k', c k = Some (a, k') -> P a) ->
  (forall a, P a -> oblivious (f a)) -> oblivious (bind c f).
Proof.
  intros Hc HP Hf e k. unfold bind. rewrite Hc.
  destruct (c k) as [[a k']|] eqn:E; cbn [option_map fst snd]; [|reflexivity].
  apply Hf. eapply HP. exact E.
Qed.

(** No cell of the notebook makes anything of the global generator: every
    component that draws random numbers is seeded. *)
Lemma oblivious_notebook (csv : DataFrame) : oblivious (notebook csv).
Proof.
  unfold notebook, cell_8_9.
  apply oblivious_bind; [apply oblivious_lift | intros df].
  apply oblivious_bind.
  { apply oblivious_bind; [apply oblivious_preprocessing_fit_transform | intros fX].
    destruct (preprocessing.sparse_output_ _);
      [apply oblivious_ret | apply oblivious_raise]. }
  intros prepared.
  apply oblivious_bind; [apply oblivious_train_test_split | intros sp].
  unfold after_split.
  apply oblivious_bind; [apply oblivious_lift | intros X].
  apply oblivious_bind; [apply oblivious_lift | intros target].
  apply oblivious_bind; [apply oblivious_lift | intros y].
  apply oblivious_bind; [apply oblivious_Pipeline_fit; reflexivity | intros lin].
  apply oblivious_bind; [apply oblivious_Pipeline_predict | intros pl].
  apply oblivious_bind; [apply oblivious_rmse | intros rl].
  apply (oblivious_bind_post
           (fun tr => regressor tr = DecisionTreeRegressor (Some 42%Z)));
    [apply oblivious_Pipeline_fit; reflexivity
    | intros tr k k'; apply Pipeline_fit_regressor
    | intros tr Htr].
  apply oblivious_bind; [apply oblivious_Pipeline_predict | intros pt].
  apply oblivious_bind; [apply oblivious_rmse | intros rt].
  apply oblivious_bind;
    [apply oblivious_cross_val_score; rewrite Htr; reflexivity | intros scores].
  apply oblivious_bind; [apply oblivious_Pipeline_fit; reflexivity | intros rf].
  apply oblivious_bind; [apply oblivious_Pipeline_predict | intros pf].
  apply oblivious_bind; [apply oblivious_rmse | intros rr].
  apply oblivious_bind; [apply oblivious_dump | intros out].
  apply oblivious_ret.
Qed.

(** C9.  Two runs on the same frame end alike, whatever state the global
    generator is in at their start: both fail, or both bind the same
    variables (the split, the fitted tree and forest, every error value),
    make the same calls and write the same file. *)
Theorem runs_are_deterministic (e1 e2 : nat) (csv : DataFrame) :
  outcome (run e1 csv) = outcome (run e2 csv).
Proof.
  assert (H : forall e, outcome (run e csv) = outcome (run 0 csv)).
  { intros e. unfold run.
    change (fresh e) with (with_np_random e (fresh 0)).
    rewrite oblivious_notebook. unfold outcome.
    destruct (notebook csv (fresh 0)) as [[s k]|]; reflexivity. }
  rewrite (H e1), (H e2). reflexivity.
Qed.

End Determinism.

(** ** Columns under their labels *)

Lemma append_eqb (p a b : string) :
  String.eqb (p ++ a) (p ++ b) = String.eqb a b.
Proof.
  induction p as [|c p IH]; cbn [append String.eqb]; [reflexivity|].
  rewrite Ascii.eqb_refl. exact IH.
Qed.

Lemma assoc_In {A : Type} (l : list (string * A)) (n : string) (a : A) :
  assoc l n = Some a -> In (n, a) l.
Proof.
  induction l as [|[k x] l IH]; cbn [assoc]; [discriminate|].
  destruct (String.eqb_spec k n) as [-> | _].
  - intros [= ->]. left. reflexivity.
  - intros H. right. apply IH, H.
Qed.

Lemma In_assoc {A : Type} (l : list (string * A)) (n : string) (a : A) :
  NoDup (map fst l) -> In (n, a) l -> assoc l n = Some a.
Proof.
  induction l as [|[k x] l IH]; cbn [assoc map fst]; [contradiction|].
  intros Hnd [[= -> ->] | Hin].
  - rewrite String.eqb_refl. reflexivity.
  - inversion Hnd as [|? ? Hk Hnd']; subst.
    destruct (String.eqb_spec k n) as [-> | _].
    + exfalso. apply Hk. apply (in_map fst) in Hin. exact Hin.
    + apply IH; assumption.
Qed.

Lemma assoc_map_values {A B : Type} (g : A -> B) (l : list (string * A)) (n : string) :
  assoc (map (fun c => (fst c, g (snd c))) l) n = option_map g (assoc l n).
Proof.
  induction l as [|[k x] l IH]; cbn [assoc map fst snd]; [reflexivity|].
  destruct (String.eqb k n); [reflexivity | exact IH].
Qed.

Lemma assoc_app {A : Type} (l l' : list (string * A)) (n : string) :
  assoc (l ++ l') n
  = match assoc l n with Some a => Some a | None => assoc l' n end.
Proof.
  induction l as [|[k x] l IH]; cbn [assoc app]; [reflexivity|].
  destruct (String.eqb k n); [reflexivity | exact IH].
Qed.

Lemma assoc_prefixed (p : string) (X : list (Column R)) (n : string) :
  assoc (preprocessing.prefixed p X) (p ++ "__" ++ n) = assoc X n.
Proof.
  unfold preprocessing.prefixed.
  induction X as [|[k x] X IH]; cbn [assoc map fst snd]; [reflexivity|].
  rewrite !append_eqb. destruct (String.eqb k n); [reflexivity | exact IH].
Qed.

Lemma assoc_pipeline_2 (X : list (Column R)) (n : string) :
  assoc (preprocessing.prefixed "pipeline-2" X) ("pipeline-1" ++ "__" ++ n) = None.
Proof.
  unfold preprocessing.prefixed.
  induction X as [|[k x] X IH]; cbn [assoc map fst snd]; [reflexivity|].
  exact IH.
Qed.

Lemma getitem_iloc (df : DataFrame) (idx : list nat) (n : string) :
  getitem (iloc df idx) n = option_map (series_take idx) (getitem df n).
Proof. apply (assoc_map_values (series_take idx)). Qed.

Lemma getitem_DataFrame_of (X : list (Column R)) (n : string) :
  getitem (DataFrame_of X) n
  = option_map (fun col => Float64 (map Some col)) (assoc X n).
Proof. apply (assoc_map_values (fun col => Float64 (map Some col))). Qed.

Lemma has_column_getitem (df : DataFrame) (n : string) :
  has_column df n = true <-> getitem df n <> None.
Proof.
  unfold has_column, getitem.
  induction df as [|[k x] df IH]; cbn [assoc existsb fst].
  - split; [discriminate | congruence].
  - destruct (String.eqb k n); cbn [orb]; [split; [discriminate | reflexivity]|].
    exact IH.
Qed.

Lemma getitem_setitem (df : DataFrame) (n m : string) (s : Series) :
  getitem (setitem df n s) m
  = if String.eqb n m then Some s else getitem df m.
Proof.
  unfold getitem.
  induction df as [|[k x] df IH]; cbn [setitem assoc].
  - destruct (String.eqb n m); reflexivity.
  - destruct (String.eqb_spec k n) as [-> | Hkn]; cbn [assoc].
    + destruct (String.eqb n m); reflexivity.
    + rewrite IH. destruct (String.eqb_spec k m) as [-> | _]; [|reflexivity].
      destruct (String.eqb_spec n m) as [-> | _]; [contradiction | reflexivity].
Qed.

Lemma has_column_setitem (df : DataFrame) (n m : string) (s : Series) :
  has_column (setitem df n s) m = String.eqb n m || has_column df m.
Proof.
  pose proof (getitem_setitem df n m s) as G.
  pose proof (has_column_getitem (setitem df n s) m) as H1.
  pose proof (has_column_getitem df m) as H2.
  destruct (String.eqb n m); cbn [orb].
  - apply H1. rewrite G. discriminate.
  - rewrite G in H1.
    destruct (has_column (setitem df n s) m), (has_column df m); try reflexivity.
    + exfalso. apply (proj1 H1 eq_refl). destruct (getitem df m); [|reflexivity].
      exfalso. assert (false = true) by (apply H2; discriminate). discriminate.
    + assert (false = true) by (apply H1, H2; reflexivity). discriminate.
Qed.

Lemma getitem_drop (df df' : DataFrame) (names : list string) (m : string) :
  drop df names = Some df' ->
  getitem df' m = if existsb (String.eqb m) names then None else getitem df m.
Proof.
  unfold drop. destruct (forallb _ names); [|discriminate]. intros [= <-].
  unfold getitem.
  induction df as [|[k x] df IH]; cbn [filter assoc fst].
  - destruct (existsb _ names); reflexivity.
  - destruct (String.eqb_spec k m) as [-> | Hkm].
    + destruct (existsb (String.eqb m) names); cbn [negb assoc].
      * rewrite IH. reflexivity.
      * rewrite String.eqb_refl. reflexivity.
    + destruct (existsb (String.eqb k) names); cbn [negb assoc]; [exact IH|].
      destruct (String.eqb_spec k m); [contradiction | exact IH].
Qed.

Lemma map_fst_setitem (df : DataFrame) (n : string) (s : Series) :
  map fst (setitem df n s)
  = if has_column df n then map fst df else map fst df ++ [n].
Proof.
  unfold has_column.
  induction df as [|[k x] df IH]; cbn [setitem map existsb fst]; [reflexivity|].
  destruct (String.eqb k n); cbn [orb map fst]; [reflexivity|].
  rewrite IH. destruct (existsb _ df); reflexivity.
Qed.

Lemma NoDup_setitem (df : DataFrame) (n : string) (s : Series) :
  NoDup (map fst df) -> NoDup (map fst (setitem df n s)).
Proof.
  intros H. rewrite map_fst_setitem.
  destruct (has_column df n) eqn:E; [exact H|].
  apply NoDup_app; [exact H | constructor; [intros [] | constructor] |].
  intros k Hk [-> | []].
  apply in_map_iff in Hk. destruct Hk as ([k' x] & Ek & Hin). cbn in Ek. subst k'.
  assert (has_column df k = true); [|congruence].
  unfold has_column. apply existsb_exists. exists (k, x).
  split; [exact Hin | apply String.eqb_refl].
Qed.

Lemma NoDup_drop (df df' : DataFrame) (names : list string) :
  drop df names = Some df' -> NoDup (map fst df) -> NoDup (map fst df').
Proof.
  unfold drop. destruct (forallb _ names); [|discriminate]. intros [= <-].
  induction df as [|[k x] df IH]; cbn [filter map fst]; [auto|].
  intros H. inversion H as [|? ? Hk Hnd]; subst.
  destruct (existsb (String.eqb k) names); cbn [negb map fst]; [apply IH, Hnd|].
  constructor; [|apply IH, Hnd].
  intros Hin. apply Hk. apply in_map_iff in Hin.
  destruct Hin as (c & Ec & Hc). apply filter_In in Hc.
  apply in_map_iff. exists c. tauto.
Qed.

Section Cell3.

Context {L : Library}.

Lemma to_datetime_coerce_dates (c s : Series) :
  to_datetime_coerce c = Some s ->
  exists dates, s = Datetime64 dates /\ length dates = series_length c.
Proof.
  destruct c as [x | x | x]; cbn [to_datetime_coerce series_length].
  - intros [= <-]. eexists. split; [reflexivity|]. apply length_map.
  - destruct (offsets (parsed_dates x)) as [|z [|z' zs]]; try discriminate;
      intros [= <-]; (eexists; split; [reflexivity|]);
      unfold parsed_dates; rewrite !length_map; reflexivity.
  - intros [= <-]. eexists. split; reflexivity.
Qed.

(** More than one entry in a list without repetition: two different
    members. *)
Lemma nodup_two {A : Type} (dec : forall a b : A, {a = b} + {a <> b})
    (l : list A) :
  (2 <= length (nodup dec l))%nat <->
  exists a b, In a l /\ In b l /\ a <> b.
Proof.
  split.
  - pose proof (NoDup_nodup dec l) as Hnd.
    destruct (nodup dec l) as [|a [|b r]] eqn:E; cbn [length];
      intros H; try lia.
    exists a, b. split; [|split].
    + apply (nodup_In dec). rewrite E. left. reflexivity.
    + apply (nodup_In dec). rewrite E. right. left. reflexivity.
    + inversion Hnd as [|? ? Ha _]; subst. intros ->. apply Ha. left. reflexivity.
  - intros (a & b & Ha & Hb & Hab).
    apply (nodup_In dec) in Ha, Hb.
    destruct (nodup dec l) as [|c [|d r]]; cbn [length In] in *;
      [contradiction | | lia].
    destruct Ha as [<- | []], Hb as [<- | []]. exfalso. apply Hab. reflexivity.
Qed.

Lemma In_dropna {A : Type} (l : list (option A)) (x : A) :
  In x (dropna l) <-> In (Some x) l.
Proof.
  unfold dropna. rewrite in_flat_map. split.
  - intros ([y|] & Hin & Hx); cbn [In] in Hx; [|contradiction].
    destruct Hx as [<- | []]. exact Hin.
  - intros Hin. exists (Some x). split; [exact Hin | left; reflexivity].
Qed.

Lemma In_parsed_dates (cells : list (option string)) (t : Timestamp)
    (z : option Z) :
  In (Some (t, z)) (parsed_dates cells) <->
  exists v, In (Some v) cells /\ date_parser cells v = Some (t, z).
Proof.
  unfold parsed_dates. rewrite in_map_iff. split.
  - intros ([v|] & Hp & Hin); [|discriminate]. exists v. auto.
  - intros (v & Hin & Hp). exists (Some v). auto.
Qed.

(** The dates of an object column make no datetime64 column exactly when
    their offsets are mixed. *)
Lemma offsets_mixed (cells : list (option string)) :
  (2 <= length (offsets (parsed_dates cells)))%nat <-> mixed_offsets cells.
Proof.
  unfold offsets, mixed_offsets. rewrite nodup_two. split.
  - intros (z & z' & Hz & Hz' & Hne).
    apply in_map_iff in Hz. destruct Hz as ([t z0] & <- & Ht).
    apply in_map_iff in Hz'. destruct Hz' as ([t' z1] & <- & Ht').
    apply In_dropna, In_parsed_dates in Ht, Ht'.
    destruct Ht as (v & Hv & Pv), Ht' as (w & Hw & Pw).
    exists v, w, t, t', z0, z1. cbn [snd] in Hne. auto.
  - intros (v & w & t & t' & z & z' & Hv & Hw & Pv & Pw & Hne).
    exists z, z'. split; [|split; [|exact Hne]].
    + apply in_map_iff. exists (t, z). split; [reflexivity|].
      apply In_dropna, In_parsed_dates. eauto.
    + apply in_map_iff. exists (t', z'). split; [reflexivity|].
      apply In_dropna, In_parsed_dates. eauto.
Qed.

Lemma to_datetime_coerce_raises (c : Series) :
  to_datetime_coerce c = None <->
  exists cells, c = Object cells /\ mixed_offsets cells.
Proof.
  split.
  - destruct c as [x | x | x]; cbn [to_datetime_coerce]; try discriminate.
    intros H. exists x. split; [reflexivity|]. apply offsets_mixed.
    destruct (offsets (parsed_dates x)) as [|z [|z' zs]]; try discriminate.
    cbn [length]. lia.
  - intros (cells & -> & H). apply offsets_mixed in H.
    cbn [to_datetime_coerce].
    destruct (offsets (parsed_dates cells)) as [|z [|z' zs]];
      cbn [length] in H; try lia.
    reflexivity.
Qed.

Lemma to_datetime_coerce_object (cells : list (option string)) :
  ~ mixed_offsets cells ->
  to_datetime_coerce (Object cells)
  = Some (Datetime64 (map (option_map fst) (parsed_dates cells))).
Proof.
  intros H. cbn [to_datetime_coerce].
  destruct (offsets (parsed_dates cells)) as [|z [|z' zs]] eqn:E; try reflexivity.
  exfalso. apply H, offsets_mixed. rewrite E. cbn [length]. lia.
Qed.

Lemma cell_3_inv (csv df : DataFrame) :
  cell_3 csv = Some df ->
  exists c dates,
    getitem csv "crash_date" = Some c /\
    to_datetime_coerce c = Some (Datetime64 dates) /\
    getitem df "crash_year" = Some (Float64 (dt_cells year dates)) /\
    getitem df "crash_month" = Some (Float64 (dt_cells month dates)) /\
    getitem df "crash_day_of_week" = Some (Float64 (dt_cells dayofweek dates)) /\
    getitem df "injuries_total" = getitem csv "injuries_total" /\
    (NoDup (map fst csv) -> NoDup (map fst df)).
Proof.
  unfold cell_3. intros H.
  destruct (getitem csv "crash_date") as [c|] eqn:Ec; [|discriminate].
  destruct (to_datetime_coerce c) as [c'|] eqn:Ed; [|discriminate].
  destruct (to_datetime_coerce_dates c c' Ed) as (dates & -> & _).
  repeat (rewrite getitem_setitem in H; cbn [String.eqb Ascii.eqb Bool.eqb dt] in H).
  exists c, dates. split; [reflexivity|]. split; [exact Ed|].
  rewrite !(getitem_drop _ _ _ _ H).
  cbn [existsb String.eqb Ascii.eqb Bool.eqb orb].
  repeat (rewrite getitem_setitem; cbn [String.eqb Ascii.eqb Bool.eqb]).
  repeat split.
  intros Hnd. eapply NoDup_drop; [exact H|]. repeat apply NoDup_setitem. exact Hnd.
Qed.

Lemma cell_3_total (csv : DataFrame) (c c' : Series) :
  getitem csv "crash_date" = Some c ->
  to_datetime_coerce c = Some c' ->
  forallb (has_column csv)
    ["injuries_fatal"; "injuries_incapacitating"; "injuries_non_incapacitating";
     "injuries_reported_not_evident"]%string = true ->
  exists df, cell_3 csv = Some df.
Proof.
  intros Ec Ed Hcols. unfold cell_3. rewrite Ec, Ed.
  destruct (to_datetime_coerce_dates c c' Ed) as (dates & -> & _).
  repeat (rewrite getitem_setitem; cbn [String.eqb Ascii.eqb Bool.eqb dt]).
  unfold drop. cbn [forallb] in *.
  rewrite !has_column_setitem. cbn [String.eqb Ascii.eqb Bool.eqb orb].
  rewrite Hcols. eexists. reflexivity.
Qed.

End Cell3.

(** ** The column transformer on the frame it was fitted on *)

Lemma select_number_In (df : DataFrame) (n : string) (cells : list (option R)) :
  In (n, cells) (preprocessing.select_number df) <-> In (n, Float64 cells) df.
Proof.
  unfold preprocessing.select_number. rewrite in_flat_map. split.
  - intros ([k [x | x | x]] & Hin & Hc); cbn [snd fst] in Hc;
      try contradiction.
    destruct Hc as [[= <- <-] | []]. exact Hin.
  - intros Hin. exists (n, Float64 cells). split; [exact Hin | left; reflexivity].
Qed.

Lemma select_object_In (df : DataFrame) (n : string) (cells : list (option string)) :
  In (n, cells) (preprocessing.select_object df) <-> In (n, Object cells) df.
Proof.
  unfold preprocessing.select_object. rewrite in_flat_map. split.
  - intros ([k [x | x | x]] & Hin & Hc); cbn [snd fst] in Hc;
      try contradiction.
    destruct Hc as [[= <- <-] | []]. exact Hin.
  - intros Hin. exists (n, Object cells). split; [exact Hin | left; reflexivity].
Qed.

Lemma pick_number_In (df : DataFrame) (X : list (Column (option R))) :
  NoDup (map fst df) ->
  (forall c, In c X -> In (fst c, Float64 (snd c)) df) ->
  preprocessing.pick_number df (map fst X) = Some X.
Proof.
  intros Hnd. induction X as [|[k x] X IH]; intros H; cbn [map fst]; [reflexivity|].
  cbn [preprocessing.pick_number]. unfold getitem.
  rewrite (In_assoc df k (Float64 x) Hnd (H (k, x) (or_introl eq_refl))).
  rewrite IH; [reflexivity|]. intros c Hc. apply H. right. exact Hc.
Qed.

Lemma pick_object_In (df : DataFrame) (X : list (Column (option string))) :
  NoDup (map fst df) ->
  (forall c, In c X -> In (fst c, Object (snd c)) df) ->
  preprocessing.pick_object df (map fst X) = Some X.
Proof.
  intros Hnd. induction X as [|[k x] X IH]; intros H; cbn [map fst]; [reflexivity|].
  cbn [preprocessing.pick_object]. unfold getitem.
  rewrite (In_assoc df k (Object x) Hnd (H (k, x) (or_introl eq_refl))).
  rewrite IH; [reflexivity|]. intros c Hc. apply H. right. exact Hc.
Qed.

Lemma preprocessing_fit_inv (df : DataFrame) (f : preprocessing.fitted) :
  preprocessing.fit df = Some f ->
  n_rows df <> 0%nat /\
  preprocessing.number_columns f = map fst (preprocessing.select_number df) /\
  preprocessing.object_columns f = map fst (preprocessing.select_object df) /\
  preprocessing.fit_block num_pipeline.fit (preprocessing.select_number df)
  = Some (preprocessing.pipeline_1 f) /\
  preprocessing.fit_block cat_pipeline.fit (preprocessing.select_object df)
  = Some (preprocessing.pipeline_2 f).
Proof.
  unfold preprocessing.fit.
  destruct (Nat.eqb_spec (n_rows df) 0) as [|Hn]; [discriminate|].
  destruct (preprocessing.fit_block num_pipeline.fit _) as [f1|]; [|discriminate].
  destruct (preprocessing.fit_block cat_pipeline.fit _) as [f2|]; [|discriminate].
  intros [= <-]. cbn. auto.
Qed.

(** The numeric block of the output, on the frame of the fit. *)
Lemma preprocessing_transform_fitted (df : DataFrame) (f : preprocessing.fitted)
    (Xt : list (Column R)) :
  NoDup (map fst df) ->
  preprocessing.fit df = Some f -> preprocessing.transform f df = Some Xt ->
  exists B,
    Xt = preprocessing.prefixed "pipeline-1"
           (map scale_column
              (flat_map (impute_column np.median) (preprocessing.select_number df)))
         ++ preprocessing.prefixed "pipeline-2" B.
Proof.
  intros Hnd Hf Ht.
  destruct (preprocessing_fit_inv df f Hf) as (_ & En & Eo & E1 & E2).
  unfold preprocessing.transform in Ht. rewrite En, Eo in Ht.
  rewrite pick_number_In in Ht;
    [|exact Hnd | intros [k x] Hc; apply select_number_In; exact Hc].
  rewrite pick_object_In in Ht;
    [|exact Hnd | intros [k x] Hc; apply select_object_In; exact Hc].
  unfold preprocessing.fit_block in E1.
  destruct (preprocessing.transform_block num_pipeline.transform _ _ _) as [A|] eqn:EA;
    [|discriminate].
  destruct (preprocessing.transform_block cat_pipeline.transform _ _ _) as [B|] eqn:EB;
    [|discriminate].
  injection Ht as <-.
  assert (HA : A = preprocessing.prefixed "pipeline-1"
                 (map scale_column
                    (flat_map (impute_column np.median)
                       (preprocessing.select_number df)))).
  { unfold preprocessing.transform_block in EA.
    destruct (preprocessing.select_number df) as [|c X] eqn:EX.
    - injection E1 as E1. rewrite <- E1 in EA. injection EA as <-. reflexivity.
    - destruct (num_pipeline.fit (c :: X)) as [f1|] eqn:Ef1; [|discriminate].
      injection E1 as E1. rewrite <- E1 in EA. cbn [option_map] in EA.
      rewrite (num_pipeline_fit_transform _ _ Ef1) in EA.
      injection EA as <-. reflexivity. }
  unfold preprocessing.transform_block in EB.
  destruct (preprocessing.pipeline_2 f) as [f2|].
  - destruct (cat_pipeline.transform f2 _) as [B0|]; [|discriminate].
    injection EB as <-. exists B0. rewrite HA. reflexivity.
  - injection EB as <-. exists []. rewrite HA. reflexivity.
Qed.

Lemma assoc_imputed (df : DataFrame) (n : string) (col : list R) :
  NoDup (map fst df) ->
  assoc (flat_map (impute_column np.median) (preprocessing.select_number df)) n
  = Some col ->
  exists cells m,
    getitem df n = Some (Float64 cells) /\
    np.median (dropna cells) = Some m /\
    col = fillna m cells.
Proof.
  unfold getitem.
  induction df as [|[k s] df IH]; cbn [preprocessing.select_number flat_map map fst snd];
    intros Hnd H; [discriminate|].
  inversion Hnd as [|? ? Hk Hnd']; subst.
  fold (preprocessing.select_number df) in *.
  assert (Tail : assoc (flat_map (impute_column np.median)
                          (preprocessing.select_number df)) n = Some col ->
                 exists cells m,
                   assoc ((k, s) :: df) n = Some (Float64 cells) /\
                   np.median (dropna cells) = Some m /\ col = fillna m cells).
  { intros Ht. destruct (IH Hnd' Ht) as (cells & m & Hc & Hm & ->).
    exists cells, m. repeat split; [|exact Hm]. cbn [assoc].
    destruct (String.eqb_spec k n) as [-> | _]; [|exact Hc].
    exfalso. apply Hk. apply assoc_In in Hc.
    apply (in_map fst) in Hc. exact Hc. }
  destruct s as [x | x | x]; cbn [app flat_map] in H; try (apply Tail, H).
  unfold impute_column at 1 in H. cbn [fst snd] in H.
  destruct (np.median (dropna x)) as [m|] eqn:Em; cbn [app] in H;
    [|apply Tail, H].
  cbn [assoc] in *.
  destruct (String.eqb_spec k n) as [-> | _].
  - injection H as <-. exists x, m. auto.
  - destruct (Tail H) as (cells & m' & Hc & Hm & ->). exists cells, m'. auto.
Qed.

Lemma assoc_scale_column (X : list (Column R)) (n : string) :
  assoc (map scale_column X) n
  = option_map (fun xs => snd (scale_column (n, xs))) (assoc X n).
Proof.
  induction X as [|[k x] X IH]; cbn [assoc map scale_column fst snd]; [reflexivity|].
  destruct (String.eqb k n); [reflexivity | exact IH].
Qed.

Lemma take_map {A B : Type} (f : A -> B) (idx : list nat) (l : list A) :
  take idx (map f l) = map f (take idx l).
Proof.
  unfold take. induction idx as [|i idx IH]; cbn [flat_map map]; [reflexivity|].
  rewrite map_app, IH, nth_error_map.
  destruct (nth_error l i); reflexivity.
Qed.

Lemma to_numeric_Some (l : list R) : to_numeric (Float64 (map Some l)) = Some l.
Proof.
  unfold to_numeric.
  replace (forallb _ (map Some l)) with true.
  - f_equal. induction l as [|x l IH]; cbn; [reflexivity | f_equal; exact IH].
  - symmetry. apply forallb_forall. intros o Ho.
    apply in_map_iff in Ho. destruct Ho as (x & <- & _). reflexivity.
Qed.

Lemma assoc_imputed_In (df : DataFrame) (n : string) (cells : list (option R))
    (m : R) :
  NoDup (map fst df) -> In (n, Float64 cells) df ->
  np.median (dropna cells) = Some m ->
  assoc (flat_map (impute_column np.median) (preprocessing.select_number df)) n
  = Some (fillna m cells).
Proof.
  induction df as [|[k s] df IH]; cbn [map fst]; intros Hnd Hin Hm; [contradiction|].
  inversion Hnd as [|? ? Hk Hnd']; subst.
  cbn [preprocessing.select_number flat_map fst snd].
  fold (preprocessing.select_number df).
  destruct Hin as [[= -> ->] | Hin].
  - cbn [app flat_map]. unfold impute_column at 1. cbn [fst snd].
    rewrite Hm. cbn [app assoc]. rewrite String.eqb_refl. reflexivity.
  - assert (Hkn : k <> n).
    { intros ->. apply Hk. apply (in_map fst) in Hin. exact Hin. }
    specialize (IH Hnd' Hin Hm).
    destruct s as [x | x | x]; cbn [app flat_map]; try exact IH.
    unfold impute_column at 1. cbn [fst snd].
    destruct (np.median (dropna x)); cbn [app assoc]; [|exact IH].
    destruct (String.eqb_spec k n); [contradiction | exact IH].
Qed.

(** C5.  In the output of [preprocessing] on the frame it was fitted on,
    the column of every numeric column that has a value at all is that
    column imputed, centred and scaled: its mean is 0 and, unless the
    imputed column is constant, its standard deviation is 1. *)
Theorem numeric_columns_standard_scaled (df : DataFrame)
    (f : preprocessing.fitted) (Xt : list (Column R))
    (name : string) (cells : list (option R)) (m : R) :
  NoDup (map fst df) ->
  preprocessing.fit df = Some f -> preprocessing.transform f df = Some Xt ->
  In (name, Float64 cells) df -> np.median (dropna cells) = Some m ->
  exists col,
    assoc Xt ("pipeline-1" ++ "__" ++ name) = Some col /\
    col = standardised m cells /\
    length col = length cells /\
    np.mean col = 0 /\
    (not_constant (fillna m cells) -> np.std col = 1).
Proof.
  intros Hnd Hf Ht Hin Hm.
  destruct (preprocessing_transform_fitted df f Xt Hnd Hf Ht) as (B & ->).
  exists (standardised m cells).
  split.
  - pose proof (assoc_imputed_In df name cells m Hnd Hin Hm) as HA.
    unfold Column in *.
    rewrite assoc_app, assoc_prefixed, assoc_scale_column, HA. reflexivity.
  - split; [reflexivity|]. unfold standardised, scale_column. cbn [fst snd].
    split; [|split].
    + unfold StandardScaler.transform_column, fillna. rewrite !length_map.
      reflexivity.
    + apply mean_scaled.
    + intros (a & b & Ha & Hb & Hab). unfold np.std.
      rewrite var_scaled; [apply sqrt_1|].
      intros E. apply Hab. exact (var_zero_constant _ E a b Ha Hb).
Qed.

Section Labels.

Context {L : Library}.

(** The training labels are the standardised [injuries_total] of the
    training rows. *)
Lemma labels_inv (e : nat) (csv : DataFrame) (s : Session) (k : Kernel) :
  NoDup (map fst csv) -> run e csv = Some (s, k) ->
  exists cells m,
    getitem csv "injuries_total" = Some (Float64 cells) /\
    np.median (dropna cells) = Some m /\
    accidentsTrain_labels s
    = take (train_indices (n_rows (accidentsData_prepared s)))
        (standardised m cells).
Proof.
  intros Hnd H. destruct (run_inv e csv s k H) as (f0 & X0 & f1 & X1 & R).
  unfold ran in R. cbn zeta in R.
  destruct R as (E3 & Ef0 & Et0 & _ & Ep & Etr & _ & _ & (target & Eg & En) & _).
  destruct (cell_3_inv csv _ E3) as (c & dates & _ & _ & _ & _ & _ & Ei & Hnd').
  specialize (Hnd' Hnd).
  destruct (preprocessing_transform_fitted _ f0 X0 Hnd' Ef0 Et0) as (B & EX0).
  rewrite Etr in Eg.
  set (idx := train_indices (n_rows (accidentsData_prepared s))) in *.
  rewrite Ep, getitem_iloc, getitem_DataFrame_of, EX0 in Eg.
  unfold Column in Eg. rewrite assoc_app in Eg.
  change label_column with ("pipeline-1" ++ "__" ++ "injuries_total")%string in Eg.
  rewrite assoc_prefixed, assoc_pipeline_2 in Eg.
  rewrite assoc_scale_column in Eg.
  destruct (assoc (flat_map _ _) "injuries_total") as [col|] eqn:Ecol;
    [|discriminate].
  cbn [option_map series_take] in Eg. injection Eg as <-.
  rewrite take_map, to_numeric_Some in En. injection En as <-.
  destruct (assoc_imputed _ _ _ Hnd' Ecol) as (cells & m & Hc & Hm & ->).
  exists cells, m. rewrite <- Ei. repeat split; assumption.
Qed.

End Labels.

(** ** The target, and the dates *)

Section Target.

Context {L : Library}.

(** C3, as the code has it.  The target every model is fitted on is the
    column [pipeline-1__injuries_total] of the prepared frame at the rows of
    the training split: the [injuries_total] of the loaded frame with its
    gaps filled by the median, less the mean and divided by the standard
    deviation of the whole column. *)
Theorem labels_are_standardised_injuries (e : nat) (csv : DataFrame)
    (s : Session) (k : Kernel) :
  NoDup (map fst csv) -> run e csv = Some (s, k) ->
  exists cells m,
    getitem csv "injuries_total" = Some (Float64 cells) /\
    np.median (dropna cells) = Some m /\
    standardised m cells
    = map (fun x => (x - np.mean (fillna m cells))
                    / StandardScaler.scale (fillna m cells))
          (fillna m cells) /\
    accidentsTrain_labels s
    = take (train_indices (n_rows (accidentsData_prepared s)))
        (standardised m cells) /\
    map fit_labels (filter is_fit (calls k))
    = [Some (accidentsTrain_labels s); Some (accidentsTrain_labels s);
       Some (accidentsTrain_labels s)].
Proof.
  intros Hnd H.
  destruct (labels_inv e csv s k Hnd H) as (cells & m & Hc & Hm & Hl).
  exists cells, m. repeat split; try assumption.
  destruct (run_inv e csv s k H) as (f0 & X0 & f1 & X1 & R).
  unfold ran in R. cbn zeta in R.
  destruct R as (_ & _ & _ & _ & _ & _ & _ & _ & _ & _ & _ & _ & _ & _ & _ & _
                 & _ & _ & _ & _ & _ & Hcalls & _).
  rewrite Hcalls. reflexivity.
Qed.

Lemma dropna_nonempty {A : Type} (l : list (option A)) (x : A) :
  In (Some x) l -> dropna l <> [].
Proof.
  intros Hin E.
  assert (Hx : In x (dropna l)).
  { unfold dropna. apply in_flat_map. exists (Some x).
    split; [exact Hin | left; reflexivity]. }
  rewrite E in Hx. contradiction.
Qed.

Lemma In_imputed_label {A : Type} (statistic : list A -> option A)
    (X : list (Column (option A))) (name : string) :
  In name (map fst (flat_map (impute_column statistic) X)) ->
  exists x m, In (name, x) X /\ statistic (dropna x) = Some m.
Proof.
  intros H. apply in_map_iff in H. destruct H as ([k y] & <- & H).
  apply in_flat_map in H. destruct H as ([k0 x] & Hin & H).
  unfold impute_column in H. cbn [fst snd] in H.
  destruct (statistic (dropna x)) as [m|] eqn:E; [|contradiction].
  destruct H as [[= <- <-] | []]. exists x, m. auto.
Qed.

Lemma dropna_all_missing {A : Type} (l : list (option A)) :
  (forall x, ~ In (Some x) l) -> dropna l = [].
Proof.
  intros H. destruct (dropna l) as [|x r] eqn:E; [reflexivity|].
  exfalso. apply (H x), In_dropna. rewrite E. left. reflexivity.
Qed.

(** C10, as the code has it.  A [crash_date] that does not parse is no
    error: it becomes NaT, and cell 3 goes through when the columns it
    drops are there and the dates that do parse do not mix UTC offsets.
    The year, month and day of the week of that row are NaN.  When the
    frame goes through [preprocessing], the imputer of the numeric pipeline
    puts the median of each of the three columns in their place if some
    date of the column parsed; if none did, the three columns have no
    median and the imputer leaves them out. *)
Theorem unparsable_dates_coerced_then_imputed (csv : DataFrame)
    (cells : list (option string)) (i : nat) (v : string) :
  NoDup (map fst csv) ->
  getitem csv "crash_date" = Some (Object cells) ->
  forallb (has_column csv)
    ["injuries_fatal"; "injuries_incapacitating"; "injuries_non_incapacitating";
     "injuries_reported_not_evident"]%string = true ->
  ~ mixed_offsets cells ->
  nth_error cells i = Some (Some v) -> date_parser cells v = None ->
  exists dates df,
    to_datetime_coerce (Object cells) = Some (Datetime64 dates) /\
    nth_error dates i = Some None /\
    cell_3 csv = Some df /\
    Forall (fun c => getitem df (fst c) = Some (Float64 (dt_cells (snd c) dates)) /\
                     nth_error (dt_cells (snd c) dates) i = Some None)
           date_fields /\
    forall f, preprocessing.fit df = Some f ->
      exists f1 Xi,
        preprocessing.pipeline_1 f = Some f1 /\
        num_pipeline.imputed (num_pipeline.statistics_ f1)
          (preprocessing.select_number df) = Some Xi /\
        (forall w t, In (Some w) cells -> date_parser cells w = Some t ->
           Forall (fun c =>
                     exists m,
                       np.median (dropna (dt_cells (snd c) dates)) = Some m /\
                       In (fst c, fillna m (dt_cells (snd c) dates)) Xi /\
                       nth_error (fillna m (dt_cells (snd c) dates)) i = Some m)
                  date_fields) /\
        ((forall w, In (Some w) cells -> date_parser cells w = None) ->
           Forall (fun c => ~ In (fst c) (map fst Xi)) date_fields).
Proof.
  intros Hnd Hd Hcols Hmix Hi Hv.
  pose proof (to_datetime_coerce_object cells Hmix) as Hdates.
  set (dates := map (option_map fst) (parsed_dates cells)) in *.
  destruct (cell_3_total csv _ _ Hd Hdates Hcols) as [df Hdf].
  destruct (cell_3_inv csv df Hdf)
    as (c & dates' & Hc & Hdates' & Hy & Hm & Hdow & _ & Hnd').
  rewrite Hd in Hc. injection Hc as <-.
  rewrite Hdates in Hdates'. injection Hdates' as <-.
  specialize (Hnd' Hnd).
  assert (Di : nth_error dates i = Some None).
  { unfold dates, parsed_dates. rewrite !nth_error_map, Hi. cbn. rewrite Hv.
    reflexivity. }
  assert (Mi : forall field, nth_error (dt_cells field dates) i = Some None).
  { intros field. unfold dt_cells. rewrite nth_error_map, Di. reflexivity. }
  exists dates, df. split; [exact Hdates|]. split; [exact Di|].
  split; [exact Hdf|]. split.
  - unfold date_fields. repeat constructor; cbn [fst snd]; auto.
  - intros f Hf.
    destruct (preprocessing_fit_inv df f Hf) as (_ & _ & _ & E1 & _).
    assert (Hin : forall name field,
               getitem df name = Some (Float64 (dt_cells field dates)) ->
               In (name, dt_cells field dates) (preprocessing.select_number df)).
    { intros name field G. apply select_number_In, assoc_In. exact G. }
    unfold preprocessing.fit_block in E1.
    destruct (preprocessing.select_number df) as [|c0 X] eqn:EX.
    { destruct (Hin _ _ Hy). }
    destruct (num_pipeline.fit (c0 :: X)) as [f1|] eqn:Ef1; [|discriminate].
    injection E1 as E1.
    destruct (num_pipeline_fit_inv _ f1 Ef1) as (_ & Himp & _ & _).
    exists f1, (flat_map (impute_column np.median) (c0 :: X)).
    split; [symmetry; exact E1|]. split; [exact Himp|]. split.
    + intros w [t z] Hw Pw.
      assert (Dj : In (Some t) dates).
      { unfold dates. apply in_map_iff. exists (Some (t, z)).
        split; [reflexivity|]. apply In_parsed_dates. eauto. }
      assert (Mj : forall field, dropna (dt_cells field dates) <> []).
      { intros field. apply (dropna_nonempty _ (IZR (field t))).
        unfold dt_cells. apply in_map_iff. exists (Some t).
        split; [reflexivity | exact Dj]. }
      assert (Each : forall name field,
                 getitem df name = Some (Float64 (dt_cells field dates)) ->
                 exists m,
                   np.median (dropna (dt_cells field dates)) = Some m /\
                   In (name, fillna m (dt_cells field dates))
                      (flat_map (impute_column np.median) (c0 :: X)) /\
                   nth_error (fillna m (dt_cells field dates)) i = Some m).
      { intros name field G.
        destruct (median_some _ (Mj field)) as [m Em]. exists m.
        split; [exact Em|]. split.
        - apply (In_impute_column np.median (c0 :: X) (name, dt_cells field dates) m);
            [apply Hin, G | exact Em].
        - apply fillna_missing, Mi. }
      unfold date_fields. repeat constructor; cbn [fst snd]; apply Each; assumption.
    + intros Hnone.
      assert (Dn : forall field, dropna (dt_cells field dates) = []).
      { intros field. apply dropna_all_missing. intros x Hx.
        unfold dt_cells in Hx. apply in_map_iff in Hx.
        destruct Hx as ([t|] & Ht & Hin'); [|discriminate].
        unfold dates in Hin'. apply in_map_iff in Hin'.
        destruct Hin' as ([[t' z]|] & Ht' & Hp); [|discriminate].
        apply In_parsed_dates in Hp. destruct Hp as (w & Hw & Pw).
        rewrite (Hnone w Hw) in Pw. discriminate. }
      assert (Each : forall name field,
                 getitem df name = Some (Float64 (dt_cells field dates)) ->
                 ~ In name (map fst (flat_map (impute_column np.median) (c0 :: X)))).
      { intros name field G Hname.
        apply In_imputed_label in Hname. destruct Hname as (x & m & Hx & Em).
        rewrite <- EX in Hx. apply select_number_In in Hx.
        apply (In_assoc _ _ _ Hnd') in Hx. unfold getitem in G.
        rewrite G in Hx. injection Hx as <-. rewrite Dn in Em. discriminate. }
      unfold date_fields. repeat constructor; cbn [fst snd]; eapply Each; eassumption.
Qed.

End Target.

(** ** Errors of constant predictions *)

Lemma combine_map_const {A : Type} (f : R * R -> R) (c : R) (y : list R) (l : list A) :
  length l = length y ->
  map f (combine y (map (fun _ => c) l)) = map (fun x => f (x, c)) y.
Proof.
  revert l. induction y as [|x y IH]; intros [|a l] H; try discriminate;
    cbn [map combine]; [reflexivity|].
  f_equal. apply IH. injection H as H. exact H.
Qed.

Lemma rmse_constant {A : Type} (y : list R) (c r : R) (l : list A) :
  length l = length y ->
  root_mean_squared_error y (map (fun _ => c) l) = Some r ->
  y <> [] /\ r = sqrt (np.mean (map (fun x => (x - c) * (x - c)) y)).
Proof.
  intros Hl. unfold root_mean_squared_error.
  destruct (_ && _) eqn:C; [|discriminate]. intros [= <-].
  apply andb_true_iff in C. destruct C as [_ C]. split.
  - intros ->. discriminate.
  - rewrite (combine_map_const _ c y l Hl). reflexivity.
Qed.

Lemma sum_sq_shift (m d : R) (y : list R) :
  np.sum (map (fun x => (x - (m + d)) * (x - (m + d))) y)
  = np.sum (map (fun x => (x - m) * (x - m)) y)
    - 2 * d * (np.sum y - INR (length y) * m) + INR (length y) * (d * d).
Proof.
  induction y as [|x y IH].
  - simpl. ring.
  - cbn [map np.sum fold_right length].
    fold (np.sum (map (fun x => (x - (m + d)) * (x - (m + d))) y)).
    fold (np.sum (map (fun x => (x - m) * (x - m)) y)). fold (np.sum y).
    rewrite IH, S_INR. ring.
Qed.

(** The mean squared error of predicting the mean plus [d] everywhere. *)
Lemma mean_sq_shift (d : R) (y : list R) :
  y <> [] ->
  np.mean (map (fun x => (x - (np.mean y + d)) * (x - (np.mean y + d))) y)
  = np.var y + d * d.
Proof.
  intros Hy. pose proof (INR_length_pos y Hy) as Hn.
  assert (Hc : np.sum y - INR (length y) * np.mean y = 0)
    by (unfold np.mean; field; lra).
  unfold np.var. set (m := np.mean y) in *.
  unfold np.mean. rewrite !length_map, sum_sq_shift, Hc.
  field. lra.
Qed.

Lemma combine_diagonal (y p : list R) :
  length y = length p ->
  (forall q, In q (combine y p) -> fst q - snd q = 0) -> p = y.
Proof.
  revert p. induction y as [|a y IH]; intros [|b p] Hl H; try discriminate;
    [reflexivity|].
  cbn [combine] in H. f_equal.
  - specialize (H (a, b) (or_introl eq_refl)). cbn in H. lra.
  - apply IH; [injection Hl as Hl; exact Hl|].
    intros q Hq. apply H. right. exact Hq.
Qed.

(** An error of 0 is that of the targets themselves. *)
Lemma rmse_pos (y p : list R) (r : R) :
  root_mean_squared_error y p = Some r -> p <> y -> 0 < r.
Proof.
  unfold root_mean_squared_error.
  destruct (_ && _) eqn:C; [|discriminate]. intros [= <-] Hp.
  apply andb_true_iff in C. destruct C as [Hl Hn].
  apply Nat.eqb_eq in Hl. apply negb_true_iff, Nat.eqb_neq in Hn.
  apply sqrt_lt_R0. unfold np.mean. rewrite length_map, length_combine, <- Hl.
  rewrite Nat.min_id.
  assert (Hy : y <> []) by (intros ->; apply Hn; reflexivity).
  pose proof (INR_length_pos y Hy) as Hpos.
  pose proof (sum_squares_nonneg (fun q : R * R => fst q - snd q) (combine y p)) as H0.
  apply Rmult_lt_0_compat; [|apply Rinv_0_lt_compat; exact Hpos].
  destruct H0 as [H0 | H0]; [exact H0|].
  exfalso. apply Hp. apply combine_diagonal; [exact Hl|].
  apply (sum_squares_zero (fun q : R * R => fst q - snd q)). symmetry. exact H0.
Qed.

Lemma rmse_self (y : list R) (r : R) :
  root_mean_squared_error y y = Some r -> r = 0.
Proof.
  unfold root_mean_squared_error.
  destruct (_ && _); [|discriminate]. intros [= <-].
  replace (map _ (combine y y)) with (map (fun _ : R * R => 0) (combine y y)).
  - unfold np.mean. rewrite map_const.
    replace (np.sum (repeat 0 _)) with 0.
    + unfold Rdiv. rewrite Rmult_0_l. apply sqrt_0.
    + induction (length (combine y y)) as [|n IH]; cbn; [reflexivity|].
      fold (np.sum (repeat 0 n)). rewrite <- IH. ring.
  - apply map_ext_in. intros [a b] Hin.
    assert (a = b); [|subst; cbn; ring].
    clear - Hin. induction y as [|x y IH]; cbn in Hin; [contradiction|].
    destruct Hin as [[= <- <-] | Hin]; [reflexivity | apply IH, Hin].
Qed.

(** With any library, a tree that reproduces the training targets, as a
    fully grown tree does on rows that differ, has the error 0; a forest
    that does not reproduce them has a greater one, and is the one saved. *)
Lemma forest_saved_though_tree_fits_exactly {L : Library} (e : nat)
    (csv : DataFrame) (s : Session) (k : Kernel) :
  run e csv = Some (s, k) ->
  (forall f1 X1,
     preprocessing.fit (accidentsTrain s) = Some f1 ->
     preprocessing.transform f1 (accidentsTrain s) = Some X1 ->
     forall m, model_ (tree_reg s) = Some m ->
       map (predict_sample m) (rows (n_rows (accidentsTrain s)) X1)
       = accidentsTrain_labels s) ->
  predictions_rf s <> accidentsTrain_labels s ->
  tree_rmse s = 0 /\ 0 < rmse_rf s /\
  map (fun f => regressor (pickled_pipeline (snd f))) (files k)
  = [RandomForestRegressor (Some 42%Z)].
Proof.
  intros H Htree Hforest.
  destruct (run_inv e csv s k H) as (f0 & X0 & f1 & X1 & Rn).
  unfold ran in Rn. cbn zeta in Rn.
  destruct Rn as (_ & _ & _ & _ & _ & _ & _ & _ & _ & Hf1 & Ht1 & _ & _ & _ & Etree
                 & Ht & _ & _ & Hf & _ & Hr & _ & Hfiles).
  rewrite (Htree f1 X1 Hf1 Ht1 _ (f_equal model_ Etree)) in Ht.
  split; [exact (rmse_self _ _ Ht)|].
  split; [exact (rmse_pos _ _ _ Hr Hforest)|].
  rewrite Hfiles, Hf. reflexivity.
Qed.

(** ** A run on thirteen accidents *)

Section OnThirteenAccidents.

Existing Instance stub.off_by_one.

Lemma stub_run : exists s k, @run stub.off_by_one 0 stub.accidents = Some (s, k).
Proof.
  destruct (@run stub.off_by_one 0 stub.accidents) as [[s k]|] eqn:E; [eauto|].
  exfalso.
  assert (H : match @run stub.off_by_one 0 stub.accidents with
              | Some _ => true
              | None => false
              end = true) by reflexivity.
  rewrite E in H. discriminate.
Qed.

Lemma length_rows (n : nat) (X : list (Column R)) : length (rows n X) = n.
Proof. unfold rows. rewrite length_map, length_seq. reflexivity. Qed.

(** C1 fails as stated.  On the thirteen accidents, with a forest that is
    off by one, the file holds the forest although the tree has the lower
    error. *)
Lemma dumped_pipeline_not_of_lowest_rmse :
  exists s k,
    @run stub.off_by_one 0 stub.accidents = Some (s, k) /\
    map (fun f => (fst f, regressor (pickled_pipeline (snd f)))) (files k)
    = [(model_file, RandomForestRegressor (Some 42%Z))] /\
    tree_rmse s < rmse_rf s.
Proof.
  destruct stub_run as (s & k & E). exists s, k. split; [exact E|].
  destruct (run_inv 0 stub.accidents s k E) as (f0 & X0 & f1 & X1 & Rn).
  unfold ran in Rn. cbn zeta in Rn.
  destruct Rn as (_ & _ & _ & _ & _ & _ & _ & _ & _ & _ & _ & Hlen & _ & _ & _ & Ht
                 & Hten & _ & Hf & Hp & Hr & _ & Hfiles).
  split; [rewrite Hfiles, Hf; reflexivity|].
  rewrite Hp in Hr. cbn [predict_sample stub.off_by_one stub.library] in Ht, Hr.
  cbn [DecisionTreeRegressor_fit RandomForestRegressor_fit stub.off_by_one stub.library] in Ht, Hr.
  set (y := accidentsTrain_labels s) in *.
  assert (Hl : length (rows (n_rows (accidentsTrain s)) X1) = length y)
    by (rewrite length_rows; symmetry; exact Hlen).
  apply (rmse_constant y _ _ _ Hl) in Ht. destruct Ht as [Hy ->].
  apply (rmse_constant y _ _ _ Hl) in Hr. destruct Hr as [_ ->].
  rewrite (mean_sq_shift 0 y Hy), (mean_sq_shift 1 y Hy).
  pose proof (var_nonneg y). apply sqrt_lt_1; lra.
Qed.

(** C2 fails as stated.  On the thirteen accidents no cross-validated score
    is computed for the linear regression, nor for the random forest. *)
Lemma no_cross_validation_of_linear_regression_or_forest :
  exists s k,
    @run stub.off_by_one 0 stub.accidents = Some (s, k) /\
    forall est, In est [LinearRegression; RandomForestRegressor (Some 42%Z)] ->
      ~ exists X y cv, In (call_cross_val_score est X y cv) (calls k).
Proof.
  destruct stub_run as (s & k & E). exists s, k. split; [exact E|].
  destruct (run_inv 0 stub.accidents s k E) as (f0 & X0 & f1 & X1 & Rn).
  unfold ran in Rn. cbn zeta in Rn.
  destruct Rn as (_ & _ & _ & _ & _ & _ & _ & _ & _ & _ & _ & _ & _ & _ & _ & _
                 & _ & _ & _ & _ & _ & Hcalls & _).
  intros est Hest (X & y & cv & Hin).
  assert (F : In (call_cross_val_score est X y cv)
                 (filter is_cross_val_score (calls k)))
    by (apply filter_In; split; [exact Hin | reflexivity]).
  rewrite Hcalls in F. cbn [filter is_cross_val_score] in F.
  destruct F as [F | []]. injection F as <- _ _ _.
  destruct Hest as [Hest | [Hest | []]]; discriminate.
Qed.

Lemma stub_columns_distinct : NoDup (map fst stub.accidents).
Proof.
  change (NoDup (nodup string_dec (map fst stub.accidents))).
  apply NoDup_nodup.
Qed.

Lemma stub_prepared_rows (s : Session) (k : Kernel) :
  @run stub.off_by_one 0 stub.accidents = Some (s, k) ->
  n_rows (accidentsData_prepared s) = 13%nat.
Proof.
  intros E.
  assert (N : option_map (fun r => n_rows (accidentsData_prepared (fst r)))
                (@run stub.off_by_one 0 stub.accidents) = Some 13%nat) by reflexivity.
  rewrite E in N. injection N as N. exact N.
Qed.

(** C3 on the thirteen accidents.  The accident in row 4 has no injured; it
    is the second of the training split, and the target the models are
    fitted on is negative there, not 0. *)
Lemma label_differs_from_injuries_total :
  exists s k cells label,
    @run stub.off_by_one 0 stub.accidents = Some (s, k) /\
    getitem stub.accidents "injuries_total" = Some (Float64 cells) /\
    nth_error cells 4 = Some (Some 0) /\
    nth_error (@train_indices stub.off_by_one (n_rows (accidentsData_prepared s))) 1
    = Some 4%nat /\
    nth_error (accidentsTrain_labels s) 1 = Some label /\
    label < 0.
Proof.
  destruct stub_run as (s & k & E).
  destruct (labels_inv 0 stub.accidents s k stub_columns_distinct E)
    as (cells & m & Hc & Hm & Hl).
  rewrite (stub_prepared_rows s k E) in Hl.
  unfold getitem, stub.accidents in Hc.
  cbn [assoc String.eqb Ascii.eqb Bool.eqb stub.floats map] in Hc.
  injection Hc as <-.
  unfold standardised, scale_column in Hl. cbn [fst snd fillna map] in Hl.
  set (imp := [IZR 0; IZR 0; IZR 0; IZR 5; IZR 0; IZR 2; IZR 0; IZR 0; IZR 3;
               IZR 0; IZR 1; IZR 0; IZR 2]) in Hl.
  set (mu := np.mean imp) in Hl. set (sd := StandardScaler.scale imp) in Hl.
  unfold StandardScaler.transform_column, imp in Hl. cbn [fst snd map] in Hl.
  change (@train_indices stub.off_by_one 13) with [3; 4; 5; 6; 7; 8; 9; 10; 11; 12]%nat in Hl.
  cbn [take flat_map nth_error app] in Hl.
  exists s, k, (map (fun x => Some (IZR x)) [0; 0; 0; 5; 0; 2; 0; 0; 3; 0; 1; 0; 2]%Z),
    ((0 - mu) / sd).
  split; [exact E|]. split; [reflexivity|]. split; [reflexivity|].
  split; [rewrite (stub_prepared_rows s k E); reflexivity|].
  split; [rewrite Hl; reflexivity|].
  assert (Hmu : mu = 1).
  { unfold mu, imp, np.mean, np.sum. cbn [fold_right length].
    rewrite INR_IZR_INZ. cbn [Z.of_nat Pos.of_succ_nat Pos.succ]. lra. }
  pose proof (scale_pos imp) as Hsd. fold sd in Hsd.
  rewrite Hmu. unfold Rdiv.
  pose proof (Rinv_0_lt_compat sd Hsd). nra.
Qed.

(** The hypotheses of C1's theorem hold of the run on the thirteen
    accidents. *)
Lemma dumped_pipeline_is_random_forest_witness :
  exists s k,
    @run stub.off_by_one 0 stub.accidents = Some (s, k) /\
    exists f1 X1,
      preprocessing.fit (accidentsTrain s) = Some f1 /\
      preprocessing.transform f1 (accidentsTrain s) = Some X1 /\
      files k = [(model_file, {| pickled_preprocessing := Some f1;
                                 pickled_pipeline := full_pipeline s |})] /\
      full_pipeline s
      = {| regressor := RandomForestRegressor (Some 42%Z);
           model_ := Some (RandomForestRegressor_fit (seeded 42)
                             (rows (n_rows (accidentsTrain s)) X1)
                             (accidentsTrain_labels s)) |}.
Proof.
  destruct stub_run as (s & k & E). exists s, k. split; [exact E|].
  exact (dumped_pipeline_is_random_forest 0 stub.accidents s k E).
Defined.

Lemma cross_validation_of_decision_tree_only_witness :
  exists s k,
    @run stub.off_by_one 0 stub.accidents = Some (s, k) /\
    filter is_cross_val_score (calls k)
    = [call_cross_val_score (DecisionTreeRegressor (Some 42%Z))
         (accidentsTrain s) (accidentsTrain_labels s) 10] /\
    length (tree_rmses s) = 10%nat.
Proof.
  destruct stub_run as (s & k & E). exists s, k. split; [exact E|].
  destruct (cross_validation_of_decision_tree_only 0 stub.accidents s k E)
    as (H1 & H2 & _).
  split; [exact H1 | exact H2].
Defined.

Lemma labels_are_standardised_injuries_witness :
  NoDup (map fst stub.accidents) /\
  exists s k,
    @run stub.off_by_one 0 stub.accidents = Some (s, k) /\
    exists cells m,
      getitem stub.accidents "injuries_total" = Some (Float64 cells) /\
      np.median (dropna cells) = Some m /\
      accidentsTrain_labels s
      = take (train_indices (n_rows (accidentsData_prepared s)))
          (standardised m cells).
Proof.
  split; [exact stub_columns_distinct|].
  destruct stub_run as (s & k & E). exists s, k. split; [exact E|].
  destruct (labels_are_standardised_injuries 0 stub.accidents s k
              stub_columns_distinct E) as (cells & m & H1 & H2 & _ & H3 & _).
  exists cells, m. split; [exact H1|]. split; [exact H2 | exact H3].
Defined.

Lemma three_regressors_fitted_witness :
  exists s k f1 X1,
    @run stub.off_by_one 0 stub.accidents = Some (s, k) /\
    preprocessing.fit (accidentsTrain s) = Some f1 /\
    preprocessing.transform f1 (accidentsTrain s) = Some X1 /\
    model_ (full_pipeline s)
    = Some (@RandomForestRegressor_fit stub.off_by_one (seeded 42)
              (rows (n_rows (accidentsTrain s)) X1) (accidentsTrain_labels s)) /\
    length (tree_rmses s) = 10%nat.
Proof.
  destruct stub_run as (s & k & E).
  destruct (three_regressors_fitted 0 stub.accidents s k E)
    as (_ & _ & (f1 & X1 & H1 & H2 & H3) & _ & _ & H4 & _).
  exists s, k, f1, X1. split; [exact E|]. split; [exact H1|]. split; [exact H2|].
  split; [|exact H4].
  cbn [map] in H3. injection H3 as _ _ H3. exact H3.
Defined.

Lemma test_set_never_used_witness :
  exists s k,
    @run stub.off_by_one 0 stub.accidents = Some (s, k) /\
    drop (train_set s) [label_column] = Some (accidentsTrain s) /\
    Forall (on_training_split s) (calls k).
Proof.
  destruct stub_run as (s & k & E). exists s, k. split; [exact E|].
  destruct (test_set_never_used 0 stub.accidents s k E) as (_ & H1 & _ & H2 & _).
  split; [exact H1 | exact H2].
Defined.

(** The sixth of the thirteen dates does not parse, the first does: the
    year of the sixth accident is filled with the median of the years. *)
Lemma unparsable_dates_coerced_then_imputed_witness :
  getitem stub.accidents "crash_date" = Some (Object (map Some stub.crash_dates)) /\
  nth_error (map Some stub.crash_dates) 5 = Some (Some "unknown"%string) /\
  @date_parser stub.off_by_one (map Some stub.crash_dates) "unknown" = None /\
  exists dates df f f1 Xi m,
    @to_datetime_coerce stub.off_by_one (Object (map Some stub.crash_dates))
    = Some (Datetime64 dates) /\
    nth_error dates 5 = Some None /\
    @cell_3 stub.off_by_one stub.accidents = Some df /\
    getitem df "crash_year" = Some (Float64 (dt_cells year dates)) /\
    nth_error (dt_cells year dates) 5 = Some None /\
    preprocessing.fit df = Some f /\
    preprocessing.pipeline_1 f = Some f1 /\
    num_pipeline.imputed (num_pipeline.statistics_ f1)
      (preprocessing.select_number df) = Some Xi /\
    np.median (dropna (dt_cells year dates)) = Some m /\
    In ("crash_year"%string, fillna m (dt_cells year dates)) Xi /\
    nth_error (fillna m (dt_cells year dates)) 5 = Some m.
Proof.
  split; [reflexivity|]. split; [reflexivity|]. split; [reflexivity|].
  assert (Hmix : ~ @mixed_offsets stub.off_by_one (map Some stub.crash_dates)).
  { intros H. apply offsets_mixed in H. vm_compute in H. lia. }
  destruct (@unparsable_dates_coerced_then_imputed stub.off_by_one
              stub.accidents (map Some stub.crash_dates) 5 "unknown"
              stub_columns_distinct eq_refl eq_refl Hmix eq_refl eq_refl)
    as (dates & df & H1 & H2 & H3 & H4 & H5).
  destruct stub_run as (s & k & E).
  destruct (run_inv 0 stub.accidents s k E) as (f0 & X0 & f1' & X1 & R).
  destruct R as (E3 & Ef0 & _).
  rewrite H3 in E3. injection E3 as E3. rewrite <- E3 in Ef0.
  destruct (H5 f0 Ef0) as (f1 & Xi & Hp & Himp & Hsome & _).
  pose proof (Hsome "07/29/2023 01:00:00 PM"%string
                ({| year := 2023; month := 7; dayofweek := 5 |}, None)
                (or_introl eq_refl) eq_refl) as Hy.
  apply Forall_inv in Hy. destruct Hy as (m & Hm & Hin & Hfill).
  apply Forall_inv in H4. destruct H4 as [Hg Hnan].
  exists dates, df, f0, f1, Xi, m. repeat split; assumption.
Defined.

(** C10 fails as stated.  Dates in two time zones stop cell 3, though each
    of them parses; and where no date parses, the years are not filled:
    the prepared data have no column of them. *)
Lemma dates_raise_or_stay_unfilled :
  (exists t t',
      @date_parser stub.off_by_one (map Some stub.zoned_dates)
        "2023-07-29T13:00:00+01:00" = Some (t, Some 3600%Z) /\
      @date_parser stub.off_by_one (map Some stub.zoned_dates)
        "2023-08-13T00:11:00+02:00" = Some (t', Some 7200%Z)) /\
  @cell_3 stub.off_by_one stub.zoned = None /\
  exists df f Xt,
    @cell_3 stub.off_by_one stub.undated = Some df /\
    getitem df "crash_year" = Some (Float64 (repeat None 13)) /\
    preprocessing.fit df = Some f /\
    preprocessing.transform f df = Some Xt /\
    assoc Xt "pipeline-1__crash_year" = None /\
    assoc Xt "pipeline-1__injuries_total" <> None.
Proof.
  split; [eexists; eexists; split; reflexivity|].
  split; [reflexivity|].
  destruct (@cell_3 stub.off_by_one stub.undated) as [df|] eqn:E3.
  2:{ exfalso.
      assert (H : match @cell_3 stub.off_by_one stub.undated with
                  | Some _ => true
                  | None => false
                  end = true) by reflexivity.
      rewrite E3 in H. discriminate. }
  assert (Hy : option_map (fun df => getitem df "crash_year")
                 (@cell_3 stub.off_by_one stub.undated)
               = Some (Some (Float64 (repeat None 13)))) by reflexivity.
  assert (Hrun : match @cell_3 stub.off_by_one stub.undated with
                 | Some df =>
                     match preprocessing.fit df with
                     | Some f =>
                         match preprocessing.transform f df with
                         | Some Xt =>
                             match assoc Xt "pipeline-1__crash_year",
                                   assoc Xt "pipeline-1__injuries_total" with
                             | None, Some _ => true
                             | _, _ => false
                             end
                         | None => false
                         end
                     | None => false
                     end
                 | None => false
                 end = true) by reflexivity.
  rewrite E3 in Hy, Hrun. cbn [option_map] in Hy. injection Hy as Hy.
  destruct (preprocessing.fit df) as [f|] eqn:Ef; [|discriminate].
  destruct (preprocessing.transform f df) as [Xt|] eqn:Et; [|discriminate].
  exists df, f, Xt. split; [reflexivity|]. split; [exact Hy|].
  split; [exact Ef|]. split; [exact Et|].
  destruct (assoc Xt "pipeline-1__crash_year"); [discriminate|].
  destruct (assoc Xt "pipeline-1__injuries_total"); [|discriminate].
  split; [reflexivity | discriminate].
Qed.

(** Without a seed the split follows the global generator. *)
Lemma unseeded_split_follows_generator :
  option_map fst (@train_test_split stub.off_by_one stub.five (1, 5)%nat None (fresh 0))
  <> option_map fst (@train_test_split stub.off_by_one stub.five (1, 5)%nat None (fresh 1)).
Proof.
  cbv [train_test_split stub.five n_rows series_length stub.floats map length
       fst snd fresh get_np_random bind ret np_random option_map].
  cbn [Nat.add Nat.mul Nat.sub Nat.div Nat.divmod Nat.eqb fst].
  cbv [check_random_state permutation stub.off_by_one stub.library stub.shuffled].
  cbn [seq rev app skipn firstn iloc map fst snd series_take take flat_map nth_error].
  intros H. injection H as H. lra.
Qed.

End OnThirteenAccidents.

(** ** The column pipelines on a column with a gap *)

Lemma missing_values_imputed_witness :
  (num_pipeline.fit stub.years = Some stub.years_fitted /\
   exists Xi m,
     num_pipeline.imputed (num_pipeline.statistics_ stub.years_fitted) stub.years
     = Some Xi /\
     np.median [2023; 2021; 2023] = Some m /\
     is_median m [2023; 2021; 2023] /\
     In ("crash_year"%string, [2023; m; 2021; 2023]) Xi) /\
  (cat_pipeline.fit stub.weather = Some stub.weather_fitted /\
   exists Xi v,
     cat_pipeline.imputed (cat_pipeline.statistics_ stub.weather_fitted) stub.weather
     = Some Xi /\
     SimpleImputer.most_frequent ["RAIN"; "CLEAR"; "RAIN"]%string = Some v /\
     is_mode v ["RAIN"; "CLEAR"; "RAIN"]%string /\
     In ("weather_condition"%string, ["RAIN"%string; v; "CLEAR"%string; "RAIN"%string]) Xi).
Proof.
  split.
  - split; [reflexivity|].
    destruct (proj1 missing_values_imputed stub.years stub.years_fitted
                "crash_year"%string [Some 2023; None; Some 2021; Some 2023]
                eq_refl (or_introl eq_refl))
      as (Xi & m & H1 & _ & H2 & H3 & H4 & _).
    + discriminate.
    + exists Xi, m.
      split; [exact H1 | split; [exact H2 | split; [exact H3 | exact H4]]].
  - split; [reflexivity|].
    destruct (proj2 missing_values_imputed stub.weather stub.weather_fitted
                "weather_condition"%string
                [Some "RAIN"; None; Some "CLEAR"; Some "RAIN"]%string
                eq_refl (or_introl eq_refl))
      as (Xi & v & H1 & _ & H2 & H3 & H4 & _).
    + discriminate.
    + exists Xi, v.
      split; [exact H1 | split; [exact H2 | split; [exact H3 | exact H4]]].
Defined.

(** RAIN, a gap filled with RAIN, CLEAR and RAIN, over the categories
    CLEAR and RAIN; SNOW comes later and is neither. *)
Lemma categorical_columns_one_hot_witness :
  cat_pipeline.fit stub.weather = Some stub.weather_fitted /\
  cat_pipeline.categories_ stub.weather_fitted = [["CLEAR"; "RAIN"]%string] /\
  (exists out,
      cat_pipeline.transform stub.weather_fitted stub.weather = Some out /\
      map fst out = ["weather_condition_CLEAR"; "weather_condition_RAIN"]%string /\
      map (fun col => nth 1 (snd col) 0) out = one_at 1 2 /\
      map (fun col => nth 2 (snd col) 0) out = one_at 0 2) /\
  exists out,
    OneHotEncoder.transform OneHotEncoder.ignore
      (cat_pipeline.categories_ stub.weather_fitted)
      [("weather_condition"%string, ["SNOW"%string])] = Some out /\
    map (fun col => nth 0 (snd col) 0) out = repeat 0 2.
Proof.
  split; [reflexivity|]. split; [reflexivity|].
  destruct (categorical_columns_one_hot stub.weather stub.weather_fitted eq_refl)
    as (Xi & Himp & _ & (blocks & Ht & Hb) & Hnew).
  assert (EXi : Some Xi
                = Some [("weather_condition"%string,
                         ["RAIN"; "RAIN"; "CLEAR"; "RAIN"]%string)])
    by (rewrite <- Himp; reflexivity).
  injection EXi as ->.
  split.
  - change (cat_pipeline.categories_ stub.weather_fitted)
      with [["CLEAR"; "RAIN"]%string] in Hb.
    cbn [combine] in Hb.
    inversion Hb as [|cc block l1 l2 He Hb' E1 E2]; subst.
    inversion Hb'; subst. cbn [concat] in Ht. rewrite app_nil_r in Ht.
    exists block. split; [exact Ht|].
    destruct He as (Hlab & _ & Hrow). cbn [fst snd] in Hlab, Hrow.
    split; [exact Hlab|]. split.
    + exact (proj1 (Hrow 1%nat "RAIN"%string eq_refl) 1%nat eq_refl).
    + exact (proj1 (Hrow 2%nat "CLEAR"%string eq_refl) 0%nat eq_refl).
  - destruct (Hnew [("weather_condition"%string, ["SNOW"%string])] eq_refl)
      as (blocks' & Ht' & Hb').
    change (cat_pipeline.categories_ stub.weather_fitted)
      with [["CLEAR"; "RAIN"]%string] in Hb'.
    cbn [combine] in Hb'.
    inversion Hb' as [|cc block l1 l2 He Hb'' E1 E2]; subst.
    inversion Hb''; subst. cbn [concat] in Ht'. rewrite app_nil_r in Ht'.
    exists block. split; [exact Ht'|].
    destruct He as (_ & _ & Hrow). cbn [fst snd] in Hrow.
    apply (proj2 (Hrow 0%nat "SNOW"%string eq_refl)).
    intros [H | [H | []]]; discriminate.
Defined.

Lemma median_of_hours : np.median [1; 3; 8] = Some 3.
Proof.
  unfold np.median, np.sort. cbn [fold_right np.insert length Nat.even].
  repeat (destruct (Rle_dec _ _); try lra; cbn [np.insert]).
  reflexivity.
Qed.

Lemma numeric_columns_standard_scaled_witness :
  NoDup (map fst stub.hours) /\
  preprocessing.fit stub.hours = Some stub.hours_fitted /\
  preprocessing.transform stub.hours_fitted stub.hours = Some stub.hours_prepared /\
  exists col,
    assoc stub.hours_prepared "pipeline-1__crash_hour" = Some col /\
    np.mean col = 0 /\ np.std col = 1.
Proof.
  assert (Hnd : NoDup (map fst stub.hours))
    by (repeat constructor; intros []).
  split; [exact Hnd|]. split; [reflexivity|]. split; [reflexivity|].
  destruct (numeric_columns_standard_scaled stub.hours stub.hours_fitted
              stub.hours_prepared "crash_hour" [Some 1; None; Some 3; Some 8] 3
              Hnd eq_refl eq_refl (or_introl eq_refl) median_of_hours)
    as (col & H1 & _ & _ & H2 & H3).
  exists col. split; [exact H1|]. split; [exact H2|].
  apply H3. exists 1, 3. cbn [fillna map In]. repeat split; try tauto. lra.
Defined.

(** * Further properties of the code *)

(** ** The error metric *)

Lemma combine_swap_sq (y p : list R) :
  map (fun q : R * R => (fst q - snd q) * (fst q - snd q)) (combine y p)
  = map (fun q : R * R => (fst q - snd q) * (fst q - snd q)) (combine p y).
Proof.
  revert p. induction y as [|a y IH]; intros [|b p]; cbn [combine map];
    try reflexivity.
  rewrite IH. f_equal. cbn [fst snd]. ring.
Qed.

(** X1.  [root_mean_squared_error] raises exactly when the two arrays differ
    in length or are empty.  Otherwise the error is not negative, it is 0
    exactly when the predictions are the targets, and it is the same with
    the two arrays exchanged. *)
Theorem root_mean_squared_error_metric (y p : list R) :
  (root_mean_squared_error y p = None <-> length y <> length p \/ y = []) /\
  forall r, root_mean_squared_error y p = Some r ->
    0 <= r /\ (r = 0 <-> p = y) /\ root_mean_squared_error p y = Some r.
Proof.
  split.
  - unfold root_mean_squared_error.
    destruct (Nat.eqb_spec (length y) (length p)) as [E | E]; cbn [andb].
    + destruct y as [|a y]; cbn [length Nat.eqb negb].
      * split; [intros _; right; reflexivity | reflexivity].
      * split; [discriminate | intros [H | H]; [contradiction | discriminate]].
    + split; [intros _; left; exact E | reflexivity].
  - intros r Hr. split; [|split].
    + unfold root_mean_squared_error in Hr.
      destruct (_ && _); [|discriminate]. injection Hr as <-. apply sqrt_pos.
    + split.
      * intros ->.
        destruct (list_eq_dec Req_dec_T p y) as [E | E]; [exact E|].
        pose proof (rmse_pos y p 0 Hr E). lra.
      * intros ->. exact (rmse_self y r Hr).
    + unfold root_mean_squared_error in *.
      destruct (Nat.eqb_spec (length y) (length p)) as [E | E]; [|discriminate].
      rewrite <- E, Nat.eqb_refl. cbn [andb] in *.
      destruct (negb (length y =? 0)%nat); [|discriminate].
      injection Hr as <-. rewrite (combine_swap_sq p y). reflexivity.
Qed.

Lemma root_mean_squared_error_metric_witness :
  exists r,
    root_mean_squared_error [1; 2] [1; 4] = Some r /\
    0 <= r /\ root_mean_squared_error [1; 4] [1; 2] = Some r.
Proof.
  eexists. split; [reflexivity|].
  destruct (proj2 (root_mean_squared_error_metric [1; 2] [1; 4]) _ eq_refl)
    as (H1 & _ & H2).
  split; [exact H1 | exact H2].
Defined.

(** ** The folds of the cross-validation *)

Lemma KFold_folds (k n : nat) :
  KFold k n
  = map (fun i =>
           (seq 0 (fold_start k n i)
              ++ seq (fold_start k n i + fold_size k n i)
                   (n - (fold_start k n i + fold_size k n i)),
            seq (fold_start k n i) (fold_size k n i)))
        (seq 0 k).
Proof. reflexivity. Qed.

Lemma fold_start_S (k n i : nat) :
  fold_start k n (S i) = (fold_start k n i + fold_size k n i)%nat.
Proof.
  unfold fold_start, fold_size. rewrite Nat.mul_succ_l.
  destruct (Nat.ltb_spec i (n mod k)); lia.
Qed.

Lemma fold_start_mono (k n i j : nat) :
  (i <= j)%nat -> (fold_start k n i <= fold_start k n j)%nat.
Proof.
  intros H. unfold fold_start.
  pose proof (Nat.mul_le_mono_r i j (n / k) H). lia.
Qed.

Lemma fold_start_last (k n : nat) : (0 < k)%nat -> fold_start k n k = n.
Proof.
  intros Hk. unfold fold_start.
  pose proof (Nat.mod_upper_bound n k). pose proof (Nat.div_mod_eq n k). lia.
Qed.

Lemma concat_test_folds (k n j : nat) :
  concat (map (fun i => seq (fold_start k n i) (fold_size k n i)) (seq 0 j))
  = seq 0 (fold_start k n j).
Proof.
  induction j as [|j IH]; [reflexivity|].
  rewrite seq_S, map_app, concat_app, IH. cbn [map concat Nat.add].
  rewrite app_nil_r, fold_start_S, seq_app. reflexivity.
Qed.

(** X2.  [KFold] with [k] folds, [k] positive, cuts the rows [0 .. n-1] into
    [k] consecutive test folds: in order they make up all the rows, each row
    once; the training rows of a fold are the rows outside its test fold;
    the folds differ in size by one at most, and none is empty when there
    are [k] rows or more. *)
Theorem KFold_partition (k n : nat) :
  (0 < k)%nat ->
  length (KFold k n) = k /\
  concat (map snd (KFold k n)) = seq 0 n /\
  Forall (fun fold =>
            Permutation (fst fold ++ snd fold) (seq 0 n) /\
            (n / k <= length (snd fold) <= n / k + 1)%nat /\
            ((k <= n)%nat -> snd fold <> []))
         (KFold k n).
Proof.
  intros Hk. rewrite KFold_folds. split; [|split].
  - rewrite length_map, length_seq. reflexivity.
  - rewrite map_map. cbn [snd].
    rewrite concat_test_folds, fold_start_last by exact Hk. reflexivity.
  - apply Forall_forall. intros fold Hin.
    apply in_map_iff in Hin. destruct Hin as (i & <- & Hi).
    apply in_seq in Hi. cbn [fst snd].
    set (s := fold_start k n i). set (z := fold_size k n i).
    assert (Hsz : (s + z <= n)%nat).
    { assert (H : (fold_start k n (S i) <= fold_start k n k)%nat)
        by (apply fold_start_mono; lia).
      rewrite fold_start_S, (fold_start_last k n Hk) in H. exact H. }
    split; [|split].
    + replace (seq 0 n) with (seq 0 s ++ seq s z ++ seq (s + z) (n - (s + z))).
      * rewrite <- app_assoc. apply Permutation_app_head, Permutation_app_comm.
      * rewrite <- !seq_app. f_equal. lia.
    + rewrite length_seq. unfold z, fold_size.
      destruct (i <? n mod k)%nat; lia.
    + intros Hkn E. apply (f_equal (@length nat)) in E.
      rewrite length_seq in E. cbn [length] in E.
      assert (n / k <> 0)%nat.
      { intros Hq. apply Nat.div_small_iff in Hq; lia. }
      unfold z, fold_size in E. lia.
Qed.

Lemma KFold_partition_witness :
  (0 < 10)%nat /\
  length (KFold 10 13) = 10%nat /\
  concat (map snd (KFold 10 13)) = seq 0 13.
Proof.
  split; [lia|].
  destruct (KFold_partition 10 13) as (H1 & H2 & _); [lia|].
  split; [exact H1 | exact H2].
Defined.

(** ** The statistics of the imputers *)

Lemma compare_trans_le (s1 s2 s3 : string) :
  String.compare s1 s2 <> Gt -> String.compare s2 s3 <> Gt ->
  String.compare s1 s3 <> Gt.
Proof.
  revert s2 s3. induction s1 as [|c1 s1 IH]; intros [|c2 s2] [|c3 s3];
    cbn [String.compare]; try congruence.
  unfold Ascii.compare.
  destruct (N.compare_spec (N_of_ascii c1) (N_of_ascii c2)) as [E12 | L12 | G12];
    destruct (N.compare_spec (N_of_ascii c2) (N_of_ascii c3)) as [E23 | L23 | G23];
    try congruence.
  - rewrite E12, E23, N.compare_refl. apply IH.
  - intros _ _. rewrite E12. rewrite (proj2 (N.compare_lt_iff _ _) L23). discriminate.
  - intros _ _. rewrite <- E23. rewrite (proj2 (N.compare_lt_iff _ _) L12). discriminate.
  - intros _ _.
    rewrite (proj2 (N.compare_lt_iff _ _) (N.lt_trans _ _ _ L12 L23)). discriminate.
Qed.

Lemma leb_trans (s1 s2 s3 : string) :
  String.leb s1 s2 = true -> String.leb s2 s3 = true -> String.leb s1 s3 = true.
Proof.
  unfold String.leb. intros H1 H2.
  pose proof (compare_trans_le s1 s2 s3) as T.
  destruct (String.compare s1 s2), (String.compare s2 s3),
    (String.compare s1 s3); try reflexivity; try discriminate;
    exfalso; apply T; congruence.
Qed.

Lemma leb_refl (s : string) : String.leb s s = true.
Proof. destruct (String.leb_total s s); assumption. Qed.

(** Of the values of a suffix the one kept is no less frequent than any
    other and, among those as frequent, the smallest. *)
Lemma most_frequent_suffix_smallest (xs l : list string) :
  match fold_right
          (fun x best =>
             match best with
             | None => Some x
             | Some b => if SimpleImputer.preferred xs x b then Some x else Some b
             end)
          None l with
  | None => True
  | Some b =>
      forall w, In w l ->
        SimpleImputer.count w xs = SimpleImputer.count b xs ->
        String.leb b w = true
  end.
Proof.
  induction l as [|x l IH]; cbn [fold_right]; [exact I|].
  pose proof (most_frequent_suffix xs l) as M.
  destruct (fold_right _ None l) as [b|].
  - destruct M as [_ Hmax].
    destruct (SimpleImputer.preferred xs x b) eqn:P;
      unfold SimpleImputer.preferred in P.
    + intros w [<- | Hw] Hc; [apply leb_refl|].
      apply orb_true_iff in P. destruct P as [P | P].
      * apply Nat.ltb_lt in P. specialize (Hmax w Hw). lia.
      * apply andb_true_iff in P. destruct P as [P1 P2]. apply Nat.eqb_eq in P1.
        apply (leb_trans x b w P2). apply IH; [exact Hw | lia].
    + apply orb_false_iff in P. destruct P as [P1 P2].
      apply Nat.ltb_ge in P1.
      intros w [<- | Hw] Hc; [|apply IH; assumption].
      apply andb_false_iff in P2. destruct P2 as [P2 | P2].
      * apply Nat.eqb_neq in P2. lia.
      * destruct (String.leb_total x b) as [T | T]; [congruence | exact T].
  - subst l. intros w [<- | []] _. apply leb_refl.
Qed.

Lemma most_frequent_smallest (xs : list string) (v : string) :
  SimpleImputer.most_frequent xs = Some v -> is_smallest_mode v xs.
Proof.
  intros H. split; [apply most_frequent_is_mode, H|].
  intros w [Hw Hmax].
  pose proof (most_frequent_suffix_smallest xs xs) as S.
  unfold SimpleImputer.most_frequent in H. rewrite H in S.
  apply S; [exact Hw|].
  destruct (most_frequent_is_mode xs v) as [Hv Hvmax];
    [unfold SimpleImputer.most_frequent; exact H|].
  unfold SimpleImputer.count.
  specialize (Hmax v). specialize (Hvmax w). lia.
Qed.

Lemma sorted_perm_eq (l1 l2 : list R) :
  StronglySorted Rle l1 -> StronglySorted Rle l2 -> Permutation l1 l2 -> l1 = l2.
Proof.
  intros H1. revert l2. induction H1 as [|a l1 Hs1 IH Ha]; intros l2 H2 P.
  - apply Permutation_nil in P. subst. reflexivity.
  - destruct H2 as [|b l2 Hs2 Hb].
    + apply Permutation_sym, Permutation_nil in P. discriminate.
    + assert (E : a = b).
      { rewrite Forall_forall in Ha, Hb.
        assert (Hab : In a (b :: l2))
          by (apply (Permutation_in a P); left; reflexivity).
        assert (Hba : In b (a :: l1))
          by (apply (Permutation_in b (Permutation_sym P)); left; reflexivity).
        destruct Hab as [-> | Hab]; [reflexivity|].
        destruct Hba as [-> | Hba]; [reflexivity|].
        specialize (Ha b Hba). specialize (Hb a Hab). lra. }
      subst b. f_equal. apply IH; [exact Hs2|].
      apply (Permutation_cons_inv P).
Qed.

Lemma count_perm (xs ys : list string) (w : string) :
  Permutation xs ys -> count_occ string_dec xs w = count_occ string_dec ys w.
Proof.
  intros P. revert w. apply Permutation_count_occ. exact P.
Qed.

Lemma is_mode_perm (xs ys : list string) (v : string) :
  Permutation xs ys -> is_mode v xs -> is_mode v ys.
Proof.
  intros P [Hin Hmax]. split; [apply (Permutation_in v P Hin)|].
  intros w. rewrite <- !(count_perm xs ys _ P). apply Hmax.
Qed.

(** X3.  The statistic an imputer puts in the gaps of a column does not
    depend on the order of the rows: the median of the values is that of
    any rearrangement of them, and so is the most frequent value, which is
    the smallest of the values that occur most often. *)
Theorem imputer_statistics_of_rearranged_rows :
  (forall xs ys : list R,
      Permutation xs ys -> np.median xs = np.median ys) /\
  (forall xs ys : list string,
      Permutation xs ys ->
      SimpleImputer.most_frequent xs = SimpleImputer.most_frequent ys) /\
  (forall (xs : list string) (v : string),
      SimpleImputer.most_frequent xs = Some v -> is_smallest_mode v xs).
Proof.
  split; [|split].
  - intros xs ys P. unfold np.median.
    assert (S : np.sort xs = np.sort ys).
    { apply sorted_perm_eq; try apply sort_sorted.
      eapply perm_trans; [apply sort_perm|].
      eapply perm_trans; [exact P | apply Permutation_sym, sort_perm]. }
    pose proof (Permutation_length P) as Hl.
    destruct xs as [|x xs], ys as [|y ys]; try discriminate; [reflexivity|].
    rewrite S, Hl. reflexivity.
  - intros xs ys P.
    destruct (SimpleImputer.most_frequent xs) as [v|] eqn:Ex,
             (SimpleImputer.most_frequent ys) as [w|] eqn:Ey.
    + destruct (most_frequent_smallest xs v Ex) as [Mv Sv].
      destruct (most_frequent_smallest ys w Ey) as [Mw Sw].
      f_equal. apply String.leb_antisym.
      * apply Sv. apply (is_mode_perm ys xs w (Permutation_sym P) Mw).
      * apply Sw. apply (is_mode_perm xs ys v P Mv).
    + exfalso. destruct ys as [|y ys].
      * apply Permutation_sym, Permutation_nil in P. subst. discriminate.
      * destruct (most_frequent_some (y :: ys)) as [u Hu]; [discriminate|].
        congruence.
    + exfalso. destruct xs as [|x xs].
      * apply Permutation_nil in P. subst. discriminate.
      * destruct (most_frequent_some (x :: xs)) as [u Hu]; [discriminate|].
        congruence.
    + reflexivity.
  - exact most_frequent_smallest.
Qed.

Lemma imputer_statistics_of_rearranged_rows_witness :
  Permutation [1; 3; 8] [8; 1; 3] /\
  np.median [1; 3; 8] = np.median [8; 1; 3] /\
  SimpleImputer.most_frequent ["RAIN"; "CLEAR"; "SNOW"]%string = Some "CLEAR"%string /\
  is_smallest_mode "CLEAR" ["RAIN"; "CLEAR"; "SNOW"]%string.
Proof.
  assert (P : Permutation [1; 3; 8] [8; 1; 3]).
  { apply Permutation_sym, (Permutation_cons_app [1; 3] [] 8). apply Permutation_refl. }
  split; [exact P|].
  split; [exact (proj1 imputer_statistics_of_rearranged_rows _ _ P)|].
  split; [reflexivity|].
  exact (proj2 (proj2 imputer_statistics_of_rearranged_rows)
           ["RAIN"; "CLEAR"; "SNOW"]%string "CLEAR"%string eq_refl).
Defined.

(** ** The columns that leave the column pipelines *)

Lemma imputed_labels {A : Type} (statistic : list A -> option A)
    (X : list (Column (option A))) :
  (forall l, statistic l = None <-> l = []) ->
  map fst (flat_map (impute_column statistic) X) = map fst (filter has_value X).
Proof.
  intros Hs. induction X as [|c X IH]; [reflexivity|].
  change (flat_map (impute_column statistic) (c :: X))
    with (impute_column statistic c ++ flat_map (impute_column statistic) X).
  change (filter has_value (c :: X))
    with (if has_value c then c :: filter has_value X else filter has_value X).
  rewrite map_app. unfold Column in *. rewrite IH.
  unfold impute_column, has_value.
  destruct (dropna (snd c)) as [|x l] eqn:E.
  - rewrite (proj2 (Hs []) eq_refl). reflexivity.
  - destruct (statistic (x :: l)) as [v|] eqn:Ev; [reflexivity|].
    apply Hs in Ev. discriminate.
Qed.

Lemma median_none (l : list R) : np.median l = None <-> l = [].
Proof.
  destruct l; cbn; split; try reflexivity; discriminate.
Qed.

Lemma most_frequent_none (l : list string) :
  SimpleImputer.most_frequent l = None <-> l = [].
Proof.
  split.
  - intros H. destruct l as [|x l]; [reflexivity|].
    destruct (most_frequent_some (x :: l)) as [v Hv]; [discriminate | congruence].
  - intros ->. reflexivity.
Qed.

Lemma fillna_map_Some {A : Type} (v : A) (l : list A) :
  fillna v (map Some l) = l.
Proof.
  unfold fillna. rewrite map_map. apply map_id.
Qed.

Lemma dropna_map_Some {A : Type} (l : list A) : dropna (map Some l) = l.
Proof.
  induction l as [|x l IH]; cbn; [reflexivity | f_equal; exact IH].
Qed.

Lemma flat_map_nil_labels {A B : Type} (l : list (string * A)) (l' : list (string * B)) :
  map fst l = map fst l' -> l = [] <-> l' = [].
Proof.
  destruct l, l'; cbn; intros H; split; intros E; try reflexivity;
    discriminate.
Qed.

(** X4.  The numeric pipeline cannot be fitted exactly when no column has a
    value.  Fitted, its imputer hands on the columns that have a value, in
    their order and under their labels, and drops the others; a column
    without gaps is handed on as it is. *)
Theorem imputer_keeps_columns_with_a_value (X : list (Column (option R))) :
  (num_pipeline.fit X = None <-> filter has_value X = []) /\
  forall f, num_pipeline.fit X = Some f ->
    exists Xi,
      num_pipeline.imputed (num_pipeline.statistics_ f) X = Some Xi /\
      map fst Xi = map fst (filter has_value X) /\
      forall name l, In (name, map Some l) X -> l <> [] -> In (name, l) Xi.
Proof.
  pose proof (imputed_labels np.median X median_none) as Hl.
  split.
  - unfold num_pipeline.fit, num_pipeline.imputed.
    rewrite imputer_fit_transform.
    rewrite <- (flat_map_nil_labels _ _ Hl).
    destruct (flat_map (impute_column np.median) X);
      split; try reflexivity; discriminate.
  - intros f Hf. destruct (num_pipeline_fit_inv X f Hf) as (_ & Hi & _ & _).
    exists (flat_map (impute_column np.median) X).
    split; [exact Hi|]. split; [exact Hl|].
    intros name l Hin Hne. apply in_flat_map. exists (name, map Some l).
    split; [exact Hin|]. unfold impute_column. cbn [fst snd].
    rewrite dropna_map_Some.
    destruct (median_some l Hne) as [m ->]. rewrite fillna_map_Some.
    left. reflexivity.
Qed.

Lemma imputer_keeps_columns_with_a_value_witness :
  num_pipeline.fit sample.numbers = Some sample.numbers_fitted /\
  exists Xi,
    num_pipeline.imputed (num_pipeline.statistics_ sample.numbers_fitted)
      sample.numbers = Some Xi /\
    map fst Xi = ["crash_hour"; "num_units"]%string /\
    In ("num_units"%string, [2; 2; 2; 2]) Xi.
Proof.
  split; [reflexivity|].
  destruct (proj2 (imputer_keeps_columns_with_a_value sample.numbers)
              sample.numbers_fitted eq_refl) as (Xi & H1 & H2 & H3).
  exists Xi. split; [exact H1|]. split; [exact H2|].
  apply (H3 "num_units"%string [2; 2; 2; 2]).
  - right. right. left. reflexivity.
  - discriminate.
Defined.

Lemma sum_constant (a : R) (l : list R) :
  (forall x, In x l -> x = a) -> np.sum l = INR (length l) * a.
Proof.
  induction l as [|x l IH]; intros H.
  - cbn. ring.
  - cbn [np.sum fold_right length]. fold (np.sum l). rewrite S_INR, IH.
    + rewrite (H x (or_introl eq_refl)). ring.
    + intros y Hy. apply H. right. exact Hy.
Qed.

Lemma scale_constant_column (col : list R) :
  ~ not_constant col ->
  StandardScaler.transform_column (np.mean col, StandardScaler.scale col) col
  = repeat 0 (length col).
Proof.
  intros Hc. destruct col as [|a col]; [reflexivity|].
  assert (Ha : forall x, In x (a :: col) -> x = a).
  { intros x Hx. destruct (Req_dec_T x a) as [E | E]; [exact E|].
    exfalso. apply Hc. exists x, a. split; [exact Hx|].
    split; [left; reflexivity | exact E]. }
  assert (Hm : np.mean (a :: col) = a).
  { unfold np.mean. rewrite (sum_constant a _ Ha). field.
    pose proof (INR_length_pos (a :: col)). assert (a :: col <> []) by discriminate.
    intuition lra. }
  unfold StandardScaler.transform_column. cbn [fst snd]. rewrite Hm.
  rewrite <- map_const. apply map_ext_in. intros x Hx.
  rewrite (Ha x Hx). unfold Rdiv. ring.
Qed.

(** X5.  A numeric column that is constant once imputed leaves the numeric
    pipeline as a column of zeros: its standard deviation of 0 is replaced
    by 1, and nothing is divided by 0. *)
Theorem constant_column_scaled_to_zeros (X : list (Column (option R)))
    (f : num_pipeline.fitted) (Xt : list (Column R))
    (name : string) (cells : list (option R)) (m : R) :
  num_pipeline.fit X = Some f -> num_pipeline.transform f X = Some Xt ->
  In (name, cells) X -> np.median (dropna cells) = Some m ->
  ~ not_constant (fillna m cells) ->
  StandardScaler.scale (fillna m cells) = 1 /\
  In (name, repeat 0 (length cells)) Xt.
Proof.
  intros Hf Ht Hin Hm Hc. split.
  - unfold StandardScaler.scale.
    destruct (Req_dec_T (np.var (fillna m cells)) 0) as [_ | N]; [reflexivity|].
    exfalso. apply N. unfold np.var.
    rewrite <- (map_ext_in (fun _ => 0)).
    + rewrite map_const. unfold np.mean.
      rewrite (sum_constant 0); [unfold Rdiv; ring|].
      intros x Hx. apply repeat_spec in Hx. exact Hx.
    + intros x Hx.
      pose proof (scale_constant_column _ Hc) as Z.
      assert (Hz : In ((x - np.mean (fillna m cells))
                       / StandardScaler.scale (fillna m cells))
                      (repeat 0 (length (fillna m cells)))).
      { rewrite <- Z. unfold StandardScaler.transform_column. cbn [fst snd].
        apply (in_map (fun x => (x - np.mean (fillna m cells))
                                / StandardScaler.scale (fillna m cells))).
        exact Hx. }
      apply repeat_spec in Hz. pose proof (scale_pos (fillna m cells)) as Hs.
      assert (x - np.mean (fillna m cells) = 0).
      { apply (Rmult_eq_reg_r (/ StandardScaler.scale (fillna m cells))).
        - rewrite Rmult_0_l. exact Hz.
        - apply Rinv_neq_0_compat. lra. }
      rewrite H. ring.
  - rewrite (num_pipeline_fit_transform X f Hf) in Ht. injection Ht as <-.
    apply in_map_iff. exists (name, fillna m cells). split.
    + unfold scale_column. cbn [fst snd]. rewrite (scale_constant_column _ Hc).
      unfold fillna. rewrite length_map. reflexivity.
    + apply (In_impute_column np.median X (name, cells) m Hin Hm).
Qed.

Lemma median_of_units : np.median [2; 2; 2; 2] = Some 2.
Proof.
  unfold np.median, np.sort. cbn [fold_right np.insert length Nat.even].
  repeat (destruct (Rle_dec _ _); try lra; cbn [np.insert]).
  cbn. f_equal. lra.
Qed.

Lemma constant_column_scaled_to_zeros_witness :
  num_pipeline.fit sample.numbers = Some sample.numbers_fitted /\
  exists Xt,
    num_pipeline.transform sample.numbers_fitted sample.numbers = Some Xt /\
    In ("num_units"%string, [0; 0; 0; 0]) Xt.
Proof.
  split; [reflexivity|].
  pose proof (num_pipeline_fit_transform sample.numbers sample.numbers_fitted
                eq_refl) as Ht.
  eexists. split; [exact Ht|].
  refine (proj2 (constant_column_scaled_to_zeros sample.numbers
                   sample.numbers_fitted _ "num_units"
                   [Some 2; Some 2; Some 2; Some 2] 2 eq_refl Ht _
                   median_of_units _)).
  - right. right. left. reflexivity.
  - intros (a & b & Ha & Hb & Hab). cbn [fillna map In] in Ha, Hb.
    intuition lra.
Defined.

(** ** The one-hot columns *)

Lemma onehot_insert_sorted (x : string) (l : list string) :
  ascending l -> ascending (OneHotEncoder.insert x l).
Proof.
  unfold ascending. induction 1 as [|y l Hs IH Hy]; cbn [OneHotEncoder.insert].
  - repeat constructor.
  - destruct (String.leb x y) eqn:E.
    + constructor; [constructor; assumption | constructor; exact E].
    + constructor; [exact IH|].
      assert (Hyx : String.leb y x = true)
        by (destruct (String.leb_total x y); [congruence | assumption]).
      destruct l as [|z l]; cbn [OneHotEncoder.insert].
      * constructor. exact Hyx.
      * inversion Hy; subst.
        destruct (String.leb x z); constructor; assumption.
Qed.

Lemma sum_one_at (k n : nat) : (k < n)%nat -> np.sum (one_at k n) = 1.
Proof.
  revert k. induction n as [|n IH]; intros k Hk; [lia|].
  destruct k as [|k].
  - rewrite one_at_0. cbn [np.sum fold_right]. fold (np.sum (repeat 0 n)).
    rewrite (sum_constant 0); [ring|]. intros x Hx. apply repeat_spec in Hx. exact Hx.
  - rewrite one_at_S. cbn [np.sum fold_right]. fold (np.sum (one_at k n)).
    rewrite IH by lia. ring.
Qed.

(** X6.  Fitted and applied on one column, the encoder never fails.  A
    column of [d] distinct values becomes [d] columns, labelled
    [<column>_<value>] in the ascending order of the values, each as long
    as the column, and the cells of every row add up to 1. *)
Theorem one_hot_columns_of_fitted_column (c : Column string) :
  let cats := OneHotEncoder.categories (snd c) in
  exists out,
    OneHotEncoder.transform_column OneHotEncoder.ignore cats c = Some out /\
    length out = length (nodup string_dec (snd c)) /\
    map fst out = map (fun k => (fst c ++ "_" ++ k)%string) cats /\
    ascending cats /\
    Forall (fun col => length (snd col) = length (snd c)) out /\
    forall i, (i < length (snd c))%nat ->
      np.sum (map (fun col => nth i (snd col) 0) out) = 1.
Proof.
  cbn zeta. unfold OneHotEncoder.transform_column. cbn [OneHotEncoder.known].
  eexists. split; [reflexivity|]. split; [|split; [|split; [|split]]].
  - rewrite length_map. apply Permutation_length, categories_perm.
  - rewrite map_map. reflexivity.
  - unfold OneHotEncoder.categories.
    induction (nodup string_dec (snd c)) as [|x l IH]; cbn [fold_right].
    + constructor.
    + apply onehot_insert_sorted, IH.
  - apply Forall_forall. intros col Hcol. apply in_map_iff in Hcol.
    destruct Hcol as (k & <- & _). cbn [snd]. apply length_map.
  - intros i Hi.
    destruct (nth_error (snd c) i) as [v|] eqn:Ev;
      [|apply nth_error_None in Ev; lia].
    destruct (transform_column_row (OneHotEncoder.categories (snd c)) c i v Ev)
      as (out & Hout & Hrow).
    unfold OneHotEncoder.transform_column in Hout. cbn [OneHotEncoder.known] in Hout.
    injection Hout as Hout. rewrite <- Hout in Hrow.
    assert (Hin : In v (OneHotEncoder.categories (snd c)))
      by (apply categories_In; eapply nth_error_In, Ev).
    apply In_nth_error in Hin. destruct Hin as [k Hk].
    rewrite (indicator_known _ v k (categories_NoDup (snd c)) Hk) in Hrow.
    refine (eq_trans (f_equal np.sum Hrow) _).
    apply sum_one_at. apply nth_error_Some. congruence.
Qed.

Lemma one_hot_columns_of_fitted_column_witness :
  exists out,
    OneHotEncoder.transform_column OneHotEncoder.ignore
      (OneHotEncoder.categories (snd sample_weather)) sample_weather = Some out /\
    map fst out = ["weather_CLEAR"; "weather_RAIN"; "weather_SNOW"]%string /\
    np.sum (map (fun col => nth 3 (snd col) 0) out) = 1.
Proof.
  destruct (one_hot_columns_of_fitted_column sample_weather)
    as (out & H1 & _ & H2 & _ & _ & H3).
  exists out. split; [exact H1|]. split; [exact H2|].
  apply H3. cbn. lia.
Defined.

(** ** Cell 3 *)

Section Cell3Frame.

Context {L : Library}.

Lemma all_length_setitem (n : nat) (df : DataFrame) (k : string) (s : Series) :
  all_length n df -> series_length s = n -> all_length n (setitem df k s).
Proof.
  unfold all_length. intros H Hs.
  induction H as [|[k0 s0] df H0 H IH]; cbn [setitem].
  - repeat constructor. exact Hs.
  - destruct (String.eqb k0 k); constructor; auto.
Qed.

Lemma all_length_drop (n : nat) (df df' : DataFrame) (names : list string) :
  drop df names = Some df' -> all_length n df -> all_length n df'.
Proof.
  unfold drop, all_length. destruct (forallb _ names); [|discriminate].
  intros [= <-] H. apply Forall_forall. intros c Hc.
  apply filter_In in Hc. rewrite Forall_forall in H. apply H, Hc.
Qed.

Lemma all_length_getitem (n : nat) (df : DataFrame) (k : string) (s : Series) :
  all_length n df -> getitem df k = Some s -> series_length s = n.
Proof.
  unfold all_length. intros H G. apply assoc_In in G.
  rewrite Forall_forall in H. exact (H (k, s) G).
Qed.

Lemma map_fst_drop (df df' : DataFrame) (names : list string) :
  drop df names = Some df' ->
  map fst df' = filter (fun m => negb (existsb (String.eqb m) names)) (map fst df).
Proof.
  unfold drop. destruct (forallb _ names); [|discriminate]. intros [= <-].
  induction df as [|[k s] df IH]; [reflexivity|].
  cbn [filter map fst]. destruct (existsb (String.eqb k) names); cbn [negb map fst];
    rewrite IH; reflexivity.
Qed.

(** Cell 3 keeps the number of rows. *)
Lemma cell_3_rows (n : nat) (csv df : DataFrame) :
  cell_3 csv = Some df -> all_length n csv -> all_length n df.
Proof.
  intros H Hn. unfold cell_3 in H.
  destruct (getitem csv "crash_date") as [c|] eqn:Ec; [|discriminate].
  destruct (to_datetime_coerce c) as [c'|] eqn:Ed; [|discriminate].
  destruct (to_datetime_coerce_dates c c' Ed) as (dates & -> & Hlen).
  repeat (rewrite getitem_setitem in H; cbn [String.eqb Ascii.eqb Bool.eqb dt] in H).
  fold (dt_cells year dates) (dt_cells month dates) (dt_cells dayofweek dates) in H.
  pose proof (all_length_getitem n csv _ c Hn Ec) as Hc.
  assert (Hs : forall field, series_length (Float64 (dt_cells field dates)) = n).
  { intros field. cbn [series_length]. unfold dt_cells. rewrite length_map. lia. }
  eapply all_length_drop; [exact H|].
  repeat apply all_length_setitem; try apply Hs; try exact Hn.
  cbn [series_length]. lia.
Qed.

(** X7.  Cell 3 raises exactly when the loaded frame lacks [crash_date] or
    one of the four injury columns it drops, or when the dates that parse
    mix UTC offsets.  A date that does not parse does not make it raise. *)
Theorem cell_3_raises_on_missing_column_or_mixed_offsets (csv : DataFrame) :
  cell_3 csv = None <->
  has_column csv "crash_date" = false \/
  forallb (has_column csv)
    ["injuries_fatal"; "injuries_incapacitating"; "injuries_non_incapacitating";
     "injuries_reported_not_evident"]%string = false \/
  exists cells,
    getitem csv "crash_date" = Some (Object cells) /\ mixed_offsets cells.
Proof.
  destruct (getitem csv "crash_date") as [c|] eqn:Ec.
  - assert (Hd : has_column csv "crash_date" = true)
      by (apply has_column_getitem; congruence).
    destruct (to_datetime_coerce c) as [c'|] eqn:Ed.
    + assert (Hmix : ~ exists cells, Some c = Some (Object cells) /\ mixed_offsets cells).
      { intros (cells & [= ->] & Hm).
        rewrite (proj2 (to_datetime_coerce_raises (Object cells))) in Ed;
          [discriminate | eauto]. }
      destruct (forallb (has_column csv) _) eqn:Hcols.
      * destruct (cell_3_total csv c c' Ec Ed Hcols) as [df Hdf].
        split; [congruence|]. intros [H | [H | H]]; [congruence | congruence | tauto].
      * split; [auto|]. intros _. unfold cell_3. rewrite Ec, Ed.
        destruct (to_datetime_coerce_dates c c' Ed) as (dates & -> & _).
        repeat (rewrite getitem_setitem; cbn [String.eqb Ascii.eqb Bool.eqb dt]).
        unfold drop. cbn [forallb] in *.
        rewrite !has_column_setitem. cbn [String.eqb Ascii.eqb Bool.eqb orb].
        rewrite Hcols. reflexivity.
    + split.
      * intros _. right. right.
        apply to_datetime_coerce_raises in Ed. destruct Ed as (cells & -> & Hm).
        exists cells. auto.
      * intros _. unfold cell_3. rewrite Ec, Ed. reflexivity.
  - assert (Hd : has_column csv "crash_date" = false).
    { destruct (has_column csv "crash_date") eqn:E; [|reflexivity].
      apply has_column_getitem in E. contradiction. }
    split; [auto|]. intros _. unfold cell_3. rewrite Ec. reflexivity.
Qed.

(** X8.  When cell 3 goes through, the frame it leaves has the year, the
    month and the day of the week of the dates, in place of the columns of
    these names if the loaded frame had them and else behind its columns;
    the five dropped columns are gone; every other column is as it was
    loaded; and the columns have the number of rows they had. *)
Theorem cell_3_frame (csv df : DataFrame) :
  cell_3 csv = Some df ->
  exists c dates,
    getitem csv "crash_date" = Some c /\
    to_datetime_coerce c = Some (Datetime64 dates) /\
    Forall (fun d => getitem df (fst d) = Some (Float64 (dt_cells (snd d) dates)))
           date_fields /\
    (forall m, is_dropped m = true -> getitem df m = None) /\
    (forall m, is_dropped m = false -> ~ In m (map fst date_fields) ->
               getitem df m = getitem csv m) /\
    map fst df = labels_after_cell_3 csv /\
    (forall n, all_length n csv -> all_length n df).
Proof.
  intros H0. assert (H := H0). unfold cell_3 in H.
  destruct (getitem csv "crash_date") as [c|] eqn:Ec; [|discriminate].
  destruct (to_datetime_coerce c) as [c'|] eqn:Ed; [|discriminate].
  destruct (to_datetime_coerce_dates c c' Ed) as (dates & -> & Hlen).
  repeat (rewrite getitem_setitem in H; cbn [String.eqb Ascii.eqb Bool.eqb dt] in H).
  fold (dt_cells year dates) (dt_cells month dates) (dt_cells dayofweek dates) in H.
  exists c, dates. split; [reflexivity|]. split; [exact Ed|].
  split; [|split; [|split; [|split]]].
  - unfold date_fields. repeat constructor; cbn [fst snd];
      rewrite (getitem_drop _ _ _ _ H);
      cbn [existsb String.eqb Ascii.eqb Bool.eqb orb];
      repeat (rewrite getitem_setitem; cbn [String.eqb Ascii.eqb Bool.eqb]);
      reflexivity.
  - intros m Hm. rewrite (getitem_drop _ _ _ _ H).
    unfold is_dropped, dropped_columns in Hm. rewrite Hm. reflexivity.
  - intros m Hm Hd. rewrite (getitem_drop _ _ _ _ H).
    unfold is_dropped, dropped_columns in Hm. rewrite Hm.
    rewrite !getitem_setitem.
    cbn [date_fields map fst In] in Hd.
    destruct (String.eqb_spec "crash_day_of_week" m) as [<- | _]; [tauto|].
    destruct (String.eqb_spec "crash_month" m) as [<- | _]; [tauto|].
    destruct (String.eqb_spec "crash_year" m) as [<- | _]; [tauto|].
    destruct (String.eqb_spec "crash_date" m) as [<- | _]; [discriminate|].
    reflexivity.
  - rewrite (map_fst_drop _ _ _ H). rewrite !map_fst_setitem.
    rewrite !has_column_setitem. cbn [String.eqb Ascii.eqb Bool.eqb orb].
    assert (Hd : has_column csv "crash_date" = true)
      by (apply has_column_getitem; congruence).
    rewrite Hd. unfold labels_after_cell_3, date_fields. cbn [map fst filter].
    f_equal.
    destruct (has_column csv "crash_year"), (has_column csv "crash_month"),
      (has_column csv "crash_day_of_week"); cbn [negb app];
      rewrite <- ?app_assoc, ?app_nil_r; reflexivity.
  - intros n Hn. exact (cell_3_rows n csv df H0 Hn).
Qed.

End Cell3Frame.

Lemma cell_3_frame_witness :
  exists df,
    @cell_3 stub.off_by_one stub.accidents = Some df /\
    getitem df "crash_date" = None /\
    map fst df = labels_after_cell_3 stub.accidents /\
    all_length 13 df.
Proof.
  destruct (@cell_3_total stub.off_by_one stub.accidents _ _ eq_refl eq_refl
              eq_refl) as [df Hdf].
  destruct (@cell_3_frame stub.off_by_one stub.accidents df Hdf)
    as (c & dates & _ & _ & _ & H1 & _ & H2 & H3).
  exists df. split; [exact Hdf|]. split; [apply H1; reflexivity|].
  split; [exact H2|]. apply H3.
  unfold all_length, stub.accidents. repeat constructor.
Defined.

(** ** The shape of the arrays *)

Lemma n_samples_imputer {A : Type} (n : nat) (st : list (option A))
    (X : list (Column (option A))) (Xi : list (Column A)) :
  n_samples n X -> SimpleImputer.transform st X = Some Xi -> n_samples n Xi.
Proof.
  unfold n_samples. intros H. revert st Xi.
  induction H as [|c X Hc H IH]; intros [|o st] Xi; cbn [SimpleImputer.transform];
    try discriminate.
  - intros [= <-]. constructor.
  - destruct (SimpleImputer.transform st X) as [r|] eqn:E; [|discriminate].
    intros [= <-]. specialize (IH st r E).
    destruct o; [constructor|]; auto.
    cbn [snd]. unfold fillna. rewrite length_map. exact Hc.
Qed.

Lemma n_samples_scaler (n : nat) (ps : list (R * R)) (X Xt : list (Column R)) :
  n_samples n X -> StandardScaler.transform ps X = Some Xt -> n_samples n Xt.
Proof.
  unfold n_samples. intros H. revert ps Xt.
  induction H as [|c X Hc H IH]; intros [|p ps] Xt; cbn [StandardScaler.transform];
    try discriminate.
  - intros [= <-]. constructor.
  - destruct (StandardScaler.transform ps X) as [r|] eqn:E; [|discriminate].
    intros [= <-]. constructor; [|exact (IH ps r E)].
    cbn [snd]. unfold StandardScaler.transform_column. rewrite length_map. exact Hc.
Qed.

Lemma n_samples_onehot (n : nat) (hu : OneHotEncoder.handle_unknown)
    (cs : list (list string)) (X : list (Column string)) (Xt : list (Column R)) :
  n_samples n X -> OneHotEncoder.transform hu cs X = Some Xt -> n_samples n Xt.
Proof.
  unfold n_samples. intros H. revert cs Xt.
  induction H as [|c X Hc H IH]; intros [|cats cs] Xt; cbn [OneHotEncoder.transform];
    try discriminate.
  - intros [= <-]. constructor.
  - destruct (OneHotEncoder.transform_column hu cats c) as [a|] eqn:Ea; [|discriminate].
    destruct (OneHotEncoder.transform hu cs X) as [r|] eqn:E; [|discriminate].
    intros [= <-]. apply Forall_app. split; [|exact (IH cs r E)].
    unfold OneHotEncoder.transform_column in Ea.
    destruct (OneHotEncoder.known hu cats (snd c)); [|discriminate].
    injection Ea as <-. apply Forall_forall. intros col Hcol.
    apply in_map_iff in Hcol. destruct Hcol as (k & <- & _).
    cbn [snd]. rewrite length_map. exact Hc.
Qed.

Lemma n_samples_pick_number (n : nat) (df : DataFrame) (names : list string)
    (X : list (Column (option R))) :
  all_length n df -> preprocessing.pick_number df names = Some X -> n_samples n X.
Proof.
  intros Hn. revert X.
  induction names as [|k names IH]; intros X; cbn [preprocessing.pick_number].
  - intros [= <-]. constructor.
  - destruct (getitem df k) as [[x|x|x]|] eqn:G; try discriminate.
    destruct (preprocessing.pick_number df names) as [r|]; [|discriminate].
    intros [= <-]. constructor; [|apply IH; reflexivity].
    exact (all_length_getitem n df k _ Hn G).
Qed.

Lemma n_samples_pick_object (n : nat) (df : DataFrame) (names : list string)
    (X : list (Column (option string))) :
  all_length n df -> preprocessing.pick_object df names = Some X -> n_samples n X.
Proof.
  intros Hn. revert X.
  induction names as [|k names IH]; intros X; cbn [preprocessing.pick_object].
  - intros [= <-]. constructor.
  - destruct (getitem df k) as [[x|x|x]|] eqn:G; try discriminate.
    destruct (preprocessing.pick_object df names) as [r|]; [|discriminate].
    intros [= <-]. constructor; [|apply IH; reflexivity].
    exact (all_length_getitem n df k _ Hn G).
Qed.

Lemma n_samples_prefixed (n : nat) (p : string) (X : list (Column R)) :
  n_samples n X -> n_samples n (preprocessing.prefixed p X).
Proof.
  unfold n_samples, preprocessing.prefixed. intros H.
  apply Forall_forall. intros c Hc. apply in_map_iff in Hc.
  destruct Hc as (c0 & <- & Hc0). rewrite Forall_forall in H. exact (H c0 Hc0).
Qed.

Lemma n_samples_num_pipeline (n : nat) (f : num_pipeline.fitted)
    (X : list (Column (option R))) (Xt : list (Column R)) :
  n_samples n X -> num_pipeline.transform f X = Some Xt -> n_samples n Xt.
Proof.
  unfold num_pipeline.transform, num_pipeline.imputed. intros H.
  destruct (SimpleImputer.transform _ X) as [[|c Xi]|] eqn:E; try discriminate.
  apply n_samples_scaler. exact (n_samples_imputer n _ X _ H E).
Qed.

Lemma n_samples_cat_pipeline (n : nat) (f : cat_pipeline.fitted)
    (X : list (Column (option string))) (Xt : list (Column R)) :
  n_samples n X -> cat_pipeline.transform f X = Some Xt -> n_samples n Xt.
Proof.
  unfold cat_pipeline.transform, cat_pipeline.imputed. intros H.
  destruct (SimpleImputer.transform _ X) as [[|c Xi]|] eqn:E; try discriminate.
  apply n_samples_onehot. exact (n_samples_imputer n _ X _ H E).
Qed.

Lemma n_samples_transform (n : nat) (f : preprocessing.fitted) (df : DataFrame)
    (Xt : list (Column R)) :
  all_length n df -> preprocessing.transform f df = Some Xt -> n_samples n Xt.
Proof.
  intros Hn. unfold preprocessing.transform, preprocessing.transform_block.
  destruct (preprocessing.pipeline_1 f) as [f1|].
  - destruct (preprocessing.pick_number df _) as [Xn|] eqn:En; [|discriminate].
    destruct (num_pipeline.transform f1 Xn) as [A|] eqn:EA; [|discriminate].
    cbn [option_map].
    pose proof (n_samples_prefixed n "pipeline-1" A
                  (n_samples_num_pipeline n f1 Xn A
                     (n_samples_pick_number n df _ Xn Hn En) EA)) as HA.
    destruct (preprocessing.pipeline_2 f) as [f2|].
    + destruct (preprocessing.pick_object df _) as [Xo|] eqn:Eo; [|discriminate].
      destruct (cat_pipeline.transform f2 Xo) as [B|] eqn:EB; [|discriminate].
      cbn [option_map]. intros [= <-]. apply Forall_app. split; [exact HA|].
      apply n_samples_prefixed.
      exact (n_samples_cat_pipeline n f2 Xo B
               (n_samples_pick_object n df _ Xo Hn Eo) EB).
    + intros [= <-]. rewrite app_nil_r. exact HA.
  - destruct (preprocessing.pipeline_2 f) as [f2|].
    + destruct (preprocessing.pick_object df _) as [Xo|] eqn:Eo; [|discriminate].
      destruct (cat_pipeline.transform f2 Xo) as [B|] eqn:EB; [|discriminate].
      cbn [option_map]. intros [= <-]. cbn [app].
      apply n_samples_prefixed.
      exact (n_samples_cat_pipeline n f2 Xo B
               (n_samples_pick_object n df _ Xo Hn Eo) EB).
    + intros [= <-]. constructor.
Qed.

Lemma all_length_DataFrame_of (n : nat) (X : list (Column R)) :
  n_samples n X -> all_length n (DataFrame_of X).
Proof.
  unfold n_samples, all_length, DataFrame_of. intros H.
  apply Forall_forall. intros c Hc. apply in_map_iff in Hc.
  destruct Hc as (c0 & <- & Hc0). cbn [snd series_length]. rewrite length_map.
  rewrite Forall_forall in H. exact (H c0 Hc0).
Qed.

Lemma length_take {A : Type} (idx : list nat) (xs : list A) :
  Forall (fun i => (i < length xs)%nat) idx -> length (take idx xs) = length idx.
Proof.
  unfold take. induction 1 as [|i idx Hi H IH]; [reflexivity|].
  cbn [flat_map]. rewrite length_app, IH.
  apply nth_error_Some in Hi. destruct (nth_error xs i); [reflexivity | contradiction].
Qed.

Lemma all_length_iloc (n : nat) (df : DataFrame) (idx : list nat) :
  all_length n df -> Forall (fun i => (i < n)%nat) idx ->
  all_length (length idx) (iloc df idx).
Proof.
  unfold all_length, iloc. intros H Hidx.
  apply Forall_forall. intros c Hc. apply in_map_iff in Hc.
  destruct Hc as (c0 & <- & Hc0). cbn [snd].
  rewrite Forall_forall in H. specialize (H c0 Hc0).
  destruct (snd c0); cbn [series_take series_length] in *;
    apply length_take; rewrite H; exact Hidx.
Qed.

Lemma all_length_n_rows (n : nat) (df : DataFrame) :
  all_length n df -> df <> [] -> n_rows df = n.
Proof.
  intros H Hdf. destruct df as [|[k s] df]; [contradiction|].
  inversion H; subst. reflexivity.
Qed.

Lemma firstn_incl {A : Type} (n : nat) (l : list A) (x : A) :
  In x (firstn n l) -> In x l.
Proof.
  intros H. rewrite <- (firstn_skipn n l). apply in_or_app. left. exact H.
Qed.

Lemma skipn_incl {A : Type} (n : nat) (l : list A) (x : A) :
  In x (skipn n l) -> In x l.
Proof.
  intros H. rewrite <- (firstn_skipn n l). apply in_or_app. right. exact H.
Qed.

Section Shapes.

Context {L : Library}.

Lemma permutation_lt (r : RandomState) (n : nat) :
  Forall (fun i => (i < n)%nat) (permutation r n).
Proof.
  apply Forall_forall. intros i Hi.
  apply (Permutation_in _ (permutation_spec r n)) in Hi.
  apply in_seq in Hi. lia.
Qed.

Lemma length_permutation (r : RandomState) (n : nat) :
  length (permutation r n) = n.
Proof.
  rewrite (Permutation_length (permutation_spec r n)). apply length_seq.
Qed.

Lemma n_test_le (n : nat) : (n_test n <= n)%nat.
Proof.
  unfold n_test. rewrite Nat.mul_1_r.
  destruct n as [|n]; [reflexivity|].
  apply Nat.Div0.div_le_upper_bound. lia.
Qed.

Lemma test_indices_shape (n : nat) :
  length (test_indices n) = n_test n /\
  Forall (fun i => (i < n)%nat) (test_indices n).
Proof.
  unfold test_indices. fold (n_test n). split.
  - rewrite length_firstn, length_permutation. pose proof (n_test_le n). lia.
  - apply Forall_forall. intros i Hi. apply firstn_incl in Hi.
    pose proof (permutation_lt (seeded 42) n) as Hp.
    rewrite Forall_forall in Hp. exact (Hp i Hi).
Qed.

Lemma train_indices_shape (n : nat) :
  length (train_indices n) = (n - n_test n)%nat /\
  Forall (fun i => (i < n)%nat) (train_indices n).
Proof.
  unfold train_indices. fold (n_test n). split.
  - rewrite length_firstn, length_skipn, length_permutation. lia.
  - apply Forall_forall. intros i Hi. apply firstn_incl in Hi.
    apply skipn_incl in Hi.
    pose proof (permutation_lt (seeded 42) n) as Hp.
    rewrite Forall_forall in Hp. exact (Hp i Hi).
Qed.

Lemma run_shapes (e : nat) (csv : DataFrame) (s : Session) (k : Kernel)
    (n : nat) :
  all_length n csv -> run e csv = Some (s, k) ->
  all_length n (accidentsData s) /\
  all_length n (accidentsData_prepared s) /\
  all_length (n_test n) (test_set s) /\
  all_length (n - n_test n) (train_set s) /\
  all_length (n - n_test n) (accidentsTrain s) /\
  n_rows (accidentsTrain s) = (n - n_test n)%nat.
Proof.
  intros Hn E. destruct (run_inv e csv s k E) as (f0 & X0 & f1 & X1 & R).
  destruct R as (E3 & Ef0 & Et0 & _ & Ep & Etr & Ete & Edrop & (target & Eg & _)
                 & _ & _ & _ & _ & _ & _ & _ & H10 & _).
  pose proof (cell_3_rows n csv _ E3 Hn) as H0.
  pose proof (all_length_DataFrame_of n X0 (n_samples_transform n f0 _ X0 H0 Et0)) as Hp.
  rewrite <- Ep in Hp.
  assert (Hrows : n_rows (accidentsData_prepared s) = n).
  { apply all_length_n_rows; [exact Hp|]. intros Hnil.
    rewrite Etr, Hnil in Eg. discriminate. }
  rewrite Hrows in Etr, Ete.
  destruct (test_indices_shape n) as [Lte Bte].
  destruct (train_indices_shape n) as [Ltr Btr].
  pose proof (all_length_iloc n _ _ Hp Bte) as Hte. rewrite Lte, <- Ete in Hte.
  pose proof (all_length_iloc n _ _ Hp Btr) as Htr. rewrite Ltr, <- Etr in Htr.
  pose proof (all_length_drop _ _ _ _ Edrop Htr) as HX.
  repeat split; try assumption.
  apply all_length_n_rows; [exact HX|]. intros Hnil.
  rewrite Hnil in H10. cbn in H10. lia.
Qed.

End Shapes.

Section RowCounts.

Context {L : Library}.

(** X9.  On a frame whose columns all have [n] rows, a run that completes
    had at least 13 rows to work on.  The prepared frame has the [n] rows,
    the test set [ceil(n / 5)] of them, the training set, its features, its
    labels and the predictions of the forest the other [n - ceil(n / 5)],
    which are 10 or more. *)
Theorem run_row_counts (e : nat) (csv : DataFrame) (s : Session) (k : Kernel)
    (n : nat) :
  all_length n csv -> run e csv = Some (s, k) ->
  (13 <= n)%nat /\
  all_length n (accidentsData s) /\
  all_length n (accidentsData_prepared s) /\
  all_length (n_test n) (test_set s) /\
  all_length (n - n_test n) (train_set s) /\
  all_length (n - n_test n) (accidentsTrain s) /\
  length (accidentsTrain_labels s) = (n - n_test n)%nat /\
  length (predictions_rf s) = (n - n_test n)%nat /\
  (10 <= n - n_test n)%nat.
Proof.
  intros Hn E.
  destruct (run_shapes e csv s k n Hn E) as (H0 & Hp & Hte & Htr & HX & HnX).
  destruct (run_inv e csv s k E) as (f0 & X0 & f1 & X1 & R).
  destruct R as (_ & _ & _ & _ & _ & _ & _ & _ & _ & _ & _ & Hy & _ & _ & _ & _
                 & H10 & _ & _ & Erf & _).
  rewrite HnX in Hy, H10.
  assert (H13 : (13 <= n)%nat).
  { unfold n_test in H10. rewrite Nat.mul_1_r in H10.
    destruct (Nat.le_gt_cases 13 n) as [|Hlt]; [assumption|]. exfalso.
    do 13 (destruct n as [|n]; [cbv in H10; lia|]). lia. }
  repeat split; try assumption.
  rewrite Erf, length_map, length_rows. exact HnX.
Qed.

End RowCounts.

Lemma stub_rectangular : all_length 13 stub.accidents.
Proof. unfold all_length, stub.accidents. repeat constructor. Qed.

Lemma run_row_counts_witness :
  exists s k,
    @run stub.off_by_one 0 stub.accidents = Some (s, k) /\
    all_length 3 (test_set s) /\
    all_length 10 (accidentsTrain s) /\
    length (accidentsTrain_labels s) = 10%nat.
Proof.
  destruct stub_run as (s & k & E). exists s, k. split; [exact E|].
  destruct (@run_row_counts stub.off_by_one 0 stub.accidents s k 13
              stub_rectangular E) as (_ & _ & _ & H1 & _ & H2 & H3 & _).
  split; [exact H1|]. split; [exact H2 | exact H3].
Defined.

(** ** What a run reports, saves and feeds its pipelines *)

Lemma rmse_nonneg (y p : list R) (r : R) :
  root_mean_squared_error y p = Some r -> 0 <= r.
Proof.
  unfold root_mean_squared_error. destruct (_ && _); [|discriminate].
  intros [= <-]. apply sqrt_pos.
Qed.

Lemma Forall2_Some_In {A : Type} (l : list (option A)) (r : list A) (a : A) :
  Forall2 (fun o x => o = Some x) l r -> In a r -> In (Some a) l.
Proof.
  induction 1 as [|o x l r Hox H IH]; cbn [In]; [tauto|].
  intros [<- | Ha]; [left; exact Hox | right; exact (IH Ha)].
Qed.

Lemma length_categories (xs : list string) :
  length (OneHotEncoder.categories xs) = length (nodup string_dec xs).
Proof. apply Permutation_length, categories_perm. Qed.

Lemma select_number_DataFrame_of (X : list (Column R)) :
  preprocessing.select_number (DataFrame_of X)
  = map (fun c => (fst c, map Some (snd c))) X.
Proof.
  unfold preprocessing.select_number, DataFrame_of.
  induction X as [|c X IH]; [reflexivity|].
  cbn [map flat_map fst snd app]. rewrite IH. reflexivity.
Qed.

Lemma select_object_DataFrame_of (X : list (Column R)) :
  preprocessing.select_object (DataFrame_of X) = [].
Proof.
  unfold preprocessing.select_object, DataFrame_of.
  induction X as [|c X IH]; [reflexivity|].
  cbn [map flat_map fst snd app]. exact IH.
Qed.

Lemma iloc_DataFrame_of (X : list (Column R)) (idx : list nat) :
  iloc (DataFrame_of X) idx
  = DataFrame_of (map (fun c => (fst c, take idx (snd c))) X).
Proof.
  unfold iloc, DataFrame_of. rewrite !map_map. apply map_ext. intros c.
  cbn [fst snd series_take]. rewrite take_map. reflexivity.
Qed.

Lemma drop_DataFrame_of (X : list (Column R)) (names : list string)
    (df : DataFrame) :
  drop (DataFrame_of X) names = Some df ->
  df = DataFrame_of
         (filter (fun c => negb (existsb (String.eqb (fst c)) names)) X).
Proof.
  unfold drop. destruct (forallb _ names); [|discriminate]. intros [= <-].
  unfold DataFrame_of.
  induction X as [|c X IH]; [reflexivity|].
  cbn [map filter fst]. destruct (existsb (String.eqb (fst c)) names);
    cbn [negb map]; rewrite IH; reflexivity.
Qed.

Lemma map_fst_DataFrame_of (X : list (Column R)) :
  map fst (DataFrame_of X) = map fst X.
Proof. unfold DataFrame_of. rewrite map_map. reflexivity. Qed.

Lemma impute_map_Some (X : list (Column R)) :
  Forall (fun c => snd c <> []) X ->
  flat_map (impute_column np.median) (map (fun c => (fst c, map Some (snd c))) X) = X.
Proof.
  induction 1 as [|[name l] X Hl H IH]; [reflexivity|].
  cbn [map flat_map fst snd]. rewrite IH.
  unfold impute_column. cbn [fst snd]. rewrite dropna_map_Some.
  destruct (median_some l Hl) as [m ->]. rewrite fillna_map_Some. reflexivity.
Qed.

Lemma pick_number_columns (df : DataFrame) (names : list string)
    (X : list (Column (option R))) :
  preprocessing.pick_number df names = Some X ->
  Forall (fun name => exists x, getitem df name = Some (Float64 x)) names.
Proof.
  revert X. induction names as [|k names IH]; intros X;
    cbn [preprocessing.pick_number]; [constructor|].
  destruct (getitem df k) as [[x|x|x]|] eqn:G; try discriminate.
  destruct (preprocessing.pick_number df names) as [r|]; [|discriminate].
  intros _. constructor; [eauto | exact (IH r eq_refl)].
Qed.

Lemma transform_labels (f : preprocessing.fitted) (df : DataFrame)
    (Xt : list (Column R)) :
  preprocessing.transform f df = Some Xt ->
  Forall (fun name => exists rest, name = ("pipeline-1__" ++ rest)%string \/
                                   name = ("pipeline-2__" ++ rest)%string)
         (map fst Xt).
Proof.
  unfold preprocessing.transform.
  destruct (preprocessing.transform_block num_pipeline.transform _ _ _) as [A|] eqn:EA;
    [|discriminate].
  destruct (preprocessing.transform_block cat_pipeline.transform _ _ _) as [B|] eqn:EB;
    [|discriminate].
  intros [= <-]. rewrite map_app. apply Forall_app. split.
  - unfold preprocessing.transform_block in EA.
    destruct (preprocessing.pipeline_1 f); [|injection EA as <-; constructor].
    destruct (preprocessing.pick_number df _); [|discriminate].
    destruct (num_pipeline.transform _ _) as [A0|]; [|discriminate].
    injection EA as <-. unfold preprocessing.prefixed. rewrite map_map.
    apply Forall_forall. intros name Hn. apply in_map_iff in Hn.
    destruct Hn as (c & <- & _). exists (fst c). left. reflexivity.
  - unfold preprocessing.transform_block in EB.
    destruct (preprocessing.pipeline_2 f); [|injection EB as <-; constructor].
    destruct (preprocessing.pick_object df _); [|discriminate].
    destruct (cat_pipeline.transform _ _) as [B0|]; [|discriminate].
    injection EB as <-. unfold preprocessing.prefixed. rewrite map_map.
    apply Forall_forall. intros name Hn. apply in_map_iff in Hn.
    destruct Hn as (c & <- & _). exists (fst c). right. reflexivity.
Qed.

Section Reported.

Context {L : Library}.

(** The features of a run are a float array without NaN: the prepared
    array, its training rows, without the target. *)
Lemma run_features (e : nat) (csv : DataFrame) (s : Session) (k : Kernel)
    (f0 : preprocessing.fitted) (X0 : list (Column R))
    (f1 : preprocessing.fitted) (X1 : list (Column R)) :
  ran csv s k f0 X0 f1 X1 ->
  accidentsTrain s
  = DataFrame_of
      (filter (fun c => negb (existsb (String.eqb (fst c)) [label_column]))
         (map (fun c => (fst c,
                         take (train_indices (n_rows (accidentsData_prepared s)))
                           (snd c))) X0)).
Proof.
  intros R.
  destruct R as (_ & _ & _ & _ & Ep & Etr & _ & Edrop & _).
  rewrite Etr in Edrop. rewrite Ep in Edrop at 1.
  rewrite iloc_DataFrame_of in Edrop.
  exact (drop_DataFrame_of _ _ _ Edrop).
Qed.

(** X10.  The errors a run reports are not negative: those of the three
    pipelines on the training features and the ten of the cross-validation,
    whose scores are the negated errors. *)
Theorem reported_errors_not_negative (e : nat) (csv : DataFrame) (s : Session)
    (k : Kernel) :
  run e csv = Some (s, k) ->
  0 <= lin_rmse s /\ 0 <= tree_rmse s /\ 0 <= rmse_rf s /\
  length (tree_rmses s) = 10%nat /\
  Forall (fun r => 0 <= r) (tree_rmses s).
Proof.
  intros E. destruct (run_inv e csv s k E) as (f0 & X0 & f1 & X1 & R).
  destruct R as (_ & _ & _ & _ & _ & _ & _ & _ & _ & _ & _ & _ & _ & Hlin & _
                 & Htree & _ & (scores & Hs & Ht) & _ & _ & Hrf & _).
  split; [exact (rmse_nonneg _ _ _ Hlin)|].
  split; [exact (rmse_nonneg _ _ _ Htree)|].
  split; [exact (rmse_nonneg _ _ _ Hrf)|].
  apply sequence_Forall2 in Hs. rewrite Ht. split.
  - rewrite length_map, <- (Forall2_length Hs), length_map.
    unfold KFold. rewrite length_map, length_seq. reflexivity.
  - apply Forall_forall. intros r Hr. apply in_map_iff in Hr.
    destruct Hr as (sc & <- & Hsc).
    apply (Forall2_Some_In _ _ _ Hs) in Hsc. apply in_map_iff in Hsc.
    destruct Hsc as (fold & Hfold & _). unfold fold_score in Hfold.
    destruct (preprocessing.fit _) as [f|]; [|discriminate].
    destruct (preprocessing.transform f _) as [Xt|]; [|discriminate].
    destruct (preprocessing.transform f _) as [Xs|]; [|discriminate].
    destruct (root_mean_squared_error (take _ _) _) as [r|] eqn:Er; [|discriminate].
    cbn [option_map] in Hfold. injection Hfold as <-. rewrite Ropp_involutive.
    exact (rmse_nonneg _ _ _ Er).
Qed.

(** X11.  Cell 9 calls [.toarray()] on the output of cell 8, which is there
    only on a sparse output.  So a run that completes had a text column
    with a value, and the stored entries (every entry of the numeric
    columns, one per row for each text column) were fewer than 0.3 of all
    entries: [10 * (d + c) < 3 * (d + m)] for [d] numeric and [c] text
    columns with a value and [m] categories in all. *)
Theorem toarray_needs_sparse_output (e : nat) (csv : DataFrame) (s : Session)
    (k : Kernel) :
  run e csv = Some (s, k) ->
  let numeric := flat_map (impute_column np.median)
                   (preprocessing.select_number (accidentsData s)) in
  let categorical := flat_map (impute_column SimpleImputer.most_frequent)
                       (preprocessing.select_object (accidentsData s)) in
  categorical <> [] /\
  (10 * (length numeric + length categorical)
   < 3 * (length numeric
          + list_sum (map (fun c => length (nodup string_dec (snd c))) categorical)))%nat.
Proof.
  intros E. cbv zeta.
  destruct (run_inv e csv s k E) as (f0 & X0 & f1 & X1 & R).
  destruct R as (_ & Ef0 & _ & Esp & _).
  unfold preprocessing.fit in Ef0.
  remember (preprocessing.select_number (accidentsData s)) as Xn eqn:EXn.
  remember (preprocessing.select_object (accidentsData s)) as Xo eqn:EXo.
  clear EXn EXo.
  destruct (Nat.eqb_spec (n_rows (accidentsData s)) 0) as [|Hn]; [discriminate|].
  destruct (preprocessing.fit_block num_pipeline.fit Xn) as [p1|] eqn:E1;
    [|discriminate].
  destruct (preprocessing.fit_block cat_pipeline.fit Xo) as [p2|] eqn:E2;
    [|discriminate].
  injection Ef0 as <-. cbn [preprocessing.sparse_output_] in Esp.
  unfold preprocessing.sparse in Esp. destruct p2 as [c|]; [|discriminate].
  unfold preprocessing.fit_block in E2.
  destruct Xo as [|c0 Xo]; [discriminate|].
  destruct (cat_pipeline.fit (c0 :: Xo)) as [c'|] eqn:Ec; [|discriminate].
  injection E2 as ->.
  destruct (cat_pipeline_fit_inv _ _ Ec) as (Hne & _ & _ & Hcats).
  split; [exact Hne|].
  rewrite Hcats in Esp. unfold OneHotEncoder.fit in Esp.
  rewrite length_map, map_map in Esp.
  rewrite (map_ext _ (fun c => length (nodup string_dec (snd c)))
             (fun c => length_categories (snd c))) in Esp.
  apply Nat.ltb_lt in Esp.
  set (cn := length (flat_map (impute_column SimpleImputer.most_frequent) (c0 :: Xo))) in *.
  set (m := list_sum _) in *.
  assert (Hd : match p1 with
               | Some f => (n_rows (accidentsData s) * length (num_pipeline.scaler_ f))%nat
               | None => 0%nat
               end
               = (n_rows (accidentsData s)
                  * length (flat_map (impute_column np.median) Xn))%nat).
  { unfold preprocessing.fit_block in E1. destruct Xn as [|c1 Xn].
    - injection E1 as <-. cbn. lia.
    - destruct (num_pipeline.fit (c1 :: Xn)) as [f|] eqn:Ef; [|discriminate].
      injection E1 as <-.
      destruct (num_pipeline_fit_inv _ _ Ef) as (_ & _ & _ & Hsc).
      rewrite Hsc. unfold StandardScaler.fit. rewrite length_map. reflexivity. }
  rewrite Hd in Esp.
  set (d := length (flat_map (impute_column np.median) Xn)) in *.
  set (rows := n_rows (accidentsData s)) in *.
  apply (Nat.mul_lt_mono_pos_l rows); [lia|].
  replace (rows * (10 * (d + cn)))%nat
    with (10 * (rows * d + rows * cn))%nat by ring.
  replace (rows * (3 * (d + m)))%nat
    with (3 * (rows * d + rows * m))%nat by ring.
  exact Esp.
Qed.

(** X12.  The file cell 21 writes holds the forest pipeline with the shared
    [preprocessing] as it was last fitted: on the training features, whose
    labels are outputs of cell 8 and start with [pipeline-1__] or
    [pipeline-2__].  It transforms a frame only if the frame has every one
    of these labels as a float column. *)
Theorem saved_pipeline_expects_prepared_columns (e : nat) (csv : DataFrame)
    (s : Session) (k : Kernel) :
  run e csv = Some (s, k) ->
  Forall (fun name => exists rest, name = ("pipeline-1__" ++ rest)%string \/
                                   name = ("pipeline-2__" ++ rest)%string)
         (map fst (accidentsTrain s)) /\
  exists f1,
    files k = [(model_file, {| pickled_preprocessing := Some f1;
                               pickled_pipeline := full_pipeline s |})] /\
    preprocessing.number_columns f1 = map fst (accidentsTrain s) /\
    forall df, preprocessing.transform f1 df <> None ->
      Forall (fun name => exists x, getitem df name = Some (Float64 x))
             (map fst (accidentsTrain s)).
Proof.
  intros E. destruct (run_inv e csv s k E) as (f0 & X0 & f1 & X1 & R).
  pose proof (run_features e csv s k f0 X0 f1 X1 R) as HX.
  destruct R as (_ & _ & Et0 & _ & _ & _ & _ & _ & _ & Ef1 & _ & _ & _ & _ & _
                 & _ & H10 & _ & _ & _ & _ & _ & Hfiles).
  set (features := filter _ _) in HX.
  split.
  - rewrite HX, map_fst_DataFrame_of.
    pose proof (transform_labels f0 _ X0 Et0) as Hl.
    rewrite Forall_forall in Hl. apply Forall_forall. intros name Hn.
    apply in_map_iff in Hn. destruct Hn as (c & <- & Hc).
    apply filter_In in Hc. destruct Hc as [Hc _].
    apply in_map_iff in Hc. destruct Hc as (c0 & <- & Hc0).
    apply Hl. cbn [fst]. apply in_map. exact Hc0.
  - exists f1. split; [exact Hfiles|].
    destruct (preprocessing_fit_inv _ f1 Ef1) as (_ & En & _ & E1 & _).
    assert (Hnames : preprocessing.number_columns f1 = map fst (accidentsTrain s)).
    { rewrite En, HX, select_number_DataFrame_of, map_fst_DataFrame_of, map_map.
      reflexivity. }
    split; [exact Hnames|].
    intros df Hdf. rewrite <- Hnames.
    unfold preprocessing.transform in Hdf.
    unfold preprocessing.fit_block in E1.
    destruct (preprocessing.select_number (accidentsTrain s)) as [|c Xn] eqn:Esel.
    + exfalso. rewrite HX, select_number_DataFrame_of in Esel.
      rewrite HX in H10. destruct features; [cbn in H10; lia | discriminate].
    + destruct (num_pipeline.fit (c :: Xn)) as [p1|]; [|discriminate].
      injection E1 as E1. rewrite <- E1 in Hdf.
      unfold preprocessing.transform_block in Hdf at 1.
      destruct (preprocessing.pick_number df _) as [Xp|] eqn:Ep;
        [|contradiction Hdf; reflexivity].
      exact (pick_number_columns df _ Xp Ep).
Qed.

(** X13.  On a frame whose columns all have the same number of rows, the
    features of the pipelines are the training rows of the prepared array
    without the target column, float and without NaN.  So inside the
    pipelines nothing is one-hot encoded, and the imputer hands on every
    column as it came. *)
Theorem pipelines_refit_on_prepared_features (e : nat) (csv : DataFrame)
    (s : Session) (k : Kernel) (n : nat) :
  all_length n csv -> run e csv = Some (s, k) ->
  exists features f1 p1,
    accidentsTrain s = DataFrame_of features /\
    map fst features
    = filter (fun m => negb (String.eqb m label_column))
        (map fst (accidentsData_prepared s)) /\
    preprocessing.fit (accidentsTrain s) = Some f1 /\
    preprocessing.object_columns f1 = [] /\
    preprocessing.pipeline_2 f1 = None /\
    preprocessing.pipeline_1 f1 = Some p1 /\
    num_pipeline.imputed (num_pipeline.statistics_ p1)
      (preprocessing.select_number (accidentsTrain s)) = Some features.
Proof.
  intros Hn E.
  destruct (run_shapes e csv s k n Hn E) as (_ & _ & _ & _ & Hlen & HnX).
  destruct (run_inv e csv s k E) as (f0 & X0 & f1 & X1 & R).
  pose proof (run_features e csv s k f0 X0 f1 X1 R) as HX.
  destruct R as (_ & _ & _ & _ & Ep & _ & _ & _ & _ & Ef1 & _ & _ & _ & _ & _
                 & _ & H10 & _).
  rewrite HnX in H10.
  set (features := filter _ _) in HX.
  destruct (preprocessing_fit_inv _ f1 Ef1) as (_ & _ & Eo & E1 & E2).
  rewrite HX, select_object_DataFrame_of in Eo, E2.
  rewrite HX, select_number_DataFrame_of in E1.
  cbn [preprocessing.fit_block] in E2. injection E2 as E2.
  assert (Hne : Forall (fun c : Column R => snd c <> []) features).
  { rewrite HX in Hlen. unfold all_length, DataFrame_of in Hlen.
    rewrite Forall_map in Hlen. cbn [snd series_length] in Hlen.
    apply Forall_forall. intros c Hc. rewrite Forall_forall in Hlen.
    specialize (Hlen c Hc). rewrite length_map in Hlen.
    intros Hnil. rewrite Hnil in Hlen. cbn [length] in Hlen. lia. }
  unfold preprocessing.fit_block in E1.
  destruct (map _ features) as [|c Xn] eqn:Emap.
  { exfalso. destruct features; [|discriminate].
    rewrite HX in HnX. cbn [DataFrame_of map n_rows] in HnX. lia. }
  destruct (num_pipeline.fit (c :: Xn)) as [p1|] eqn:Ep1; [|discriminate].
  injection E1 as E1.
  exists features, f1, p1. split; [exact HX|].
  split.
  { unfold features.
    generalize (train_indices (n_rows (accidentsData_prepared s))). intros idx.
    rewrite Ep, map_fst_DataFrame_of.
    clear. induction X0 as [|c X0 IH]; [reflexivity|].
    cbn [map filter fst existsb]. rewrite orb_false_r.
    destruct (String.eqb (fst c) label_column); cbn [negb map fst];
      rewrite <- IH; reflexivity. }
  split; [exact Ef1|]. split; [exact Eo|]. split; [symmetry; exact E2|].
  split; [symmetry; exact E1|].
  destruct (num_pipeline_fit_inv _ _ Ep1) as (_ & Hi & _).
  rewrite HX, select_number_DataFrame_of, Emap, Hi, <- Emap.
  f_equal. apply impute_map_Some, Hne.
Qed.

(** X14.  [train_test_split(df, test_size=0.2, random_state=seed)] raises
    exactly on a frame of fewer than two rows.  Otherwise it leaves the
    kernel as it is, and the two frames are rows of [df]: every row is in
    one of them and in one only, [ceil(n / 5)] of them in the test set, and
    neither is empty. *)
Theorem train_test_split_partition (df : DataFrame) (seed : Z) (k : Kernel) :
  (train_test_split df (1, 5)%nat (Some seed) k = None <-> (n_rows df <= 1)%nat) /\
  forall train test k',
    train_test_split df (1, 5)%nat (Some seed) k = Some ((train, test), k') ->
    k' = k /\
    exists tr te,
      train = iloc df tr /\ test = iloc df te /\
      Permutation (te ++ tr) (seq 0 (n_rows df)) /\
      length te = n_test (n_rows df) /\
      (1 <= length te)%nat /\ (1 <= length tr)%nat.
Proof.
  assert (Hsmall : forall m, (m - n_test m = 0)%nat <-> (m <= 1)%nat).
  { intros m. unfold n_test. rewrite Nat.mul_1_r. split.
    - intros H. destruct (Nat.le_gt_cases m 1) as [|Hm]; [assumption|]. exfalso.
      assert ((m + 5 - 1) / 5 < m)%nat
        by (apply Nat.Div0.div_lt_upper_bound; lia).
      lia.
    - intros H. destruct m as [|[|m]]; [reflexivity | reflexivity | lia]. }
  split.
  - unfold train_test_split. cbn [fst snd]. fold (n_test (n_rows df)).
    destruct (Nat.eqb_spec (n_rows df - n_test (n_rows df)) 0) as [H0 | H0].
    + split; [intros _; apply Hsmall, H0 | reflexivity].
    + split; [discriminate|]. intros H. apply Hsmall in H. contradiction.
  - intros train test k' H.
    apply train_test_split_inv in H. cbv zeta in H.
    fold (n_test (n_rows df)) in H. destruct H as (Hlt & Hr & ->).
    injection Hr as -> ->. split; [reflexivity|].
    set (p := permutation _ _).
    assert (Hp : length p = n_rows df) by apply length_permutation.
    exists (firstn (n_rows df - n_test (n_rows df)) (skipn (n_test (n_rows df)) p)),
           (firstn (n_test (n_rows df)) p).
    split; [reflexivity|]. split; [reflexivity|].
    assert (Hpos : (1 <= n_test (n_rows df))%nat).
    { unfold n_test. rewrite Nat.mul_1_r.
      apply Nat.div_le_lower_bound; lia. }
    split; [|split; [|split]].
    + rewrite (firstn_all2 (skipn (n_test (n_rows df)) p)).
      * rewrite firstn_skipn. apply permutation_spec.
      * rewrite length_skipn, Hp. lia.
    + rewrite length_firstn, Hp. lia.
    + rewrite length_firstn, Hp. lia.
    + rewrite length_firstn, length_skipn, Hp. lia.
Qed.

End Reported.

Section OnThirteenAccidentsAgain.

Existing Instance stub.off_by_one.

Lemma reported_errors_not_negative_witness :
  exists s k,
    @run stub.off_by_one 0 stub.accidents = Some (s, k) /\
    0 <= rmse_rf s /\ length (tree_rmses s) = 10%nat.
Proof.
  destruct stub_run as (s & k & E). exists s, k. split; [exact E|].
  destruct (@reported_errors_not_negative stub.off_by_one 0 stub.accidents s k E)
    as (_ & _ & H1 & H2 & _).
  split; [exact H1 | exact H2].
Defined.

Lemma toarray_needs_sparse_output_witness :
  exists s k,
    @run stub.off_by_one 0 stub.accidents = Some (s, k) /\
    flat_map (impute_column SimpleImputer.most_frequent)
      (preprocessing.select_object (accidentsData s)) <> [].
Proof.
  destruct stub_run as (s & k & E). exists s, k. split; [exact E|].
  exact (proj1 (@toarray_needs_sparse_output stub.off_by_one 0 stub.accidents s k E)).
Defined.

Lemma saved_pipeline_expects_prepared_columns_witness :
  exists s k f1,
    @run stub.off_by_one 0 stub.accidents = Some (s, k) /\
    files k = [(model_file, {| pickled_preprocessing := Some f1;
                               pickled_pipeline := full_pipeline s |})] /\
    preprocessing.number_columns f1 = map fst (accidentsTrain s).
Proof.
  destruct stub_run as (s & k & E).
  destruct (@saved_pipeline_expects_prepared_columns stub.off_by_one 0
              stub.accidents s k E) as (_ & f1 & H1 & H2 & _).
  exists s, k, f1. split; [exact E|]. split; [exact H1 | exact H2].
Defined.

Lemma pipelines_refit_on_prepared_features_witness :
  exists s k features f1,
    @run stub.off_by_one 0 stub.accidents = Some (s, k) /\
    accidentsTrain s = DataFrame_of features /\
    preprocessing.fit (accidentsTrain s) = Some f1 /\
    preprocessing.pipeline_2 f1 = None.
Proof.
  destruct stub_run as (s & k & E).
  destruct (@pipelines_refit_on_prepared_features stub.off_by_one 0
              stub.accidents s k 13%nat stub_rectangular E)
    as (features & f1 & p1 & H1 & _ & H2 & _ & H3 & _).
  exists s, k, features, f1. split; [exact E|].
  split; [exact H1|]. split; [exact H2 | exact H3].
Defined.

Lemma train_test_split_partition_witness :
  exists train test k',
    @train_test_split stub.off_by_one stub.five (1, 5)%nat (Some 42%Z) (fresh 0)
    = Some ((train, test), k') /\
    k' = fresh 0.
Proof.
  destruct (@train_test_split_partition stub.off_by_one stub.five 42%Z (fresh 0))
    as [H1 H2].
  destruct (@train_test_split stub.off_by_one stub.five (1, 5)%nat (Some 42%Z)
              (fresh 0)) as [[[train test] k']|].
  - exists train, test, k'. split; [reflexivity|].
    exact (proj1 (H2 train test k' eq_refl)).
  - exfalso. pose proof (proj1 H1 eq_refl) as H.
    change (5 <= 1)%nat in H. lia.
Defined.

End OnThirteenAccidentsAgain.

(** ** The models of the cross-validation *)

Lemma length_take_le {A : Type} (idx : list nat) (xs : list A) :
  (length (take idx xs) <= length idx)%nat.
Proof.
  unfold take. induction idx as [|i idx IH]; [reflexivity|].
  cbn [flat_map length]. rewrite length_app.
  destruct (nth_error xs i); cbn [length]; lia.
Qed.

Lemma sequence_In {A B : Type} (f : A -> option B) (l : list A) (r : list B)
    (a : A) :
  sequence (map f l) = Some r -> In a l -> exists b, f a = Some b.
Proof.
  revert r. induction l as [|x l IH]; intros r; cbn [map sequence In];
    [contradiction|].
  destruct (f x) as [b|] eqn:E; [|discriminate].
  destruct (sequence (map f l)) as [r'|]; [|discriminate].
  intros _ [<- | Ha]; [eauto | exact (IH r' eq_refl Ha)].
Qed.

Lemma recording_run :
  exists s k, @run stub.recording 0 stub.accidents = Some (s, k).
Proof.
  destruct (@run stub.recording 0 stub.accidents) as [[s k]|] eqn:E; [eauto|].
  exfalso.
  assert (H : match @run stub.recording 0 stub.accidents with
              | Some _ => true
              | None => false
              end = true) by reflexivity.
  rewrite E in H. discriminate.
Qed.

Lemma recording_rows (s : @Session stub.recording) (k : @Kernel stub.recording) :
  @run stub.recording 0 stub.accidents = Some (s, k) ->
  n_rows (accidentsTrain s) = 10%nat.
Proof.
  intros E.
  assert (N : option_map (fun r => n_rows (accidentsTrain (fst r)))
                (@run stub.recording 0 stub.accidents) = Some 10%nat) by reflexivity.
  rewrite E in N. cbn [option_map fst] in N. injection N as N. exact N.
Qed.

(** C7 fails as stated.  With regressors that keep their training targets,
    the clone that the cross-validation trains for the first fold, on nine
    of the ten training rows, is a model that none of the three pipelines
    holds: a fourth model is trained. *)
Lemma cross_validation_trains_further_trees :
  exists s k fold f m,
    @run stub.recording 0 stub.accidents = Some (s, k) /\
    In fold (KFold 10 (n_rows (accidentsTrain s))) /\
    @trained_on_fold stub.recording (accidentsTrain s) (accidentsTrain_labels s)
      fold f m /\
    ~ In (Some m) (map model_ [lin_reg s; tree_reg s; full_pipeline s]).
Proof.
  destruct recording_run as (s & k & E).
  pose proof (recording_rows s k E) as Hrows.
  destruct (@run_inv stub.recording 0 stub.accidents s k E)
    as (f0 & X0 & f1 & X1 & R).
  unfold ran in R. cbn zeta in R.
  destruct R as (_ & _ & _ & _ & _ & _ & _ & _ & _ & _ & _ & Hy & Hl & _ & Ht & _
                 & _ & (scores & Hs & _) & Hf & _).
  assert (Hfold : In (seq 1 9, [0%nat]) (KFold 10 (n_rows (accidentsTrain s)))).
  { rewrite Hrows. left. reflexivity. }
  destruct (sequence_In _ _ _ _ Hs Hfold) as [sc Hsc].
  destruct (@fold_score_inv stub.recording _ _ _ _ _ Hsc)
    as (f & m & Xs & Hm & _).
  exists s, k, (seq 1 9, [0%nat]), f, m.
  split; [exact E|]. split; [exact Hfold|]. split; [exact Hm|].
  destruct Hm as (_ & Xt & _ & ->). rewrite Hl, Ht, Hf.
  cbn [map model_ fst]. rewrite Hrows in Hy.
  pose proof (length_take_le (seq 1 9) (accidentsTrain_labels s)) as Hle.
  rewrite length_seq in Hle.
  intros [H | [H | [H | []]]]; injection H as H;
    change (accidentsTrain_labels s = take (seq 1 9) (accidentsTrain_labels s)) in H;
    rewrite <- H in Hle; lia.
Qed.
